(** * A presence-and-broadcast relay: shallow embedding of the server

    The repository holds two variants of one Node.js program:
    [src/unnamed/part_000] (history buffer, 10 s grace period, a
    [broadcastUserState] helper) and [src/server.js] (no history, 30 s grace
    period, no [broadcastUserState]).  Both are embedded by one set of
    definitions indexed by a [Variant]; the three differences are the three
    fields of that record.

    The module-level variables of the program ([userState], [messages],
    [deletionTimers], [connectedUsers]), the set [wsServer.clients], the
    closure variable [currentUserId] of each connection and the runtime's table
    of armed timers form the state.  What the program does to the outside
    (socket sends, file writes, log lines, HTTP responses) is recorded as a
    list of effects, in program order. *)

From stdpp Require Import gmap strings list fin_maps.

Set Warnings "-register-all".

Open Scope string_scope.
Open Scope list_scope.
Open Scope Z_scope.

(** ** JavaScript values *)

(** Values as [JSON.parse] builds them, plus [undefined].  Arrays and objects
    carry the identity of the heap object: [===] and [Map] keys compare
    objects by identity, not by content.  Numbers are kept as integers: the
    program only tests them for truthiness and equality. *)
Inductive Value : Type :=
| VUndefined
| VNull
| VBool (b : bool)
| VNum (n : Z)
| VStr (s : string)
| VArr (ref : nat) (elems : list Value)
| VObj (ref : nat) (fields : list (string * Value)).

(** What [===] and the SameValueZero comparison of [Map] look at. *)
Inductive Key : Type :=
| KUndefined
| KNull
| KBool (b : bool)
| KNum (n : Z)
| KStr (s : string)
| KRef (ref : nat).

#[global] Instance Key_eq_dec : EqDecision Key.
Proof. solve_decision. Defined.

#[global] Instance Key_countable : Countable Key.
Proof.
  refine (inj_countable'
    (fun k => match k with
              | KUndefined => inl false
              | KNull => inl true
              | KBool b => inr (inl b)
              | KNum n => inr (inr (inl n))
              | KStr s => inr (inr (inr (inl s)))
              | KRef r => inr (inr (inr (inr r)))
              end)
    (fun c => match c with
              | inl false => KUndefined
              | inl true => KNull
              | inr (inl b) => KBool b
              | inr (inr (inl n)) => KNum n
              | inr (inr (inr (inl s))) => KStr s
              | inr (inr (inr (inr r))) => KRef r
              end) _).
  by intros [].
Defined.

Definition key_of (v : Value) : Key :=
  match v with
  | VUndefined => KUndefined
  | VNull => KNull
  | VBool b => KBool b
  | VNum n => KNum n
  | VStr s => KStr s
  | VArr r _ => KRef r
  | VObj r _ => KRef r
  end.

(** [a === b] *)
Definition strict_equals (a b : Value) : bool :=
  bool_decide (key_of a = key_of b).

(** ToBoolean *)
Definition truthy (v : Value) : bool :=
  match v with
  | VUndefined | VNull => false
  | VBool b => b
  | VNum n => negb (n =? 0)
  | VStr s => negb (String.eqb s "")
  | VArr _ _ | VObj _ _ => true
  end.

(** The four property names the program reads. *)
Inductive Field : Type := f_type | f_user | f_id | f_name.

Definition field_name (f : Field) : string :=
  match f with
  | f_type => "type"
  | f_user => "user"
  | f_id => "id"
  | f_name => "name"
  end.

(** The own property [k] of an object; [JSON.parse] leaves each key once. *)
Fixpoint lookup_field (k : string) (fields : list (string * Value)) : Value :=
  match fields with
  | [] => VUndefined
  | (k', v) :: rest => if String.eqb k k' then v else lookup_field k rest
  end.

(** The exceptions the program can raise: the two of the language and the one
    Node.js raises when a header is set after the response has gone out. *)
Inductive JsError : Type := SyntaxError | TypeError | ERR_HTTP_HEADERS_SENT.

(** [v.f]: a [TypeError] on [null] and [undefined]; [undefined] on the other
    primitives and on arrays, which have no property of these four names. *)
Definition get_prop (v : Value) (f : Field) : JsError + Value :=
  match v with
  | VUndefined | VNull => inl TypeError
  | VObj _ fields => inr (lookup_field (field_name f) fields)
  | _ => inr VUndefined
  end.

(** ToString, as a template literal applies it to what it interpolates, throws
    a [TypeError] on some values: an object that [JSON.parse] built with an own
    property [toString] (no JSON value is callable, and [valueOf] then returns
    the object itself), and an array with such an element ([join] converts
    each element but [null] and [undefined]).  Every other value has a string. *)
Fixpoint ToString_throws (v : Value) : bool :=
  match v with
  | VObj _ fields => existsb (fun kv => String.eqb (fst kv) "toString") fields
  | VArr _ elems => existsb ToString_throws elems
  | _ => false
  end.

(** [Object.keys(v).length] *)
Definition Object_keys_length (v : Value) : JsError + nat :=
  match v with
  | VUndefined | VNull => inl TypeError
  | VBool _ | VNum _ => inr 0%nat
  | VStr s => inr (String.length s)
  | VArr _ elems => inr (length elems)
  | VObj _ fields => inr (length fields)
  end.

(** ** Data of the program *)

Record User : Type := { id : Value; name : Value }.

(** An inbound frame: the bytes as received, the [isBinary] flag, and what
    [JSON.parse] makes of the bytes ([None] when it throws). *)
Record Frame : Type := {
  data : string;
  isBinary : bool;
  parsed : option Value
}.

Inductive ReadyState : Type := CONNECTING | OPEN | CLOSING | CLOSED.

#[global] Instance ReadyState_eq_dec : EqDecision ReadyState.
Proof. solve_decision. Defined.

(** One accepted connection: its [readyState] and the [currentUserId] variable
    its handlers close over. *)
Record Socket : Type := {
  readyState : ReadyState;
  currentUserId : Value
}.

(** An armed timer of [scheduleDeletion]: the [userId] its callback closes
    over and the time it is due. *)
Record Timer : Type := {
  t_userId : Value;
  t_fireAt : Z
}.

Record Variant : Type := {
  grace : Z;                       (* delay given to setTimeout, in ms *)
  has_history : bool;              (* the [messages] array exists *)
  has_broadcastUserState : bool    (* [broadcastUserState] exists and is called *)
}.

Definition part_000 : Variant :=
  {| grace := 10000; has_history := true; has_broadcastUserState := true |}.

Definition server_js : Variant :=
  {| grace := 30000; has_history := false; has_broadcastUserState := false |}.

Record Server : Type := {
  userState : list User;
  messages : list Value;
  deletionTimers : gmap Key nat;   (* Map: userId -> timer handle *)
  connectedUsers : gset nat;       (* Map keyed by connection; never written *)
  clients : list nat;              (* wsServer.clients, in insertion order *)
  sockets : gmap nat Socket;
  timers : gmap nat Timer;         (* armed timers, by handle *)
  next_timer : nat;                (* handles are never reused *)
  now : Z
}.

(** ** Effects *)

Inductive Payload : Type :=
| Roster (users : list User)            (* JSON.stringify(userState) *)
| History (msgs : list Value)           (* {type: 'messages', messages} *)
| Raw (bytes : string) (binary : bool). (* msg, {binary: isBinary} *)

Inductive LogLine : Type :=
| SavedUserState
| SaveFailed
| Broadcasted
| UserDeleted (userId : Value)
| DeletionCancelled (userId : Value)
| NewUserCreated (u : User)
| AlreadyExist (name : Value)
| MessageReceived (m : Value)
| ExitScheduled (name : Value)
| MessageSentToAll
| UserJoined (name : Value)
| Disconnected (userId : Value).

Inductive Body : Type :=
| BodyError (message : string)
| BodyUser (user : User)
| BodyOk.

Inductive Effect : Type :=
| Send (ws : nat) (p : Payload)
| WriteFile (users : list User)
| LogInfo (l : LogLine)
| LogError (l : LogLine)
| Respond (status : nat) (b : Body).

(** ** A monad for state, effects and exceptions *)

Inductive Completion (A : Type) : Type :=
| Normal (a : A)
| Throw (e : JsError).
Arguments Normal {A} a.
Arguments Throw {A} e.

Definition M (A : Type) : Type := Server -> Completion A * Server * list Effect.

#[global] Instance M_ret : MRet M := fun A a s => (Normal a, s, []).

(** Sequencing stops at the first exception; what was done before it stays
    done. *)
#[global] Instance M_bind : MBind M := fun A B k m s =>
  match m s with
  | (Normal a, s1, o1) =>
      match k a s1 with
      | (r, s2, o2) => (r, s2, o1 ++ o2)
      end
  | (Throw e, s1, o1) => (Throw e, s1, o1)
  end.

Definition get_state : M Server := fun s => (Normal s, s, []).
Definition modify (f : Server -> Server) : M unit := fun s => (Normal tt, f s, []).
Definition emit (o : list Effect) : M unit := fun s => (Normal tt, s, o).
Definition throw {A} (e : JsError) : M A := fun s => (Throw e, s, []).
Definition lift {A} (r : JsError + A) : M A :=
  match r with
  | inl e => throw e
  | inr a => mret a
  end.
Definition when (b : bool) (m : M unit) : M unit := if b then m else mret tt.

(** [`... ${x} ...`]: the text itself is not kept, only whether building it
    throws. *)
Definition interpolate (x : Value) : M unit :=
  when (ToString_throws x) (throw TypeError).

(** Field updates. *)
Definition set_userState (us : list User) (s : Server) : Server :=
  {| userState := us; messages := messages s; deletionTimers := deletionTimers s;
     connectedUsers := connectedUsers s; clients := clients s; sockets := sockets s;
     timers := timers s; next_timer := next_timer s; now := now s |}.
Definition set_messages (ms : list Value) (s : Server) : Server :=
  {| userState := userState s; messages := ms; deletionTimers := deletionTimers s;
     connectedUsers := connectedUsers s; clients := clients s; sockets := sockets s;
     timers := timers s; next_timer := next_timer s; now := now s |}.
Definition set_deletionTimers (d : gmap Key nat) (s : Server) : Server :=
  {| userState := userState s; messages := messages s; deletionTimers := d;
     connectedUsers := connectedUsers s; clients := clients s; sockets := sockets s;
     timers := timers s; next_timer := next_timer s; now := now s |}.
Definition set_connectedUsers (c : gset nat) (s : Server) : Server :=
  {| userState := userState s; messages := messages s; deletionTimers := deletionTimers s;
     connectedUsers := c; clients := clients s; sockets := sockets s;
     timers := timers s; next_timer := next_timer s; now := now s |}.
Definition set_clients (c : list nat) (s : Server) : Server :=
  {| userState := userState s; messages := messages s; deletionTimers := deletionTimers s;
     connectedUsers := connectedUsers s; clients := c; sockets := sockets s;
     timers := timers s; next_timer := next_timer s; now := now s |}.
Definition set_sockets (k : gmap nat Socket) (s : Server) : Server :=
  {| userState := userState s; messages := messages s; deletionTimers := deletionTimers s;
     connectedUsers := connectedUsers s; clients := clients s; sockets := k;
     timers := timers s; next_timer := next_timer s; now := now s |}.
Definition set_timers (t : gmap nat Timer) (n : nat) (s : Server) : Server :=
  {| userState := userState s; messages := messages s; deletionTimers := deletionTimers s;
     connectedUsers := connectedUsers s; clients := clients s; sockets := sockets s;
     timers := t; next_timer := n; now := now s |}.
Definition set_now (t : Z) (s : Server) : Server :=
  {| userState := userState s; messages := messages s; deletionTimers := deletionTimers s;
     connectedUsers := connectedUsers s; clients := clients s; sockets := sockets s;
     timers := timers s; next_timer := next_timer s; now := t |}.

(** ** The helpers of the program *)

Definition is_open (s : Server) (ws : nat) : bool :=
  match sockets s !! ws with
  | Some k => bool_decide (readyState k = OPEN)
  | None => false
  end.

(** [[...wsServer.clients].filter((o) => o.readyState === WebSocket.OPEN)] *)
Definition open_clients (s : Server) : list nat :=
  List.filter (is_open s) (clients s).

(** [.forEach((o) => o.send(p))] over the open clients *)
Definition send_all (p : Payload) : M unit :=
  s ← get_state;
  emit (map (fun ws => Send ws p) (open_clients s)).

(** [saveUserState]: the write is attempted; [fs_ok] tells whether
    [fs.writeFileSync] returns or throws into the [catch]. *)
Definition saveUserState (fs_ok : bool) : M unit :=
  s ← get_state;
  emit [WriteFile (userState s)];;
  if fs_ok then emit [LogInfo SavedUserState] else emit [LogError SaveFailed].

Definition broadcastUserState : M unit :=
  s ← get_state;
  send_all (Roster (userState s));;
  emit [LogInfo Broadcasted].

Definition clearTimeout (h : nat) : M unit :=
  modify (fun s => set_timers (delete h (timers s)) (next_timer s) s).

(** [setTimeout(() => ..., delay)] for the callback of [scheduleDeletion]
    closed over [userId]; returns the new handle. *)
Definition setTimeout (userId : Value) (delay : Z) : M nat :=
  s ← get_state;
  modify (set_timers
            (<[next_timer s := {| t_userId := userId; t_fireAt := now s + delay |}]>
               (timers s))
            (S (next_timer s)));;
  mret (next_timer s).

Definition scheduleDeletion (v : Variant) (userId : Value) : M unit :=
  s ← get_state;
  match deletionTimers s !! key_of userId with
  | Some h => clearTimeout h
  | None => mret tt
  end;;
  h ← setTimeout userId (grace v);
  modify (fun s => set_deletionTimers (<[key_of userId := h]> (deletionTimers s)) s).

(** [userState.findIndex(user => user.id === userId)], [None] for [-1] *)
Fixpoint findIndex (userId : Value) (us : list User) : option nat :=
  match us with
  | [] => None
  | u :: rest =>
      if strict_equals (id u) userId then Some 0%nat
      else S <$> findIndex userId rest
  end.

(** The callback armed by [scheduleDeletion].  Its log line interpolates
    [userId] only after [findIndex] has found a roster entry whose id is
    [=== userId]; an id that came from a frame is then a primitive (an object
    out of [JSON.parse] is identical to no roster id), so the interpolation
    does not throw. *)
Definition deletion_timeout (v : Variant) (userId : Value) (fs_ok : bool) : M unit :=
  s ← get_state;
  match findIndex userId (userState s) with
  | Some idx =>
      modify (set_userState (delete idx (userState s)));;
      saveUserState fs_ok;;
      when (has_broadcastUserState v) broadcastUserState;;
      emit [LogInfo (UserDeleted userId)]
  | None => mret tt
  end;;
  modify (fun s => set_deletionTimers (delete (key_of userId) (deletionTimers s)) s).

(** [cancelDeletion].  Its log line interpolates [userId] only when
    [deletionTimers.has(userId)]; the handlers pass it the id of the frame
    being handled, fresh out of [JSON.parse], which is a key of the map only
    when it is a primitive, so the interpolation does not throw. *)
Definition cancelDeletion (userId : Value) : M unit :=
  s ← get_state;
  match deletionTimers s !! key_of userId with
  | Some h =>
      clearTimeout h;;
      modify (fun s => set_deletionTimers (delete (key_of userId) (deletionTimers s)) s);;
      emit [LogInfo (DeletionCancelled userId)]
  | None => mret tt
  end.

(** ** The HTTP handlers *)

Definition name_taken : string := "This name is already taken!".

(** [response.status(status).send(...)]: [send] sets headers before it writes,
    which throws once a response has gone out for the request
    ([headersSent]); nothing is sent then. *)
Definition response_send (headersSent : bool) (status : nat) (b : Body) : M unit :=
  if headersSent then throw ERR_HTTP_HEADERS_SENT else emit [Respond status b].

(** [app.post("/new-user", ...)]; [uuid] is what [randomUUID()] returns.  The
    handler does not return after the 400 of an empty body: what follows runs
    with the response already sent. *)
Definition new_user (v : Variant) (body : Value) (uuid : string) (fs_ok : bool)
  : M unit :=
  n ← lift (Object_keys_length body);
  when (n =? 0)%nat (response_send false 400 (BodyError name_taken));;
  let headersSent := (n =? 0)%nat in
  nm ← lift (get_prop body f_name);
  s ← get_state;
  match List.find (fun user => strict_equals (name user) nm) (userState s) with
  | None =>
      let newUser := {| id := VStr uuid; name := nm |} in
      modify (set_userState (userState s ++ [newUser]));;
      saveUserState fs_ok;;
      when (has_broadcastUserState v) broadcastUserState;;
      emit [LogInfo (NewUserCreated newUser)];;
      response_send headersSent 200 (BodyUser newUser)
  | Some _ =>
      interpolate nm;;
      emit [LogError (AlreadyExist nm)];;
      response_send headersSent 409 (BodyError name_taken)
  end.

(** [app.post("/verify-user", ...)] *)
Definition verify_user (body : Value) : M unit :=
  i ← lift (get_prop body f_id);
  nm ← lift (get_prop body f_name);
  s ← get_state;
  if existsb (fun user => strict_equals (id user) i && strict_equals (name user) nm)
       (userState s)
  then emit [Respond 200 BodyOk]
  else emit [Respond 404 (BodyError "User not found")].

(** ** The connection handlers *)

Definition read_currentUserId (ws : nat) : M Value :=
  s ← get_state;
  mret (match sockets s !! ws with
        | Some k => currentUserId k
        | None => VNull
        end).

Definition write_currentUserId (ws : nat) (x : Value) : M unit :=
  modify (fun s =>
    set_sockets
      (alter (fun k => {| readyState := readyState k; currentUserId := x |}) ws
         (sockets s)) s).

Definition connectedUsers_delete (ws : nat) : M unit :=
  modify (fun s => set_connectedUsers (connectedUsers s ∖ {[ws]}) s).

(** [ws.on("message", (msg, isBinary) => ...)] *)
Definition on_message (v : Variant) (ws : nat) (msg : Frame) : M unit :=
  receivedMSG ← match parsed msg with
                | Some m => mret m
                | None => throw SyntaxError
                end;
  emit [LogInfo (MessageReceived receivedMSG)];;
  user ← lift (get_prop receivedMSG f_user);
  (* receivedMSG.user && receivedMSG.user.id *)
  announced ← (if truthy user then lift (get_prop user f_id) else mret user);
  when (truthy announced)
    (write_currentUserId ws announced;;
     cancelDeletion announced);;
  ty ← lift (get_prop receivedMSG f_type);
  if strict_equals ty (VStr "exit") then
    cur ← read_currentUserId ws;
    when (truthy cur)
      (scheduleDeletion v cur;;
       connectedUsers_delete ws);;
    s ← get_state;
    send_all (Roster (userState s));;
    who ← (if truthy user then lift (get_prop user f_name) else mret (VStr "unknown"));
    interpolate who;;
    emit [LogInfo (ExitScheduled who)]
  else
    when (strict_equals ty (VStr "send"))
      (when (has_history v)
         (modify (fun s => set_messages (messages s ++ [receivedMSG]) s));;
       send_all (Raw (data msg) (isBinary msg));;
       emit [LogInfo MessageSentToAll]);;
    when (strict_equals ty (VStr "join"))
      (when (truthy user)
         (uid ← lift (get_prop user f_id);
          write_currentUserId ws uid;;
          cancelDeletion uid;;
          who ← lift (get_prop user f_name);
          interpolate who;;
          emit [LogInfo (UserJoined who)];;
          when (has_history v)
            (s ← get_state;
             when (0 <? length (messages s))%nat
               (emit [Send ws (History (messages s))])))).

(** [ws.on("close", () => ...)] *)
Definition on_close (v : Variant) (ws : nat) : M unit :=
  cur ← read_currentUserId ws;
  when (truthy cur)
    (scheduleDeletion v cur;;
     connectedUsers_delete ws;;
     interpolate cur;;
     emit [LogInfo (Disconnected cur)];;
     s ← get_state;
     send_all (Roster (userState s))).

(** [wsServer.on("connection", (ws) => ...)]: declares [currentUserId],
    installs the two handlers above and broadcasts the roster. *)
Definition on_connection (ws : nat) : M unit :=
  write_currentUserId ws VNull;;
  s ← get_state;
  send_all (Roster (userState s)).

(** ** The runtime: events delivered to the program *)

Inductive Event : Type :=
| EvConnection (ws : nat)
| EvMessage (ws : nat) (msg : Frame)
| EvClosing (ws : nat)
| EvClose (ws : nat)
| EvTimeout (h : nat) (fs_ok : bool)
| EvNewUser (body : Value) (uuid : string) (fs_ok : bool)
| EvVerifyUser (body : Value)
| EvTick (dt : Z).

(** What the [ws] library does before it emits the event. *)
Definition accept (ws : nat) (s : Server) : Server :=
  set_clients (clients s ++ [ws])
    (set_sockets (<[ws := {| readyState := OPEN; currentUserId := VUndefined |}]>
                    (sockets s)) s).

Definition set_readyState (ws : nat) (r : ReadyState) (s : Server) : Server :=
  set_sockets
    (alter (fun k => {| readyState := r; currentUserId := currentUserId k |}) ws
       (sockets s)) s.

Definition closed (ws : nat) (s : Server) : Server :=
  set_clients (List.filter (fun c => negb (c =? ws)%nat) (clients s))
    (set_readyState ws CLOSED s).

Definition disarm (h : nat) (s : Server) : Server :=
  set_timers (delete h (timers s)) (next_timer s) s.

Definition is_client (s : Server) (ws : nat) : bool :=
  existsb (fun c => (c =? ws)%nat) (clients s).

(** One event; [None] when the runtime cannot deliver it in this state. *)
Definition step (v : Variant) (e : Event) (s : Server)
  : option (Completion unit * Server * list Effect) :=
  match e with
  | EvConnection ws =>
      match sockets s !! ws with
      | None => Some (on_connection ws (accept ws s))
      | Some _ => None
      end
  | EvMessage ws msg =>
      if is_client s ws then Some (on_message v ws msg s) else None
  | EvClosing ws =>
      if is_open s ws then Some (Normal tt, set_readyState ws CLOSING s, []) else None
  | EvClose ws =>
      if is_client s ws then Some (on_close v ws (closed ws s)) else None
  | EvTimeout h fs_ok =>
      match timers s !! h with
      | Some t =>
          if t_fireAt t <=? now s
          then Some (deletion_timeout v (t_userId t) fs_ok (disarm h s))
          else None
      | None => None
      end
  | EvNewUser body uuid fs_ok => Some (new_user v body uuid fs_ok s)
  | EvVerifyUser body => Some (verify_user body s)
  | EvTick dt =>
      if 0 <=? dt then Some (Normal tt, set_now (now s + dt) s, []) else None
  end.

(** A sequence of events, with the effects of all of them in order.  An
    exception that leaves a handler is left to the runtime; later events are
    still delivered here, which covers every way the runtime may go on. *)
Fixpoint run (v : Variant) (evs : list Event) (s : Server)
  : option (Server * list Effect) :=
  match evs with
  | [] => Some (s, [])
  | e :: rest =>
      match step v e s with
      | Some (_, s1, o1) =>
          match run v rest s1 with
          | Some (s2, o2) => Some (s2, o1 ++ o2)
          | None => None
          end
      | None => None
      end
  end.

(** The state after start-up, [roster] being what was read from the file. *)
Definition init (roster : list User) : Server :=
  {| userState := roster; messages := []; deletionTimers := ∅;
     connectedUsers := ∅; clients := []; sockets := ∅;
     timers := ∅; next_timer := 0; now := 0 |}.

Inductive reachable (v : Variant) : Server -> Prop :=
| reach_init roster : reachable v (init roster)
| reach_step s e r s' o :
    reachable v s -> step v e s = Some (r, s', o) -> reachable v s'.

(** ** The helpers in closed form

    [scheduleDeletion] and [cancelDeletion] never throw; the state they leave
    and the lines they log are given here as functions of the state they
    start from ([cancelDeletion_eq] and [scheduleDeletion_eq] below). *)

Definition after_cancelDeletion (userId : Value) (s : Server) : Server :=
  match deletionTimers s !! key_of userId with
  | Some h =>
      set_deletionTimers (delete (key_of userId) (deletionTimers s))
        (set_timers (delete h (timers s)) (next_timer s) s)
  | None => s
  end.

Definition log_cancelDeletion (userId : Value) (s : Server) : list Effect :=
  match deletionTimers s !! key_of userId with
  | Some _ => [LogInfo (DeletionCancelled userId)]
  | None => []
  end.

Definition after_scheduleDeletion (v : Variant) (userId : Value) (s : Server)
  : Server :=
  set_deletionTimers (<[key_of userId := next_timer s]> (deletionTimers s))
    (set_timers
       (<[next_timer s := {| t_userId := userId; t_fireAt := now s + grace v |}]>
          (match deletionTimers s !! key_of userId with
           | Some h => delete h (timers s)
           | None => timers s
           end))
       (S (next_timer s)) s).

(** The timer callback in closed form ([deletion_timeout_eq] below). *)
Definition after_deletion_timeout (userId : Value) (s : Server) : Server :=
  set_deletionTimers (delete (key_of userId) (deletionTimers s))
    (match findIndex userId (userState s) with
     | Some idx => set_userState (delete idx (userState s)) s
     | None => s
     end).

Definition effects_deletion_timeout (v : Variant) (userId : Value) (fs_ok : bool)
  (s : Server) : list Effect :=
  match findIndex userId (userState s) with
  | Some idx =>
      [WriteFile (delete idx (userState s));
       if fs_ok then LogInfo SavedUserState else LogError SaveFailed]
      ++ (if has_broadcastUserState v
          then map (fun ws => Send ws (Roster (delete idx (userState s))))
                 (open_clients s)
               ++ [LogInfo Broadcasted]
          else [])
      ++ [LogInfo (UserDeleted userId)]
  | None => []
  end.

(** ** Observations on effect lists *)

(** The socket sends among a list of effects, in order. *)
Fixpoint sends (o : list Effect) : list (nat * Payload) :=
  match o with
  | [] => []
  | Send ws p :: rest => (ws, p) :: sends rest
  | _ :: rest => sends rest
  end.

(** The file writes among a list of effects, in order. *)
Fixpoint writes (o : list Effect) : list (list User) :=
  match o with
  | [] => []
  | WriteFile us :: rest => us :: writes rest
  | _ :: rest => writes rest
  end.

(** The HTTP responses among a list of effects, in order. *)
Fixpoint responses (o : list Effect) : list (nat * Body) :=
  match o with
  | [] => []
  | Respond c b :: rest => (c, b) :: responses rest
  | _ :: rest => responses rest
  end.

(** The log lines among a list of effects, in order. *)
Fixpoint logs (o : list Effect) : list LogLine :=
  match o with
  | [] => []
  | LogInfo l :: rest => l :: logs rest
  | LogError l :: rest => l :: logs rest
  | _ :: rest => logs rest
  end.

(** [p] sent to each of [targets], in that order *)
Definition fan_out (p : Payload) (targets : list nat) : list (nat * Payload) :=
  map (fun ws => (ws, p)) targets.

(** ** Sample data used by the closed examples *)

Definition alice : User := {| id := VStr "A"; name := VStr "alice" |}.

Definition garbage : Frame :=
  {| data := "{oops"; isBinary := false; parsed := None |}.

(** A text frame and what [JSON.parse] returns for it. *)
Definition frame_of (text : string) (m : Value) : Frame :=
  {| data := text; isBinary := false; parsed := Some m |}.

(** [s] between double quotes *)
Definition q (s : string) : string :=
  String (Ascii.ascii_of_nat 34) (s +:+ String (Ascii.ascii_of_nat 34) EmptyString).

Definition alice_text : string :=
  "{" +:+ q "id" +:+ ":" +:+ q "A" +:+ "," +:+ q "name" +:+ ":" +:+ q "alice" +:+ "}".

Definition exit_bare : Frame :=
  frame_of ("{" +:+ q "type" +:+ ":" +:+ q "exit" +:+ "}")
    (VObj 10 [("type", VStr "exit")]).

Definition exit_alice : Frame :=
  frame_of ("{" +:+ q "type" +:+ ":" +:+ q "exit" +:+ ","
            +:+ q "user" +:+ ":" +:+ alice_text +:+ "}")
    (VObj 11 [("type", VStr "exit");
              ("user", VObj 12 [("id", VStr "A"); ("name", VStr "alice")])]).

Definition send_hi : Frame :=
  frame_of ("{" +:+ q "type" +:+ ":" +:+ q "send" +:+ ","
            +:+ q "text" +:+ ":" +:+ q "hi" +:+ "}")
    (VObj 13 [("type", VStr "send"); ("text", VStr "hi")]).

Definition join_alice : Frame :=
  frame_of ("{" +:+ q "type" +:+ ":" +:+ q "join" +:+ ","
            +:+ q "user" +:+ ":" +:+ alice_text +:+ "}")
    (VObj 14 [("type", VStr "join");
              ("user", VObj 15 [("id", VStr "A"); ("name", VStr "alice")])]).

Definition join_anonymous : Frame :=
  frame_of ("{" +:+ q "type" +:+ ":" +:+ q "join" +:+ "}")
    (VObj 16 [("type", VStr "join")]).

Definition send_again : Frame :=
  frame_of ("{" +:+ q "type" +:+ ":" +:+ q "send" +:+ ","
            +:+ q "text" +:+ ":" +:+ q "again" +:+ "}")
    (VObj 17 [("type", VStr "send"); ("text", VStr "again")]).

(** Two clients; the first sends twice, with a frame that is not JSON in
    between. *)
Definition two_sends : list Event :=
  [EvConnection 1%nat; EvMessage 1%nat send_hi; EvMessage 1%nat garbage;
   EvConnection 2%nat; EvMessage 1%nat send_again].

(** Two clients, each sends once. *)
Definition two_senders : list Event :=
  [EvConnection 1%nat; EvMessage 1%nat send_hi;
   EvConnection 2%nat; EvMessage 2%nat send_again].

(** A join whose [user] is a string, not an object. *)
Definition join_string : Frame :=
  frame_of ("{" +:+ q "type" +:+ ":" +:+ q "join" +:+ ","
            +:+ q "user" +:+ ":" +:+ q "bob" +:+ "}")
    (VObj 18 [("type", VStr "join"); ("user", VStr "bob")]).

(** A user whose name has no string: [{"id":"A","name":{"toString":1}}]. *)
Definition unprintable_alice : Value :=
  VObj 31 [("id", VStr "A"); ("name", VObj 32 [("toString", VNum 1)])].

Definition unprintable_text : string :=
  "{" +:+ q "id" +:+ ":" +:+ q "A" +:+ "," +:+ q "name" +:+ ":{"
  +:+ q "toString" +:+ ":1}}".

Definition join_unprintable : Frame :=
  frame_of ("{" +:+ q "type" +:+ ":" +:+ q "join" +:+ ","
            +:+ q "user" +:+ ":" +:+ unprintable_text +:+ "}")
    (VObj 30 [("type", VStr "join"); ("user", unprintable_alice)]).

(** One client connects and the 30 s of the other variant go by. *)
Definition quiet_interval : list Event :=
  [EvConnection 1%nat; EvTick 30000].

Definition busy_interval : list Event :=
  [EvConnection 1%nat; EvMessage 1%nat send_hi; EvTick 10000].

(** The state and the effects of delivering [evs] in [s] ([s] itself and
    nothing if [evs] cannot be delivered). *)
Definition state_after (v : Variant) (evs : list Event) (s : Server) : Server :=
  match run v evs s with
  | Some (s', _) => s'
  | None => s
  end.

Definition effects_after (v : Variant) (evs : list Event) (s : Server)
  : list Effect :=
  match run v evs s with
  | Some (_, o) => o
  | None => []
  end.

(** The state reached from start-up by [evs]. *)
Definition after (v : Variant) (roster : list User) (evs : list Event) : Server :=
  state_after v evs (init roster).

(** The [currentUserId] of connection [ws]. *)
Definition current_of (s : Server) (ws : nat) : Value :=
  match sockets s !! ws with
  | Some k => currentUserId k
  | None => VNull
  end.

(** [receivedMSG.user.name], for a parsed object with these fields whose
    [user] is truthy. *)
Definition user_name (fields : list (string * Value)) : Value :=
  match get_prop (lookup_field "user" fields) f_name with
  | inr x => x
  | inl _ => VUndefined
  end.


(** How a handler ends that interpolates [x] into its last log line. *)
Definition after_interpolating (x : Value) : Completion unit :=
  if ToString_throws x then Throw TypeError else Normal tt.

(** ** Properties the specification asks for, as predicates on the model *)

(** "log and drop": the handler returns normally, leaves the state as it was
    and writes a log line. *)
Definition logged_and_dropped (v : Variant) (ws : nat) (msg : Frame) (s : Server)
  : Prop :=
  exists o, on_message v ws msg s = (Normal tt, s, o) /\ logs o <> [].

(** An empty-body registration answers once with status 400 and changes
    nothing: the roster is as before and the file is not written. *)
Definition rejected_without_change (v : Variant) (body : Value) (uuid : string)
  (fs_ok : bool) (s : Server) : Prop :=
  exists r o, new_user v body uuid fs_ok s = (r, s, o)
              /\ writes o = []
              /\ exists b, responses o = [(400%nat, b)].

(** The admit step sends to the new connection only. *)
Definition admits_privately (v : Variant) (ws : nat) (s : Server) : Prop :=
  forall r s' o, step v (EvConnection ws) s = Some (r, s', o) ->
    forall c p, (c, p) ∈ sends o -> c = ws.

(** ** Invariants *)

(** [m] keeps [P], whether it returns or throws. *)
Definition preserves {A} (P : Server -> Prop) (m : M A) : Prop :=
  forall s, P s -> P (m s).1.2.

(** Handle [h] is an armed eviction timer for identity [u]. *)
Definition pending_for (s : Server) (u : Value) (h : nat) : Prop :=
  exists t, timers s !! h = Some t /\ key_of (t_userId t) = key_of u.

(** The [deletionTimers] map and the armed timers describe each other, and
    fresh handles are fresh. *)
Record timers_consistent (s : Server) : Prop := {
  armed_recorded : forall h t,
    timers s !! h = Some t -> deletionTimers s !! key_of (t_userId t) = Some h;
  recorded_armed : forall k h,
    deletionTimers s !! k = Some h ->
    exists t, timers s !! h = Some t /\ key_of (t_userId t) = k;
  armed_below : forall h t, timers s !! h = Some t -> (h < next_timer s)%nat
}.

(** Handle [h] was given out and is no longer armed. *)
Definition retired (h : nat) (s : Server) : Prop :=
  (h < next_timer s)%nat /\ timers s !! h = None.

(** [userState.some(user => user.id === userId)] *)
Definition has_id (userId : Value) (us : list User) : bool :=
  existsb (fun user => strict_equals (id user) userId) us.

(** What the eviction timer [h] of identity [u] does in state [s]: before it
    is due it cannot fire; once due, it fires, and then the first roster entry
    with that id is removed, the shortened roster is written to the file and,
    where [broadcastUserState] exists, sent to every open client, and the
    [deletionTimers] entry is gone. *)
Definition evicts (v : Variant) (u : Value) (h : nat) (due : Z) (fs_ok : bool)
  (s : Server) : Prop :=
  (now s < due -> step v (EvTimeout h fs_ok) s = None)
  /\ (due <= now s ->
      exists idx usr s',
        findIndex u (userState s) = Some idx
        /\ userState s !! idx = Some usr
        /\ strict_equals (id usr) u = true
        /\ step v (EvTimeout h fs_ok) s
           = Some (Normal tt, s',
                   [WriteFile (delete idx (userState s));
                    if fs_ok then LogInfo SavedUserState else LogError SaveFailed]
                   ++ (if has_broadcastUserState v
                       then map (fun ws => Send ws (Roster (delete idx (userState s))))
                              (open_clients s)
                            ++ [LogInfo Broadcasted]
                       else [])
                   ++ [LogInfo (UserDeleted u)])
        /\ userState s' = delete idx (userState s)
        /\ deletionTimers s' !! key_of u = None
        /\ timers s' !! h = None).

(** Once due, the timer [h] fires; the identity is removed, the roster is
    written, and the new roster is sent to every open client. *)
Definition evicts_and_broadcasts (v : Variant) (u : Value) (h : nat) (due : Z)
  (fs_ok : bool) (s : Server) : Prop :=
  due <= now s ->
  exists idx r s' o,
    findIndex u (userState s) = Some idx
    /\ step v (EvTimeout h fs_ok) s = Some (r, s', o)
    /\ userState s' = delete idx (userState s)
    /\ writes o = [userState s']
    /\ sends o = fan_out (Roster (userState s')) (open_clients s).

(** What is kept while the timer [h] armed for [u] at [due] is pending. *)
Definition awaiting (u : Value) (h : nat) (due : Z) (s : Server) : Prop :=
  timers_consistent s
  /\ (h < next_timer s)%nat
  /\ (forall t, timers s !! h = Some t ->
                t = {| t_userId := u; t_fireAt := due |}
                /\ has_id u (userState s) = true).

(** The roster's names, as [===] sees them. *)
Definition roster_names (us : list User) : list Key :=
  map (fun user => key_of (name user)) us.

(** At most one identity per name. *)
Definition names_unique (s : Server) : Prop := NoDup (roster_names (userState s)).

(** [userState.find((user) => user.name === nm)] finds something. *)
Definition has_name (nm : Value) (us : list User) : bool :=
  existsb (fun user => strict_equals (name user) nm) us.

(** A parsed frame of kind "send". *)
Definition is_send (m : Value) : bool :=
  match get_prop m f_type with
  | inr ty => strict_equals ty (VStr "send")
  | inl _ => false
  end.

(** The "send" messages among the events delivered, in arrival order: the
    message stream of the specification. *)
Fixpoint appended (evs : list Event) : list Value :=
  match evs with
  | [] => []
  | EvMessage _ msg :: rest =>
      match parsed msg with
      | Some m => if is_send m then m :: appended rest else appended rest
      | None => appended rest
      end
  | _ :: rest => appended rest
  end.

(** Close and exit agree on the timers they leave and on whether they send
    anything. *)
Definition close_like_exit (v : Variant) (ws : nat) (msg : Frame) (s : Server)
  : Prop :=
  exists re se oe rc sc oc,
    step v (EvMessage ws msg) s = Some (re, se, oe)
    /\ step v (EvClose ws) s = Some (rc, sc, oc)
    /\ timers se = timers sc
    /\ deletionTimers se = deletionTimers sc
    /\ (sends oe = [] <-> sends oc = []).

(** C10 as worded: a join is sent the history envelope only when it carries
    a user object and the history is not empty. *)
Definition replays_only_for_user_object (ws : nat) (msg : Frame) (s : Server)
  : Prop :=
  forall m, parsed msg = Some m ->
    (exists ms, (ws, History ms) ∈ sends (on_message part_000 ws msg s).2) ->
    (exists r f, get_prop m f_user = inr (VObj r f)) /\ messages s <> [].


(** ** Further sample data *)

Definition register_bob : Event :=
  EvNewUser (VObj 20 [("name", VStr "bob")]) "B" true.

(** Bob registers, connects, joins and leaves; his identity is evicted after
    the grace period. *)
Definition bob_session : list Event :=
  [register_bob;
   EvConnection 1%nat;
   EvMessage 1%nat
     (frame_of ("{" +:+ q "type" +:+ ":" +:+ q "join" +:+ "," +:+ q "user" +:+ ":{"
                +:+ q "id" +:+ ":" +:+ q "B" +:+ "}}")
        (VObj 21 [("type", VStr "join"); ("user", VObj 22 [("id", VStr "B")])]));
   EvClose 1%nat;
   EvTick 10000;
   EvTimeout 0%nat true].

Definition ping_alice : Frame :=
  frame_of ("{" +:+ q "type" +:+ ":" +:+ q "ping" +:+ "," +:+ q "user" +:+ ":{"
            +:+ q "id" +:+ ":" +:+ q "A" +:+ "}}")
    (VObj 40 [("type", VStr "ping"); ("user", VObj 41 [("id", VStr "A")])]).

(** A join whose user has a name but no id. *)
Definition join_nameonly : Frame :=
  frame_of ("{" +:+ q "type" +:+ ":" +:+ q "join" +:+ "," +:+ q "user" +:+ ":{"
            +:+ q "name" +:+ ":" +:+ q "alice" +:+ "}}")
    (VObj 42 [("type", VStr "join"); ("user", VObj 43 [("name", VStr "alice")])]).

(** A first exit of alice on connection 1, then 4 s. *)
Definition early_exit : list Event :=
  [EvConnection 1%nat; EvMessage 1%nat exit_alice; EvTick 4000].

Definition ghost_join : Frame :=
  frame_of ("{" +:+ q "type" +:+ ":" +:+ q "join" +:+ "," +:+ q "user" +:+ ":{"
            +:+ q "id" +:+ ":" +:+ q "ghost" +:+ "}}")
    (VObj 23 [("type", VStr "join"); ("user", VObj 24 [("id", VStr "ghost")])]).

(** A client announces an id that was never registered and disconnects; the
    grace period goes by. *)
Definition ghost_session : list Event :=
  [EvConnection 1%nat; EvMessage 1%nat ghost_join; EvClose 1%nat; EvTick 10000].

(** ** Further predicates *)

(** [receivedMSG.user && receivedMSG.user.id] for a parsed object with these
    fields. *)
Definition announced_id (fields : list (string * Value)) : Value :=
  if truthy (lookup_field "user" fields)
  then match get_prop (lookup_field "user" fields) f_id with
       | inr x => x
       | inl _ => VUndefined
       end
  else lookup_field "user" fields.

(** [currentUserId = x] on connection [ws]. *)
Definition with_currentUserId (ws : nat) (x : Value) (s : Server) : Server :=
  set_sockets
    (alter (fun k => {| readyState := readyState k; currentUserId := x |}) ws
       (sockets s)) s.

(** No history envelope. *)
Definition no_history (e : Effect) : Prop :=
  match e with
  | Send _ (History _) => False
  | _ => True
  end.


(** [m] keeps [I] and only emits effects that satisfy [Q], whether it returns
    or throws. *)
Definition keeps {A} (I : Server -> Prop) (Q : Effect -> Prop) (m : M A) : Prop :=
  forall s, I s -> I (m s).1.2 /\ Forall Q (m s).2.

(** Effects of the realtime side: socket sends and log lines. *)
Definition send_or_log (e : Effect) : Prop :=
  match e with
  | Send _ _ | LogInfo _ | LogError _ => True
  | WriteFile _ | Respond _ _ => False
  end.

(** A broadcast (roster or raw message) goes to one of [targets]; a history
    envelope goes to the joining connection [joiner], if there is one. *)
Definition well_addressed (targets : list nat) (joiner : option nat) (e : Effect)
  : Prop :=
  match e with
  | Send c (History _) => joiner = Some c
  | Send c _ => c ∈ targets
  | _ => True
  end.

(** The roster's ids, as [===] sees them. *)
Definition roster_ids (us : list User) : list Key :=
  map (fun user => key_of (id user)) us.

(** [userState.some(user => user.id === i && user.name === nm)] *)
Definition matches (i nm : Value) (us : list User) : bool :=
  existsb (fun user => strict_equals (id user) i && strict_equals (name user) nm) us.

(** * Proofs *)

(** ** C1: frames that are not JSON *)

Lemma on_message_unparsed (v : Variant) (ws : nat) (msg : Frame) (s : Server) :
  parsed msg = None -> on_message v ws msg s = (Throw SyntaxError, s, []).
Proof.
  intros Hbad. unfold on_message, mbind, M_bind. rewrite Hbad. reflexivity.
Qed.

(** C1 (as the code has it): a frame that [JSON.parse] rejects makes the
    message handler throw at its first statement; nothing is logged or sent
    and the state is untouched, but the exception is not caught. *)
Theorem malformed_frame_throws (v : Variant) (ws : nat) (msg : Frame) (s : Server) :
  parsed msg = None ->
  on_message v ws msg s = (Throw SyntaxError, s, [])
  /\ (is_client s ws = true ->
      step v (EvMessage ws msg) s = Some (Throw SyntaxError, s, [])).
Proof.
  intros Hbad. pose proof (on_message_unparsed v ws msg s Hbad) as H.
  split; [exact H|].
  intros Hc. cbn [step]. by rewrite Hc, H.
Qed.

Lemma malformed_frame_throws_witness :
  on_message part_000 1 garbage (after part_000 [] [EvConnection 1%nat])
    = (Throw SyntaxError, after part_000 [] [EvConnection 1%nat], [])
  /\ (is_client (after part_000 [] [EvConnection 1%nat]) 1 = true ->
      step part_000 (EvMessage 1%nat garbage) (after part_000 [] [EvConnection 1%nat])
      = Some (Throw SyntaxError, after part_000 [] [EvConnection 1%nat], [])).
Proof.
  apply (malformed_frame_throws part_000 1 garbage
           (after part_000 [] [EvConnection 1%nat])).
  reflexivity.
Defined.

(** C1 as stated fails: on a frame that is not JSON the handler neither
    returns normally nor logs. *)
Lemma malformed_frame_not_dropped :
  parsed garbage = None
  /\ ~ logged_and_dropped part_000 1 garbage (after part_000 [] [EvConnection 1%nat]).
Proof.
  split; [reflexivity|].
  intros [o [H _]].
  rewrite (on_message_unparsed part_000 1 garbage _ eq_refl) in H.
  discriminate H.
Qed.

(** ** Evaluating handlers *)

Ltac unfold_m :=
  unfold broadcastUserState, saveUserState, send_all, clearTimeout, setTimeout,
    read_currentUserId, write_currentUserId, connectedUsers_delete,
    interpolate, response_send,
    when, lift, get_state, modify, emit, throw, mbind, M_bind, mret, M_ret in *.

Ltac simpl_m := unfold_m; cbn; rewrite ?app_nil_r.

(** ** C6: what a new connection triggers *)

Lemma elem_of_open_clients (s : Server) (c : nat) :
  c ∈ open_clients s <-> c ∈ clients s /\ is_open s c = true.
Proof.
  unfold open_clients. rewrite !list_elem_of_In. apply filter_In.
Qed.

(** C6 (as the code has it): the connection handler sends the roster to every
    client that is open, the new connection included. *)
Theorem connection_broadcasts_roster (v : Variant) (ws : nat) (s : Server) :
  sockets s !! ws = None ->
  exists s',
    step v (EvConnection ws) s
      = Some (Normal tt, s',
              map (fun c => Send c (Roster (userState s))) (open_clients s'))
    /\ userState s' = userState s
    /\ ws ∈ open_clients s'
    /\ (forall c, c ∈ open_clients s -> c ∈ open_clients s').
Proof.
  intros Hfresh. eexists. split.
  { cbn [step]. rewrite Hfresh. unfold on_connection. unfold_m. reflexivity. }
  split; [reflexivity|].
  assert (Hopen : forall c, is_open s c = true -> c <> ws).
  { intros c Hc ->. unfold is_open in Hc. by rewrite Hfresh in Hc. }
  split.
  - apply elem_of_open_clients. cbn. split.
    + apply elem_of_app. right. by apply list_elem_of_singleton.
    + unfold is_open. cbn. rewrite lookup_alter_eq, lookup_insert_eq. reflexivity.
  - intros c [Hc Ho]%elem_of_open_clients. apply elem_of_open_clients. cbn. split.
    + apply elem_of_app. by left.
    + unfold is_open in *. cbn.
      rewrite lookup_alter_ne, lookup_insert_ne by (apply not_eq_sym; by apply Hopen).
      exact Ho.
Qed.

Lemma connection_broadcasts_roster_witness :
  exists s',
    step part_000 (EvConnection 2%nat) (after part_000 [alice] [EvConnection 1%nat])
      = Some (Normal tt, s',
              map (fun c => Send c (Roster (userState
                      (after part_000 [alice] [EvConnection 1%nat]))))
                  (open_clients s'))
    /\ userState s' = userState (after part_000 [alice] [EvConnection 1%nat])
    /\ 2%nat ∈ open_clients s'
    /\ (forall c, c ∈ open_clients (after part_000 [alice] [EvConnection 1%nat]) ->
                  c ∈ open_clients s').
Proof.
  apply (connection_broadcasts_roster part_000 2
           (after part_000 [alice] [EvConnection 1%nat])).
  reflexivity.
Defined.

(** C6 as stated fails: with connection 1 open, admitting connection 2 also
    sends the roster to connection 1. *)
Lemma admit_reaches_earlier_connections :
  ~ admits_privately part_000 2 (after part_000 [alice] [EvConnection 1%nat]).
Proof.
  intros H.
  assert (E : 1%nat = 2%nat); [|discriminate E].
  eapply (H _ _ _); [reflexivity|].
  vm_compute. left.
Qed.

(** ** The helpers in closed form *)

Lemma cancelDeletion_eq (u : Value) (s : Server) :
  cancelDeletion u s = (Normal tt, after_cancelDeletion u s, log_cancelDeletion u s).
Proof.
  unfold cancelDeletion, after_cancelDeletion, log_cancelDeletion. unfold_m.
  destruct (deletionTimers s !! key_of u); reflexivity.
Qed.

Lemma scheduleDeletion_eq (v : Variant) (u : Value) (s : Server) :
  scheduleDeletion v u s = (Normal tt, after_scheduleDeletion v u s, []).
Proof.
  unfold scheduleDeletion, after_scheduleDeletion. unfold_m.
  destruct (deletionTimers s !! key_of u); reflexivity.
Qed.

Lemma get_prop_truthy (x : Value) (f : Field) :
  truthy x = true -> exists y, get_prop x f = inr y.
Proof. destruct x; cbn; intros H; try discriminate H; eauto. Qed.

Lemma sends_app (o1 o2 : list Effect) : sends (o1 ++ o2) = sends o1 ++ sends o2.
Proof.
  induction o1 as [|e o1 IH]; [reflexivity|].
  destruct e; cbn; by rewrite IH.
Qed.

Lemma sends_fan_out (p : Payload) (l : list nat) :
  sends (map (fun ws => Send ws p) l) = fan_out p l.
Proof. induction l as [|c l IH]; [reflexivity|]. cbn. by rewrite IH. Qed.

Lemma writes_app (o1 o2 : list Effect) : writes (o1 ++ o2) = writes o1 ++ writes o2.
Proof.
  induction o1 as [|e o1 IH]; [reflexivity|].
  destruct e; cbn; by rewrite IH.
Qed.

Lemma writes_fan_out (p : Payload) (l : list nat) :
  writes (map (fun ws => Send ws p) l) = [].
Proof. induction l as [|c l IH]; [reflexivity|exact IH]. Qed.

Lemma sends_log_cancelDeletion (u : Value) (s : Server) :
  sends (log_cancelDeletion u s) = [].
Proof. unfold log_cancelDeletion. by destruct (deletionTimers s !! key_of u). Qed.

(** Constant folding of [===] between string literals. *)
Ltac fold_strict_equals :=
  repeat match goal with
    | |- context [strict_equals (VStr ?a) (VStr ?b)] =>
        let r := eval vm_compute in (strict_equals (VStr a) (VStr b)) in
        change (strict_equals (VStr a) (VStr b)) with r
    end.

(** Fields that [cancelDeletion] and [scheduleDeletion] leave alone. *)
Lemma after_cancelDeletion_fields (u : Value) (s : Server) :
  userState (after_cancelDeletion u s) = userState s
  /\ messages (after_cancelDeletion u s) = messages s
  /\ clients (after_cancelDeletion u s) = clients s
  /\ sockets (after_cancelDeletion u s) = sockets s
  /\ connectedUsers (after_cancelDeletion u s) = connectedUsers s
  /\ next_timer (after_cancelDeletion u s) = next_timer s
  /\ now (after_cancelDeletion u s) = now s.
Proof.
  unfold after_cancelDeletion.
  destruct (deletionTimers s !! key_of u); repeat split; reflexivity.
Qed.

Lemma userState_after_cancelDeletion u s :
  userState (after_cancelDeletion u s) = userState s.
Proof. apply after_cancelDeletion_fields. Qed.
Lemma messages_after_cancelDeletion u s :
  messages (after_cancelDeletion u s) = messages s.
Proof. apply after_cancelDeletion_fields. Qed.
Lemma clients_after_cancelDeletion u s :
  clients (after_cancelDeletion u s) = clients s.
Proof. apply after_cancelDeletion_fields. Qed.
Lemma sockets_after_cancelDeletion u s :
  sockets (after_cancelDeletion u s) = sockets s.
Proof. apply after_cancelDeletion_fields. Qed.
Lemma next_timer_after_cancelDeletion u s :
  next_timer (after_cancelDeletion u s) = next_timer s.
Proof. apply after_cancelDeletion_fields. Qed.
Lemma now_after_cancelDeletion u s :
  now (after_cancelDeletion u s) = now s.
Proof. apply after_cancelDeletion_fields. Qed.

Create Rewrite HintDb fields.
#[global] Hint Rewrite userState_after_cancelDeletion messages_after_cancelDeletion
  clients_after_cancelDeletion sockets_after_cancelDeletion
  next_timer_after_cancelDeletion now_after_cancelDeletion : fields.

Lemma is_open_sockets (s s' : Server) (ws : nat) :
  sockets s' = sockets s -> is_open s' ws = is_open s ws.
Proof. unfold is_open. by intros ->. Qed.

Lemma open_clients_ext (s s' : Server) :
  clients s' = clients s -> sockets s' = sockets s ->
  open_clients s' = open_clients s.
Proof.
  intros Hc Hs. unfold open_clients. rewrite Hc.
  apply filter_ext. intros c. by apply is_open_sockets.
Qed.

(** Run a handler as far as the goal determines it. *)
Ltac eval_m :=
  repeat first
    [ progress cbn
    | progress rewrite ?cancelDeletion_eq, ?scheduleDeletion_eq
    | progress autorewrite with fields
    | progress rewrite ?app_nil_r ].

(** ** C10: when a join replays the history *)

Lemma on_message_join (ws : nat) (msg : Frame) (s : Server)
    (r : nat) (fields : list (string * Value)) :
  parsed msg = Some (VObj r fields) ->
  lookup_field "type" fields = VStr "join" ->
  exists s' o,
    on_message part_000 ws msg s
    = (if truthy (lookup_field "user" fields)
       then after_interpolating (user_name fields) else Normal tt, s', o)
    /\ sends o
       = (if truthy (lookup_field "user" fields)
             && negb (ToString_throws (user_name fields))
             && (0 <? length (messages s))%nat
          then [(ws, History (messages s))] else [])
    /\ (truthy (lookup_field "user" fields) = false ->
        s' = s /\ o = [LogInfo (MessageReceived (VObj r fields))]).
Proof.
  intros Hp Hty. unfold on_message, after_interpolating, user_name. rewrite Hp.
  simpl_m. rewrite Hty. fold_strict_equals. cbn.
  destruct (truthy (lookup_field "user" fields)) eqn:Hu.
  - destruct (get_prop_truthy _ f_id Hu) as [uid Hid].
    destruct (get_prop_truthy _ f_name Hu) as [nm Hnm].
    rewrite Hid, Hnm. cbn.
    destruct (truthy uid), (ToString_throws nm); eval_m;
      destruct (messages s) eqn:Hm; eval_m.
    all: do 2 eexists; (split; [reflexivity|]); (split; [|intros; discriminate]).
    all: cbn; rewrite ?sends_app, ?sends_log_cancelDeletion; cbn;
      rewrite ?sends_app, ?sends_log_cancelDeletion; reflexivity.
  - rewrite ?Hu. eval_m. do 2 eexists.
    split; [reflexivity|]. split; [reflexivity|]. done.
Qed.

(** C10 (as the code has it): in the variant with a history buffer, a frame of
    type "join" sends the history envelope, and only to the joining
    connection, exactly when its [user] is truthy (an object or any other
    truthy value), the name of that user can be interpolated into the log line
    that precedes the send, and the history is not empty; it sends nothing
    else.  When the name cannot be interpolated the handler throws a
    [TypeError] before the send.  When [user] is missing (or falsy) the
    handler only logs the frame: the state is as before, so no
    [currentUserId] is set and no timer is cancelled. *)
Theorem join_replays_history (ws : nat) (msg : Frame) (s : Server)
    (r : nat) (fields : list (string * Value)) :
  parsed msg = Some (VObj r fields) ->
  lookup_field "type" fields = VStr "join" ->
  exists s' o,
    on_message part_000 ws msg s
    = (if truthy (lookup_field "user" fields)
       then after_interpolating (user_name fields) else Normal tt, s', o)
    /\ (forall c p,
          (c, p) ∈ sends o
          <-> c = ws /\ p = History (messages s)
              /\ truthy (lookup_field "user" fields) = true
              /\ ToString_throws (user_name fields) = false
              /\ messages s <> [])
    /\ (truthy (lookup_field "user" fields) = false ->
        s' = s
        /\ current_of s' ws = current_of s ws
        /\ timers s' = timers s
        /\ deletionTimers s' = deletionTimers s
        /\ sends o = [])
    /\ (messages s = [] -> sends o = []).
Proof.
  intros Hp Hty.
  destruct (on_message_join ws msg s r fields Hp Hty) as (s' & o & E & Hs & Hno).
  exists s', o. split; [exact E|]. split; [|split].
  - intros c p. rewrite Hs.
    destruct (truthy (lookup_field "user" fields)); cbn.
    + destruct (ToString_throws (user_name fields)); cbn.
      * split; [by intros ?%elem_of_nil|]. by intros (_ & _ & _ & ? & _).
      * destruct (messages s) as [|m ms]; cbn.
        -- split; [by intros ?%elem_of_nil|]. by intros (_ & _ & _ & _ & ?).
        -- rewrite list_elem_of_singleton. split.
           ++ intros [= -> ->]. done.
           ++ intros (-> & -> & _). reflexivity.
    + split; [by intros ?%elem_of_nil|]. by intros (_ & _ & ? & _).
  - intros Hu. destruct (Hno Hu) as [-> ->]. done.
  - intros Hm. rewrite Hs, Hm. cbn. by rewrite andb_false_r.
Qed.

Lemma join_replays_history_witness :
  exists s' o,
    on_message part_000 2 join_alice (state_after part_000 two_senders (init [alice]))
    = (if truthy (lookup_field "user"
                    [("type", VStr "join");
                     ("user", VObj 15 [("id", VStr "A"); ("name", VStr "alice")])])
       then after_interpolating
              (user_name [("type", VStr "join");
                          ("user", VObj 15 [("id", VStr "A");
                                            ("name", VStr "alice")])])
       else Normal tt, s', o)
    /\ (forall c p,
          (c, p) ∈ sends o
          <-> c = 2%nat
              /\ p = History (messages (state_after part_000 two_senders (init [alice])))
              /\ truthy (lookup_field "user"
                           [("type", VStr "join");
                            ("user", VObj 15 [("id", VStr "A");
                                              ("name", VStr "alice")])])
                 = true
              /\ ToString_throws
                   (user_name [("type", VStr "join");
                               ("user", VObj 15 [("id", VStr "A");
                                                 ("name", VStr "alice")])])
                 = false
              /\ messages (state_after part_000 two_senders (init [alice])) <> [])
    /\ (truthy (lookup_field "user"
                  [("type", VStr "join");
                   ("user", VObj 15 [("id", VStr "A"); ("name", VStr "alice")])])
        = false ->
        s' = state_after part_000 two_senders (init [alice])
        /\ current_of s' 2 = current_of (state_after part_000 two_senders (init [alice])) 2
        /\ timers s' = timers (state_after part_000 two_senders (init [alice]))
        /\ deletionTimers s'
           = deletionTimers (state_after part_000 two_senders (init [alice]))
        /\ sends o = [])
    /\ (messages (state_after part_000 two_senders (init [alice])) = [] ->
        sends o = []).
Proof.
  apply (join_replays_history 2 join_alice
           (state_after part_000 two_senders (init [alice]))
           14 [("type", VStr "join");
               ("user", VObj 15 [("id", VStr "A"); ("name", VStr "alice")])]);
    reflexivity.
Defined.

(** C10 as stated fails: with two messages in the history, a join whose
    [user] is the string "bob", which is no user object, is sent the envelope.
    And a user object is not enough: a join whose user has a name without a
    string makes the handler throw before the send, so nothing is replayed
    although the history is not empty. *)
Lemma join_replay_not_by_user_object :
  messages (state_after part_000 two_senders (init [alice])) <> []
  /\ ~ replays_only_for_user_object 2 join_string
        (state_after part_000 two_senders (init [alice]))
  /\ (on_message part_000 2 join_unprintable
        (state_after part_000 two_senders (init [alice]))).1.1
     = Throw TypeError
  /\ sends (on_message part_000 2 join_unprintable
              (state_after part_000 two_senders (init [alice]))).2
     = [].
Proof.
  split; [vm_compute; discriminate|]. split; [|split; vm_compute; reflexivity].
  intros H.
  assert (Hsent : exists ms,
             (2%nat, History ms)
             ∈ sends (on_message part_000 2 join_string
                        (state_after part_000 two_senders (init [alice]))).2).
  { exists (messages (state_after part_000 two_senders (init [alice]))).
    replace (sends _)
      with [(2%nat, History (messages (state_after part_000 two_senders
                                         (init [alice]))))]
      by (vm_compute; reflexivity).
    apply list_elem_of_here. }
  destruct (H _ eq_refl Hsent) as [(r & f & E) _]. discriminate E.
Qed.

(** ** A small program logic for invariants *)

Section Preserves.
Context (P : Server -> Prop).

Lemma preserves_ret {A} (a : A) : preserves P (mret a).
Proof. intros s H. exact H. Qed.

Lemma preserves_bind {A B} (m : M A) (k : A -> M B) :
  preserves P m -> (forall a, preserves P (k a)) -> preserves P (m ≫= k).
Proof.
  intros Hm Hk s H. specialize (Hm s H).
  unfold mbind, M_bind. destruct (m s) as [[[a|e] s1] o1]; cbn in *.
  - specialize (Hk a s1 Hm). destruct (k a s1) as [[r s2] o2]. exact Hk.
  - exact Hm.
Qed.

Lemma preserves_get_state : preserves P get_state.
Proof. intros s H. exact H. Qed.

Lemma preserves_modify (f : Server -> Server) :
  (forall s, P s -> P (f s)) -> preserves P (modify f).
Proof. intros Hf s H. by apply Hf. Qed.

Lemma preserves_emit (o : list Effect) : preserves P (emit o).
Proof. intros s H. exact H. Qed.

Lemma preserves_throw {A} (e : JsError) : preserves P (throw (A := A) e).
Proof. intros s H. exact H. Qed.

Lemma preserves_lift {A} (r : JsError + A) : preserves P (lift r).
Proof. destruct r; [apply preserves_throw | apply preserves_ret]. Qed.

Lemma preserves_when (b : bool) (m : M unit) :
  preserves P m -> preserves P (when b m).
Proof. destruct b; [done | intros _; apply preserves_ret]. Qed.

End Preserves.

(** One syntax-directed step; [leaf] is tried on what is not a combinator. *)
Ltac pres_step leaf :=
  lazymatch goal with
  | |- preserves _ (mbind _ _) => apply preserves_bind; [|intros ?]
  | |- preserves _ (mret _) => apply preserves_ret
  | |- preserves _ (when _ _) => apply preserves_when
  | |- preserves _ (lift _) => apply preserves_lift
  | |- preserves _ (emit _) => apply preserves_emit
  | |- preserves _ (throw _) => apply preserves_throw
  | |- preserves _ get_state => apply preserves_get_state
  | |- preserves _ (if ?b then _ else _) => destruct b
  | |- preserves _ (match ?x with _ => _ end) => destruct x
  | |- preserves _ (send_all _) => unfold send_all
  | |- preserves _ (saveUserState _) => unfold saveUserState
  | |- preserves _ broadcastUserState => unfold broadcastUserState
  | |- preserves _ (read_currentUserId _) => unfold read_currentUserId
  | |- preserves _ (interpolate _) => unfold interpolate
  | |- preserves _ (response_send _ _ _) => unfold response_send
  | |- preserves _ _ => leaf
  end.

Ltac pres leaf := repeat pres_step leaf.

(** ** The timer table and [deletionTimers] agree *)

Lemma timers_consistent_ext (s s' : Server) :
  timers s' = timers s -> deletionTimers s' = deletionTimers s ->
  next_timer s' = next_timer s ->
  timers_consistent s -> timers_consistent s'.
Proof.
  intros Ht Hd Hn [H1 H2 H3].
  split; rewrite ?Ht, ?Hd, ?Hn; assumption.
Qed.

Lemma timers_consistent_cancel (u : Value) (s : Server) :
  timers_consistent s -> timers_consistent (after_cancelDeletion u s).
Proof.
  intros [H1 H2 H3]. unfold after_cancelDeletion.
  destruct (deletionTimers s !! key_of u) as [h|] eqn:E; [|by split].
  split; cbn.
  - intros h' t' [Hne Ha]%lookup_delete_Some.
    rewrite lookup_delete_ne; [by apply H1|].
    intros Hk. apply H1 in Ha. rewrite <- Hk in Ha. congruence.
  - intros k' h' [Hne Hd]%lookup_delete_Some.
    destruct (H2 _ _ Hd) as [t' [Ha Hk]]. exists t'. split; [|exact Hk].
    rewrite lookup_delete_ne; [exact Ha|].
    intros ->. destruct (H2 _ _ E) as [t [Ha' Hk']]. congruence.
  - intros h' t' [_ Ha]%lookup_delete_Some. by eapply H3.
Qed.

Lemma timers_consistent_schedule (v : Variant) (u : Value) (s : Server) :
  timers_consistent s -> timers_consistent (after_scheduleDeletion v u s).
Proof.
  intros [H1 H2 H3]. unfold after_scheduleDeletion.
  assert (Hold : forall h' t',
    match deletionTimers s !! key_of u with
    | Some h => delete h (timers s)
    | None => timers s
    end !! h' = Some t' ->
    timers s !! h' = Some t' /\ key_of (t_userId t') <> key_of u).
  { intros h' t'. destruct (deletionTimers s !! key_of u) as [h|] eqn:E.
    - intros [Hne Ha]%lookup_delete_Some. split; [exact Ha|].
      intros Hk. apply H1 in Ha. rewrite Hk in Ha. congruence.
    - intros Ha. split; [exact Ha|].
      intros Hk. apply H1 in Ha. rewrite Hk in Ha. congruence. }
  split; cbn.
  - intros h' t' [[<- <-]|[Hne Ha]]%lookup_insert_Some; cbn.
    + apply lookup_insert_eq.
    + destruct (Hold _ _ Ha) as [Ha' Hk]. rewrite lookup_insert_ne by done.
      by apply H1.
  - intros k' h' [[<- <-]|[Hne Hd]]%lookup_insert_Some.
    + eexists. split; [apply lookup_insert_eq|reflexivity].
    + destruct (H2 _ _ Hd) as [t' [Ha Hk]]. exists t'. split; [|exact Hk].
      pose proof (H3 _ _ Ha) as Hlt.
      rewrite lookup_insert_ne by lia.
      destruct (deletionTimers s !! key_of u) as [h|] eqn:E; [|exact Ha].
      rewrite lookup_delete_ne; [exact Ha|].
      intros ->. destruct (H2 _ _ E) as [t [Ha' Hk']]. congruence.
  - intros h' t' [[<- <-]|[Hne Ha]]%lookup_insert_Some; [lia|].
    destruct (Hold _ _ Ha) as [Ha' _]. apply H3 in Ha'. lia.
Qed.

Lemma preserves_cancelDeletion (P : Server -> Prop) (u : Value) :
  (forall s, P s -> P (after_cancelDeletion u s)) -> preserves P (cancelDeletion u).
Proof. intros H s Hs. rewrite cancelDeletion_eq. by apply H. Qed.

Lemma preserves_scheduleDeletion (P : Server -> Prop) (v : Variant) (u : Value) :
  (forall s, P s -> P (after_scheduleDeletion v u s)) ->
  preserves P (scheduleDeletion v u).
Proof. intros H s Hs. rewrite scheduleDeletion_eq. by apply H. Qed.

Lemma deletion_timeout_eq (v : Variant) (u : Value) (fs_ok : bool) (s : Server) :
  deletion_timeout v u fs_ok s
  = (Normal tt, after_deletion_timeout u s, effects_deletion_timeout v u fs_ok s).
Proof.
  unfold deletion_timeout, after_deletion_timeout, effects_deletion_timeout.
  unfold_m. destruct (findIndex u (userState s)); [|reflexivity].
  destruct fs_ok, (has_broadcastUserState v); cbn; rewrite ?app_nil_r;
    try reflexivity.
  all: by rewrite <- app_assoc.
Qed.

Lemma Some_state {A} (m : Completion A * Server * list Effect) r s' o :
  Some m = Some (r, s', o) -> s' = m.1.2.
Proof. intros [= ->]. reflexivity. Qed.

Lemma new_user_state (v : Variant) (body : Value) (uuid : string) (fs_ok : bool)
    (s : Server) :
  (new_user v body uuid fs_ok s).1.2 = s
  \/ exists nm,
       get_prop body f_name = inr nm
       /\ List.find (fun user => strict_equals (name user) nm) (userState s) = None
       /\ (new_user v body uuid fs_ok s).1.2
          = set_userState (userState s ++ [{| id := VStr uuid; name := nm |}]) s.
Proof.
  unfold new_user.
  destruct (Object_keys_length body) as [e|n] eqn:Hn; [by left|].
  assert (Hnm : exists nm, get_prop body f_name = inr nm).
  { destruct body; cbn in Hn; try discriminate Hn; cbn; eauto. }
  destruct Hnm as [nm Hnm]. rewrite Hnm.
  destruct (List.find (fun user => strict_equals (name user) nm) (userState s))
    eqn:Hfind.
  - left. unfold_m. destruct (n =? 0)%nat, (ToString_throws nm); cbn;
      by rewrite Hfind.
  - right. exists nm. split; [reflexivity|]. split; [exact Hfind|].
    unfold_m.
    destruct (n =? 0)%nat, fs_ok, (has_broadcastUserState v); cbn;
      by rewrite Hfind.
Qed.

(** ** Invariants of the whole server

    An invariant is checked against the writes the program can make: the
    per-connection writes, [cancelDeletion], [scheduleDeletion], a successful
    registration and a timer that fires. *)
Section Invariant.
Context (P : Server -> Prop).
Hypothesis P_sockets : forall k s, P s -> P (set_sockets k s).
Hypothesis P_connectedUsers : forall c s, P s -> P (set_connectedUsers c s).
Hypothesis P_clients : forall c s, P s -> P (set_clients c s).
Hypothesis P_messages : forall ms s, P s -> P (set_messages ms s).
Hypothesis P_now : forall t s, P s -> P (set_now t s).
Hypothesis P_cancel : forall u s, P s -> P (after_cancelDeletion u s).
Hypothesis P_schedule : forall v u s, P s -> P (after_scheduleDeletion v u s).
Hypothesis P_register : forall nm uuid s,
  P s ->
  List.find (fun user => strict_equals (name user) nm) (userState s) = None ->
  P (set_userState (userState s ++ [{| id := VStr uuid; name := nm |}]) s).
Hypothesis P_fire : forall h t s,
  P s -> timers s !! h = Some t -> t_fireAt t <= now s ->
  P (after_deletion_timeout (t_userId t) (disarm h s)).

Ltac frame_leaf :=
  first
    [ apply preserves_cancelDeletion; intros ? ?; by apply P_cancel
    | apply preserves_scheduleDeletion; intros ? ?; by apply P_schedule
    | apply preserves_modify; intros ? ?;
      first [ by apply P_sockets | by apply P_connectedUsers
            | by apply P_messages ] ].

Lemma on_message_invariant (v : Variant) (ws : nat) (msg : Frame) :
  preserves P (on_message v ws msg).
Proof.
  unfold on_message, write_currentUserId, connectedUsers_delete.
  pres frame_leaf.
Qed.

Lemma on_close_invariant (v : Variant) (ws : nat) : preserves P (on_close v ws).
Proof. unfold on_close, connectedUsers_delete. pres frame_leaf. Qed.

Lemma on_connection_invariant (ws : nat) : preserves P (on_connection ws).
Proof. unfold on_connection, write_currentUserId. pres frame_leaf. Qed.

Lemma verify_user_invariant body : preserves P (verify_user body).
Proof. unfold verify_user. pres frame_leaf. Qed.

Lemma new_user_invariant (v : Variant) body uuid fs_ok :
  preserves P (new_user v body uuid fs_ok).
Proof.
  intros s Hs.
  destruct (new_user_state v body uuid fs_ok s) as [->|[nm [_ [Hf ->]]]];
    [exact Hs|by apply P_register].
Qed.

Lemma step_invariant (v : Variant) (e : Event) (s s' : Server) r o :
  P s -> step v e s = Some (r, s', o) -> P s'.
Proof.
  intros Hs Hstep.
  destruct e as [ws|ws msg|ws|ws|h fs_ok|body uuid fs_ok|body|dt];
    cbn [step] in Hstep.
  - destruct (sockets s !! ws); [discriminate|].
    rewrite (Some_state _ _ _ _ Hstep). apply on_connection_invariant.
    by apply P_clients, P_sockets.
  - destruct (is_client s ws); [|discriminate].
    rewrite (Some_state _ _ _ _ Hstep). by apply on_message_invariant.
  - destruct (is_open s ws); [|discriminate]. injection Hstep as _ <- _.
    by apply P_sockets.
  - destruct (is_client s ws); [|discriminate].
    rewrite (Some_state _ _ _ _ Hstep). apply on_close_invariant.
    by apply P_clients, P_sockets.
  - destruct (timers s !! h) as [t|] eqn:Ht; [|discriminate].
    destruct (t_fireAt t <=? now s) eqn:Hdue; [|discriminate].
    rewrite deletion_timeout_eq in Hstep. injection Hstep as _ <- _.
    apply P_fire; [exact Hs|exact Ht|lia].
  - rewrite (Some_state _ _ _ _ Hstep). by apply new_user_invariant.
  - rewrite (Some_state _ _ _ _ Hstep). by apply verify_user_invariant.
  - destruct (0 <=? dt); [|discriminate]. injection Hstep as _ <- _.
    by apply P_now.
Qed.

Lemma run_invariant (v : Variant) (evs : list Event) (s s' : Server) o :
  P s -> run v evs s = Some (s', o) -> P s'.
Proof.
  revert s o. induction evs as [|e evs IH]; intros s o Hs Hrun; cbn in Hrun.
  - by injection Hrun as <- _.
  - destruct (step v e s) as [[[r s1] o1]|] eqn:Hstep; [|discriminate].
    destruct (run v evs s1) as [[s2 o2]|] eqn:Hrest; [|discriminate].
    injection Hrun as <- _. eapply IH; [|exact Hrest].
    by eapply step_invariant.
Qed.

End Invariant.

(** Invariants that only read the timer table, [deletionTimers] and the
    handle counter. *)
Section TimerInvariant.
Context (P : Server -> Prop).
Hypothesis P_ext : forall s s',
  timers s' = timers s -> deletionTimers s' = deletionTimers s ->
  next_timer s' = next_timer s -> P s -> P s'.
Hypothesis P_cancel : forall u s, P s -> P (after_cancelDeletion u s).
Hypothesis P_schedule : forall v u s, P s -> P (after_scheduleDeletion v u s).
Hypothesis P_fire : forall h t s,
  P s -> timers s !! h = Some t ->
  P (set_deletionTimers (delete (key_of (t_userId t)) (deletionTimers s))
       (disarm h s)).

Lemma step_timers (v : Variant) (e : Event) (s s' : Server) r o :
  P s -> step v e s = Some (r, s', o) -> P s'.
Proof.
  apply step_invariant; try done.
  1-6: intros; eapply P_ext; [| | |eassumption]; reflexivity.
  intros h t s0 Hs Ht _.
  eapply P_ext; [| | |exact (P_fire h t s0 Hs Ht)];
    unfold after_deletion_timeout; cbn;
    by destruct (findIndex (t_userId t) (userState s0)).
Qed.

Lemma run_timers (v : Variant) (evs : list Event) (s s' : Server) o :
  P s -> run v evs s = Some (s', o) -> P s'.
Proof.
  revert s o. induction evs as [|e evs IH]; intros s o Hs Hrun; cbn in Hrun.
  - by injection Hrun as <- _.
  - destruct (step v e s) as [[[r s1] o1]|] eqn:Hstep; [|discriminate].
    destruct (run v evs s1) as [[s2 o2]|] eqn:Hrest; [|discriminate].
    injection Hrun as <- _. eapply IH; [|exact Hrest].
    by eapply step_timers.
Qed.
End TimerInvariant.

(** Every event keeps the timer table and [deletionTimers] in agreement. *)
Lemma step_timers_consistent (v : Variant) (e : Event) (s s' : Server) r o :
  timers_consistent s -> step v e s = Some (r, s', o) -> timers_consistent s'.
Proof.
  apply step_timers.
  - apply timers_consistent_ext.
  - apply timers_consistent_cancel.
  - apply timers_consistent_schedule.
  - intros h t s0 Hs Ht.
    pose proof (armed_recorded s0 Hs h t Ht) as Hd.
    eapply timers_consistent_ext;
      [| | |exact (timers_consistent_cancel (t_userId t) s0 Hs)];
      unfold after_cancelDeletion; rewrite Hd; reflexivity.
Qed.

Lemma init_timers_consistent (roster : list User) : timers_consistent (init roster).
Proof. split; cbn; intros *; by rewrite ?lookup_empty. Qed.

Lemma reachable_timers_consistent (v : Variant) (s : Server) :
  reachable v s -> timers_consistent s.
Proof.
  induction 1 as [roster|s e r s' o _ IH Hstep].
  - apply init_timers_consistent.
  - by eapply step_timers_consistent.
Qed.

Lemma run_timers_consistent (v : Variant) (evs : list Event) (s s' : Server) o :
  timers_consistent s -> run v evs s = Some (s', o) -> timers_consistent s'.
Proof.
  apply run_timers.
  - apply timers_consistent_ext.
  - apply timers_consistent_cancel.
  - apply timers_consistent_schedule.
  - intros h t s0 Hs Ht.
    pose proof (armed_recorded s0 Hs h t Ht) as Hd.
    eapply timers_consistent_ext;
      [| | |exact (timers_consistent_cancel (t_userId t) s0 Hs)];
      unfold after_cancelDeletion; rewrite Hd; reflexivity.
Qed.

Lemma after_timers_consistent (v : Variant) (roster : list User) (evs : list Event) :
  timers_consistent (after v roster evs).
Proof.
  unfold after, state_after.
  destruct (run v evs (init roster)) as [[s o]|] eqn:Hrun.
  - eapply run_timers_consistent; [apply init_timers_consistent|exact Hrun].
  - apply init_timers_consistent.
Qed.

(** ** C7: scheduling twice *)

Lemma retired_forever (v : Variant) (h : nat) (evs : list Event) (s s' : Server) o :
  retired h s -> run v evs s = Some (s', o) -> retired h s'.
Proof.
  apply run_timers.
  - intros s0 s1 Ht _ Hn [H1 H2]. split; by rewrite ?Ht, ?Hn.
  - intros u s0 [H1 H2]. unfold after_cancelDeletion.
    destruct (deletionTimers s0 !! key_of u); [|by split].
    split; [exact H1|]. cbn. apply lookup_delete_None. by right.
  - intros v0 u s0 [H1 H2]. unfold after_scheduleDeletion. split; cbn; [lia|].
    rewrite lookup_insert_ne by lia.
    destruct (deletionTimers s0 !! key_of u); [|exact H2].
    apply lookup_delete_None. by right.
  - intros h0 t s0 [H1 H2] _. split; [exact H1|]. cbn.
    apply lookup_delete_None. by right.
Qed.

Lemma pending_unique (s : Server) (u : Value) (h1 h2 : nat) :
  timers_consistent s -> pending_for s u h1 -> pending_for s u h2 -> h1 = h2.
Proof.
  intros Hs [t1 [Ha1 Hk1]] [t2 [Ha2 Hk2]].
  apply (armed_recorded s Hs) in Ha1, Ha2. congruence.
Qed.

(** A timer keeps the id and the due time it was armed with until it is
    cleared or fires, and its handle is not given out again. *)
Lemma armed_timer_run (v : Variant) (h : nat) (t0 : Timer) (evs : list Event)
    (s s' : Server) o :
  (h < next_timer s)%nat /\ (forall t, timers s !! h = Some t -> t = t0) ->
  run v evs s = Some (s', o) ->
  (h < next_timer s')%nat /\ (forall t, timers s' !! h = Some t -> t = t0).
Proof.
  apply (run_timers
           (fun x => (h < next_timer x)%nat
                     /\ forall t, timers x !! h = Some t -> t = t0)).
  - intros s0 s1 Ht _ Hn [H1 H2]. split; by rewrite ?Ht, ?Hn.
  - intros u s0 [H1 H2]. unfold after_cancelDeletion.
    destruct (deletionTimers s0 !! key_of u); [|by split].
    split; [exact H1|]. cbn. intros t [_ Ht]%lookup_delete_Some. by apply H2.
  - intros v0 u s0 [H1 H2]. unfold after_scheduleDeletion. split; cbn; [lia|].
    intros t Ht. rewrite lookup_insert_ne in Ht by lia. apply H2.
    destruct (deletionTimers s0 !! key_of u); [|exact Ht].
    by apply lookup_delete_Some in Ht as [_ Ht].
  - intros h0 t1 s0 [H1 H2] _. split; [exact H1|]. cbn.
    intros t [_ Ht]%lookup_delete_Some. by apply H2.
Qed.

(** C7: from a state whose timer table and [deletionTimers] agree (every
    reachable state is one), two calls of [scheduleDeletion] for the same id
    in a row leave one armed timer for that id, the second one; the first is
    cleared and can never fire.  The second, as long as it is armed, cannot
    fire before the grace period is over and fires once it is: its callback
    removes the first roster entry with that id and writes the roster (or
    does nothing to the roster when there is no such entry), and leaves no
    timer pending for the id, so the two calls end in one eviction attempt.
    In every reachable state an id has at most one armed timer. *)
Theorem reschedule_supersedes (v : Variant) (u : Value) (s : Server) :
  timers_consistent s ->
  exists s1 s2,
    scheduleDeletion v u s = (Normal tt, s1, [])
    /\ scheduleDeletion v u s1 = (Normal tt, s2, [])
    /\ pending_for s1 u (next_timer s)
    /\ timers s2 !! next_timer s = None
    /\ timers s2 !! S (next_timer s)
       = Some {| t_userId := u; t_fireAt := now s + grace v |}
    /\ deletionTimers s2 !! key_of u = Some (S (next_timer s))
    /\ (forall h, pending_for s2 u h <-> h = S (next_timer s))
    /\ (forall evs s' o fs_ok,
          run v evs s2 = Some (s', o) ->
          step v (EvTimeout (next_timer s) fs_ok) s' = None)
    /\ (forall evs s' o fs_ok,
          run v evs s2 = Some (s', o) ->
          is_Some (timers s' !! S (next_timer s)) ->
          (now s' < now s + grace v ->
           step v (EvTimeout (S (next_timer s)) fs_ok) s' = None)
          /\ (now s + grace v <= now s' ->
              exists s'' o'',
                step v (EvTimeout (S (next_timer s)) fs_ok) s'
                = Some (Normal tt, s'', o'')
                /\ timers s'' !! S (next_timer s) = None
                /\ (forall h, ~ pending_for s'' u h)
                /\ match findIndex u (userState s') with
                   | Some idx =>
                       userState s'' = delete idx (userState s')
                       /\ writes o'' = [delete idx (userState s')]
                   | None => userState s'' = userState s' /\ o'' = []
                   end))
    /\ (forall s' u' h1 h2,
          reachable v s' -> pending_for s' u' h1 -> pending_for s' u' h2 -> h1 = h2).
Proof.
  intros Hs.
  exists (after_scheduleDeletion v u s),
    (after_scheduleDeletion v u (after_scheduleDeletion v u s)).
  pose proof (timers_consistent_schedule v u s Hs) as Hs1.
  pose proof (timers_consistent_schedule v u _ Hs1) as Hs2.
  assert (E1 : deletionTimers (after_scheduleDeletion v u s) !! key_of u
               = Some (next_timer s)) by apply lookup_insert_eq.
  assert (Hfirst : timers (after_scheduleDeletion v u (after_scheduleDeletion v u s))
                     !! next_timer s = None).
  { unfold after_scheduleDeletion at 1. rewrite E1. cbn.
    rewrite lookup_insert_ne by lia. apply lookup_delete_eq. }
  assert (Hsecond : timers (after_scheduleDeletion v u (after_scheduleDeletion v u s))
                      !! S (next_timer s)
                    = Some {| t_userId := u; t_fireAt := now s + grace v |}).
  { unfold after_scheduleDeletion at 1. cbn. apply lookup_insert_eq. }
  split; [apply scheduleDeletion_eq|]. split; [apply scheduleDeletion_eq|].
  split; [eexists; split; [apply lookup_insert_eq|reflexivity]|].
  split; [exact Hfirst|]. split; [exact Hsecond|].
  split; [apply lookup_insert_eq|]. split; [|split; [|split]].
  - intros h. split.
    + intros Hp. eapply pending_unique; [exact Hs2|exact Hp|].
      eexists. split; [exact Hsecond|reflexivity].
    + intros ->. eexists. split; [exact Hsecond|reflexivity].
  - intros evs s' o fs_ok Hrun.
    assert (Hr : retired (next_timer s) s').
    { eapply retired_forever; [|exact Hrun]. split; [cbn; lia|exact Hfirst]. }
    cbn [step]. by rewrite (proj2 Hr).
  - intros evs s' o fs_ok Hrun [t Ht].
    pose proof (run_timers_consistent v evs _ s' o Hs2 Hrun) as Hs'.
    assert (Ha : (S (next_timer s) < next_timer s')%nat
                 /\ forall t, timers s' !! S (next_timer s) = Some t ->
                              t = {| t_userId := u; t_fireAt := now s + grace v |}).
    { eapply armed_timer_run; [|exact Hrun]. split; [cbn; lia|].
      intros t0 Ht0. rewrite Hsecond in Ht0. by injection Ht0 as <-. }
    destruct Ha as [_ Ha]. pose proof (Ha t Ht) as ->.
    split.
    + intros Hearly. cbn [step]. rewrite Ht. cbn.
      destruct (now s + grace v <=? now s') eqn:E; [lia|reflexivity].
    + intros Hdue.
      assert (Hstep : step v (EvTimeout (S (next_timer s)) fs_ok) s'
                      = Some (Normal tt,
                              after_deletion_timeout u (disarm (S (next_timer s)) s'),
                              effects_deletion_timeout v u fs_ok
                                (disarm (S (next_timer s)) s'))).
      { cbn [step]. rewrite Ht. cbn.
        destruct (now s + grace v <=? now s') eqn:E; [|lia].
        by rewrite deletion_timeout_eq. }
      do 2 eexists. split; [exact Hstep|].
      pose proof (step_timers_consistent v _ s' _ _ _ Hs' Hstep) as Hs''.
      assert (Hd : deletionTimers
                     (after_deletion_timeout u (disarm (S (next_timer s)) s'))
                   !! key_of u = None).
      { unfold after_deletion_timeout. cbn. apply lookup_delete_eq. }
      split; [|split].
      * unfold after_deletion_timeout. cbn.
        destruct (findIndex u (userState s')); cbn; apply lookup_delete_eq.
      * intros h (t' & Ht' & Hk').
        apply (armed_recorded _ Hs'') in Ht'. rewrite Hk' in Ht'. congruence.
      * unfold after_deletion_timeout, effects_deletion_timeout.
        cbn [disarm set_timers userState set_deletionTimers].
        destruct (findIndex u (userState s')) as [idx|]; [|by split].
        split; [reflexivity|].
        rewrite !writes_app. cbn.
        destruct (has_broadcastUserState v), fs_ok; cbn;
          rewrite ?writes_app, ?writes_fan_out; reflexivity.
  - intros s' u' h1 h2 Hr'. apply pending_unique.
    by eapply reachable_timers_consistent.
Qed.

Lemma reschedule_supersedes_witness :
  exists s1 s2,
    scheduleDeletion part_000 (VStr "A") (after part_000 [alice] [EvConnection 1%nat])
    = (Normal tt, s1, [])
    /\ scheduleDeletion part_000 (VStr "A") s1 = (Normal tt, s2, [])
    /\ pending_for s1 (VStr "A")
         (next_timer (after part_000 [alice] [EvConnection 1%nat]))
    /\ timers s2 !! next_timer (after part_000 [alice] [EvConnection 1%nat]) = None
    /\ timers s2 !! S (next_timer (after part_000 [alice] [EvConnection 1%nat]))
       = Some {| t_userId := VStr "A";
                 t_fireAt := now (after part_000 [alice] [EvConnection 1%nat])
                             + grace part_000 |}
    /\ deletionTimers s2 !! key_of (VStr "A")
       = Some (S (next_timer (after part_000 [alice] [EvConnection 1%nat])))
    /\ (forall h,
          pending_for s2 (VStr "A") h
          <-> h = S (next_timer (after part_000 [alice] [EvConnection 1%nat])))
    /\ (forall evs s' o fs_ok,
          run part_000 evs s2 = Some (s', o) ->
          step part_000
            (EvTimeout (next_timer (after part_000 [alice] [EvConnection 1%nat]))
               fs_ok) s'
          = None)
    /\ (forall evs s' o fs_ok,
          run part_000 evs s2 = Some (s', o) ->
          is_Some (timers s'
                   !! S (next_timer (after part_000 [alice] [EvConnection 1%nat]))) ->
          (now s' < now (after part_000 [alice] [EvConnection 1%nat]) + grace part_000 ->
           step part_000
             (EvTimeout (S (next_timer (after part_000 [alice] [EvConnection 1%nat])))
                fs_ok) s'
           = None)
          /\ (now (after part_000 [alice] [EvConnection 1%nat]) + grace part_000
              <= now s' ->
              exists s'' o'',
                step part_000
                  (EvTimeout
                     (S (next_timer (after part_000 [alice] [EvConnection 1%nat])))
                     fs_ok) s'
                = Some (Normal tt, s'', o'')
                /\ timers s''
                   !! S (next_timer (after part_000 [alice] [EvConnection 1%nat]))
                   = None
                /\ (forall h, ~ pending_for s'' (VStr "A") h)
                /\ match findIndex (VStr "A") (userState s') with
                   | Some idx =>
                       userState s'' = delete idx (userState s')
                       /\ writes o'' = [delete idx (userState s')]
                   | None => userState s'' = userState s' /\ o'' = []
                   end))
    /\ (forall s' u' h1 h2,
          reachable part_000 s' -> pending_for s' u' h1 -> pending_for s' u' h2 ->
          h1 = h2).
Proof.
  apply (reschedule_supersedes part_000 (VStr "A")
           (after part_000 [alice] [EvConnection 1%nat])).
  apply after_timers_consistent.
Defined.

(** ** C5: the timer that fires *)

Lemma findIndex_Some (u : Value) (us : list User) (idx : nat) :
  findIndex u us = Some idx ->
  exists usr, us !! idx = Some usr /\ strict_equals (id usr) u = true.
Proof.
  revert idx. induction us as [|x us IH]; intros idx; cbn; [discriminate|].
  destruct (strict_equals (id x) u) eqn:E.
  - intros [= <-]. eauto.
  - destruct (findIndex u us) as [j|]; cbn; [|discriminate].
    intros [= <-]. by apply IH.
Qed.

Lemma findIndex_has_id (u : Value) (us : list User) :
  has_id u us = true -> exists idx, findIndex u us = Some idx.
Proof.
  induction us as [|x us IH]; cbn; [discriminate|].
  destruct (strict_equals (id x) u); [eauto|]. cbn.
  intros [idx ->]%IH. cbn. eauto.
Qed.

Lemma has_id_app (u : Value) (us vs : list User) :
  has_id u us = true -> has_id u (us ++ vs) = true.
Proof. unfold has_id. rewrite existsb_app. by intros ->. Qed.

(** Removing the entry found for another id keeps [u] in the roster. *)
Lemma has_id_delete_other (u x : Value) (us : list User) (idx : nat) :
  findIndex x us = Some idx -> key_of x <> key_of u ->
  has_id u (delete idx us) = has_id u us.
Proof.
  unfold has_id.
  revert idx. induction us as [|y us IH]; intros idx; cbn; [discriminate|].
  destruct (strict_equals (id y) x) eqn:E.
  - intros [= <-] Hne. cbn.
    assert (strict_equals (id y) u = false) as ->; [|reflexivity].
    unfold strict_equals in *. apply bool_decide_eq_true in E.
    apply bool_decide_eq_false. congruence.
  - destruct (findIndex x us) as [j|]; cbn; [|discriminate].
    intros [= <-] Hne. cbn. by rewrite IH.
Qed.

Lemma awaiting_ext (u : Value) (h : nat) (due : Z) (s s' : Server) :
  timers s' = timers s -> deletionTimers s' = deletionTimers s ->
  next_timer s' = next_timer s -> userState s' = userState s ->
  awaiting u h due s -> awaiting u h due s'.
Proof.
  intros Ht Hd Hn Hu (Hc & Hlt & Ha). split; [|split].
  - by eapply timers_consistent_ext.
  - by rewrite Hn.
  - by rewrite Ht, Hu.
Qed.

(** While its timer is armed, the identity stays in the roster, whatever else
    happens. *)
Lemma awaiting_run (v : Variant) (u : Value) (h : nat) (due : Z)
    (evs : list Event) (s s' : Server) o :
  awaiting u h due s -> run v evs s = Some (s', o) -> awaiting u h due s'.
Proof.
  apply run_invariant.
  1-5: intros; eapply awaiting_ext; [| | | |eassumption]; reflexivity.
  - intros x s0 (Hc & Hlt & Ha). split; [|split].
    + by apply timers_consistent_cancel.
    + by rewrite next_timer_after_cancelDeletion.
    + rewrite userState_after_cancelDeletion. intros t Ht. apply Ha.
      unfold after_cancelDeletion in Ht.
      destruct (deletionTimers s0 !! key_of x); [|exact Ht].
      cbn in Ht. by apply lookup_delete_Some in Ht as [_ Ht].
  - intros v0 x s0 (Hc & Hlt & Ha). split; [|split].
    + by apply timers_consistent_schedule.
    + cbn. lia.
    + cbn. intros t Ht. apply Ha.
      rewrite lookup_insert_ne in Ht by lia.
      destruct (deletionTimers s0 !! key_of x); [|exact Ht].
      by apply lookup_delete_Some in Ht as [_ Ht].
  - intros nm uuid s0 (Hc & Hlt & Ha) _. split; [|split].
    + eapply timers_consistent_ext; [| | |exact Hc]; reflexivity.
    + exact Hlt.
    + cbn. intros t Ht. destruct (Ha t Ht) as [-> Hin].
      split; [reflexivity|]. by apply has_id_app.
  - intros h' t' s0 (Hc & Hlt & Ha) Ht' _.
    pose proof (armed_recorded s0 Hc h' t' Ht') as Hd'.
    split; [|split].
    + eapply timers_consistent_ext;
        [| | |exact (timers_consistent_cancel (t_userId t') s0 Hc)];
        unfold after_deletion_timeout, after_cancelDeletion; rewrite Hd'; cbn;
        by destruct (findIndex (t_userId t') (userState s0)).
    + unfold after_deletion_timeout. cbn.
      by destruct (findIndex (t_userId t') (userState s0)).
    + intros t Ht.
      assert (Ht0 : timers s0 !! h = Some t /\ h' <> h).
      { unfold after_deletion_timeout in Ht. cbn in Ht.
        destruct (findIndex (t_userId t') (userState s0)); cbn in Ht;
          apply lookup_delete_Some in Ht as [Hne Ht]; by split. }
      destruct Ht0 as [Ht0 Hne]. destruct (Ha t Ht0) as [-> Hin].
      split; [reflexivity|].
      pose proof (armed_recorded s0 Hc h _ Ht0) as Hd. cbn in Hd.
      assert (Hk : key_of (t_userId t') <> key_of u).
      { intros Hk. rewrite Hk in Hd'. congruence. }
      unfold after_deletion_timeout. cbn [userState set_deletionTimers disarm set_timers].
      destruct (findIndex (t_userId t') (userState s0)) as [idx|] eqn:Hf;
        cbn [userState set_userState]; [|exact Hin].
      by rewrite (has_id_delete_other u _ _ _ Hf Hk).
Qed.

Lemma awaiting_evicts (v : Variant) (u : Value) (h : nat) (due : Z) (fs_ok : bool)
    (s : Server) :
  awaiting u h due s -> is_Some (timers s !! h) ->
  evicts v u h due fs_ok s.
Proof.
  intros (Hc & Hlt & Ha) [t Ht]. destruct (Ha t Ht) as [-> Hin].
  pose proof (armed_recorded s Hc h _ Ht) as Hd. cbn in Hd.
  split.
  - intros Hearly. cbn [step]. rewrite Ht. cbn.
    destruct (due <=? now s) eqn:E; [lia|reflexivity].
  - intros Hdue.
    destruct (findIndex_has_id u _ Hin) as [idx Hidx].
    destruct (findIndex_Some u _ idx Hidx) as [usr [Hl He]].
    exists idx, usr.
    exists (after_deletion_timeout u (disarm h s)).
    split; [exact Hidx|]. split; [exact Hl|]. split; [exact He|].
    split; [|split; [|split]].
    + cbn [step]. rewrite Ht. cbn.
      destruct (due <=? now s) eqn:E; [|lia].
      rewrite deletion_timeout_eq. unfold effects_deletion_timeout.
      cbn. rewrite Hidx. reflexivity.
    + unfold after_deletion_timeout. cbn. by rewrite Hidx.
    + unfold after_deletion_timeout. cbn. apply lookup_delete_eq.
    + unfold after_deletion_timeout. cbn. rewrite Hidx. cbn.
      apply lookup_delete_eq.
Qed.

(** C5 (as the code has it): let [scheduleDeletion(u)] run in a state whose
    timer table and [deletionTimers] agree (every reachable state is one) and
    whose roster holds an identity with id [u], and let anything happen
    afterwards.  As long as the timer it armed is still armed (it was not
    cancelled by an announcement of [u] nor replaced by a later
    [scheduleDeletion(u)]), it cannot fire before the grace period is over,
    and once it is over it fires: the entry is removed from the roster and the
    roster is written to the file; after that, the variant that has
    [broadcastUserState] sends the new roster to every open client, and the
    other variant sends nothing. *)
Theorem eviction_after_grace (v : Variant) (u : Value) (s0 s : Server)
    (evs : list Event) (o : list Effect) (fs_ok : bool) :
  timers_consistent s0 ->
  has_id u (userState s0) = true ->
  run v evs (after_scheduleDeletion v u s0) = Some (s, o) ->
  is_Some (timers s !! next_timer s0) ->
  scheduleDeletion v u s0 = (Normal tt, after_scheduleDeletion v u s0, [])
  /\ evicts v u (next_timer s0) (now s0 + grace v) fs_ok s
  /\ (has_broadcastUserState v = true ->
      evicts_and_broadcasts v u (next_timer s0) (now s0 + grace v) fs_ok s).
Proof.
  intros Hc Hin Hrun Harmed. split; [apply scheduleDeletion_eq|].
  assert (He : evicts v u (next_timer s0) (now s0 + grace v) fs_ok s).
  { apply awaiting_evicts; [|exact Harmed].
    eapply awaiting_run; [|exact Hrun].
    split; [|split].
    - by apply timers_consistent_schedule.
    - cbn. lia.
    - cbn. rewrite lookup_insert_eq. intros t [= <-]. by split. }
  split; [exact He|].
  intros Hb Hdue. destruct He as [_ He].
  destruct (He Hdue) as (idx & usr & s' & Hidx & _ & _ & Hstep & Hus & _).
  rewrite Hb in Hstep.
  exists idx, (Normal tt), s'. eexists.
  split; [exact Hidx|]. split; [exact Hstep|]. split; [exact Hus|].
  rewrite Hus. split.
  - rewrite !writes_app, writes_fan_out. by destruct fs_ok.
  - rewrite !sends_app, sends_fan_out. destruct fs_ok; cbn; by rewrite !app_nil_r.
Qed.

Lemma eviction_after_grace_witness :
  scheduleDeletion part_000 (VStr "A") (init [alice])
    = (Normal tt, after_scheduleDeletion part_000 (VStr "A") (init [alice]), [])
  /\ evicts part_000 (VStr "A") (next_timer (init [alice]))
       (now (init [alice]) + grace part_000) true
       (state_after part_000 busy_interval
          (after_scheduleDeletion part_000 (VStr "A") (init [alice])))
  /\ (has_broadcastUserState part_000 = true ->
      evicts_and_broadcasts part_000 (VStr "A") (next_timer (init [alice]))
        (now (init [alice]) + grace part_000) true
        (state_after part_000 busy_interval
           (after_scheduleDeletion part_000 (VStr "A") (init [alice])))).
Proof.
  apply (eviction_after_grace part_000 (VStr "A") (init [alice]) _ busy_interval
           (effects_after part_000 busy_interval
              (after_scheduleDeletion part_000 (VStr "A") (init [alice])))
           true).
  - apply init_timers_consistent.
  - reflexivity.
  - vm_compute. reflexivity.
  - vm_compute. eexists. reflexivity.
Defined.

(** C5 as stated fails in the variant without [broadcastUserState]: with
    connection 1 open and the 30 s over, the timer armed for "A" fires, the
    entry is removed and the file written, but nothing is sent. *)
Lemma server_js_evicts_without_broadcast :
  is_Some (timers (state_after server_js quiet_interval
                     (after_scheduleDeletion server_js (VStr "A") (init [alice])))
           !! 0%nat)
  /\ ~ evicts_and_broadcasts server_js (VStr "A") 0
        (now (init [alice]) + grace server_js) true
        (state_after server_js quiet_interval
           (after_scheduleDeletion server_js (VStr "A") (init [alice]))).
Proof.
  split; [vm_compute; eexists; reflexivity|].
  intros H. destruct H as (idx & r & s' & o & Hidx & Hstep & Hus & Hw & Hs).
  { vm_compute. discriminate. }
  vm_compute in Hstep. injection Hstep as _ <- <-.
  vm_compute in Hs. discriminate Hs.
Qed.

(** The other variant removes and saves but has no [broadcastUserState]: its
    timer callback sends nothing. *)
Lemma server_js_eviction_is_silent (u : Value) (fs_ok : bool) (s : Server) :
  sends (deletion_timeout server_js u fs_ok s).2 = [].
Proof.
  rewrite deletion_timeout_eq. unfold effects_deletion_timeout. cbn.
  destruct (findIndex u (userState s)); [|reflexivity]. by destruct fs_ok.
Qed.
Ltac case_if :=
  match goal with
  | |- context [if ?b then _ else _] => destruct b eqn:?
  end.

Ltac crunch := repeat first [progress eval_m | case_if].

Lemma strict_equals_VStr (x : Value) (a : string) :
  strict_equals x (VStr a) = true -> x = VStr a.
Proof.
  unfold strict_equals. intros H%bool_decide_eq_true.
  destruct x; cbn in H; congruence.
Qed.

Lemma strict_equals_clash (x : Value) (a b : string) :
  strict_equals x (VStr a) = true -> strict_equals x (VStr b) = true -> a = b.
Proof. intros ->%strict_equals_VStr [= ->]%strict_equals_VStr. reflexivity. Qed.

Ltac ty_clash :=
  match goal with
  | H1 : strict_equals ?ty (VStr ?a) = true,
    H2 : strict_equals ?ty (VStr ?b) = true |- _ =>
      pose proof (strict_equals_clash _ _ _ H1 H2); discriminate
  end.

Lemma on_message_messages (ws : nat) (msg : Frame) (s : Server) :
  messages (on_message part_000 ws msg s).1.2
  = messages s ++ appended [EvMessage ws msg].
Proof.
  cbn [appended]. unfold on_message.
  destruct (parsed msg) as [m|]; [|simpl_m; reflexivity].
  unfold is_send.
  destruct m as [| |b|n|str|ref el|ref fields]; try (simpl_m; reflexivity).
  simpl_m.
  generalize (VObj ref fields) as m.
  generalize (lookup_field "type" fields) as ty.
  generalize (lookup_field "user" fields) as user.
  intros user ty m.
  destruct (truthy user) eqn:Hu.
  - destruct (get_prop_truthy _ f_id Hu) as [uid ->].
    destruct (get_prop_truthy _ f_name Hu) as [nm ->].
    crunch; first [reflexivity | ty_clash].
  - crunch; first [reflexivity | ty_clash].
Qed.

(** ** C9: the history buffer *)

Lemma run_app (v : Variant) (e : Event) (evs : list Event) (s : Server) :
  run v (e :: evs) s
  = match step v e s with
    | Some (_, s1, o1) =>
        match run v evs s1 with
        | Some (s2, o2) => Some (s2, o1 ++ o2)
        | None => None
        end
    | None => None
    end.
Proof. reflexivity. Qed.

Lemma step_messages (e : Event) (s s' : Server) r o :
  step part_000 e s = Some (r, s', o) ->
  messages s' = messages s ++ appended [e].
Proof.
  intros Hstep.
  destruct e as [ws|ws msg|ws|ws|h fs_ok|body uuid fs_ok|body|dt];
    cbn [step] in Hstep.
  - destruct (sockets s !! ws); [discriminate|].
    rewrite (Some_state _ _ _ _ Hstep), app_nil_r.
    by apply (on_connection_invariant (fun x => messages x = messages s)).
  - destruct (is_client s ws); [|discriminate].
    rewrite (Some_state _ _ _ _ Hstep). apply on_message_messages.
  - destruct (is_open s ws); [|discriminate]. injection Hstep as _ <- _.
    by rewrite app_nil_r.
  - destruct (is_client s ws); [|discriminate].
    rewrite (Some_state _ _ _ _ Hstep), app_nil_r.
    by apply (on_close_invariant (fun x => messages x = messages s)).
  - destruct (timers s !! h) as [t|]; [|discriminate].
    destruct (t_fireAt t <=? now s); [|discriminate].
    rewrite deletion_timeout_eq in Hstep. injection Hstep as _ <- _.
    rewrite app_nil_r. unfold after_deletion_timeout. cbn.
    by destruct (findIndex (t_userId t) (userState s)).
  - rewrite (Some_state _ _ _ _ Hstep), app_nil_r.
    by apply (new_user_invariant (fun x => messages x = messages s)).
  - rewrite (Some_state _ _ _ _ Hstep), app_nil_r.
    by apply (verify_user_invariant (fun x => messages x = messages s)).
  - destruct (0 <=? dt); [|discriminate]. injection Hstep as _ <- _.
    by rewrite app_nil_r.
Qed.

Lemma appended_cons (e : Event) (evs : list Event) :
  appended (e :: evs) = appended [e] ++ appended evs.
Proof.
  destruct e as [ws|ws msg|ws|ws|h fs_ok|body uuid fs_ok|body|dt];
    try reflexivity.
  cbn. destruct (parsed msg) as [m|]; [|reflexivity].
  by destruct (is_send m).
Qed.

(** The history is the stream of "send" messages, in arrival order. *)
Lemma run_messages (evs : list Event) (s s' : Server) o :
  run part_000 evs s = Some (s', o) -> messages s' = messages s ++ appended evs.
Proof.
  revert s o. induction evs as [|e evs IH]; intros s o Hrun.
  - injection Hrun as <- _. by rewrite app_nil_r.
  - rewrite run_app in Hrun.
    destruct (step part_000 e s) as [[[r s1] o1]|] eqn:Hstep; [|discriminate].
    destruct (run part_000 evs s1) as [[s2 o2]|] eqn:Hrest; [|discriminate].
    injection Hrun as <- _.
    rewrite (appended_cons e evs), (IH _ _ Hrest), (step_messages _ _ _ _ _ Hstep).
    by rewrite <- app_assoc.
Qed.

(** C9: the history replayed to a joining connection is the history at start
    followed by every "send" message delivered since, in arrival order, each
    exactly once; it goes to the joining connection in one envelope (and no
    envelope is sent while there is no message).  A join replays when its
    [user] is truthy and the name of that user can be interpolated into the
    log line that precedes the send; otherwise nothing is replayed. *)
Theorem history_replayed_in_order (s0 s : Server) (evs : list Event)
    (o : list Effect) (ws : nat) (msg : Frame)
    (r : nat) (fields : list (string * Value)) :
  run part_000 evs s0 = Some (s, o) ->
  parsed msg = Some (VObj r fields) ->
  lookup_field "type" fields = VStr "join" ->
  truthy (lookup_field "user" fields) = true ->
  messages s = messages s0 ++ appended evs
  /\ sends (on_message part_000 ws msg s).2
     = (if ToString_throws (user_name fields) then []
        else match messages s0 ++ appended evs with
             | [] => []
             | _ :: _ => [(ws, History (messages s0 ++ appended evs))]
             end)
  /\ (forall c p,
        (c, p) ∈ sends (on_message part_000 ws msg s).2 ->
        c = ws /\ p = History (messages s0 ++ appended evs)).
Proof.
  intros Hrun Hp Hty Hu.
  pose proof (run_messages evs s0 s o Hrun) as Hm. split; [exact Hm|].
  destruct (on_message_join ws msg s r fields Hp Hty) as (s' & o' & -> & Hs & _).
  cbn [snd]. rewrite Hs, Hu, Hm. cbn [andb].
  destruct (ToString_throws (user_name fields)); cbn [negb andb].
  - split; [reflexivity|]. by intros c p ?%elem_of_nil.
  - destruct (messages s0 ++ appended evs) as [|m ms]; cbn.
    + split; [reflexivity|]. by intros c p ?%elem_of_nil.
    + split; [reflexivity|]. by intros c p [= -> ->]%list_elem_of_singleton.
Qed.

Lemma history_replayed_in_order_witness :
  messages (state_after part_000 two_senders (init [alice]))
    = messages (init [alice]) ++ appended two_senders
  /\ sends (on_message part_000 2 join_alice
              (state_after part_000 two_senders (init [alice]))).2
     = (if ToString_throws
             (user_name [("type", VStr "join");
                         ("user", VObj 15 [("id", VStr "A"); ("name", VStr "alice")])])
        then []
        else match messages (init [alice]) ++ appended two_senders with
             | [] => []
             | _ :: _ =>
                 [(2%nat, History (messages (init [alice]) ++ appended two_senders))]
             end)
  /\ (forall c p,
        (c, p) ∈ sends (on_message part_000 2 join_alice
                          (state_after part_000 two_senders (init [alice]))).2 ->
        c = 2%nat
        /\ p = History (messages (init [alice]) ++ appended two_senders)).
Proof.
  apply (history_replayed_in_order (init [alice]) _ two_senders
           (effects_after part_000 two_senders (init [alice]))
           2 join_alice 14
           [("type", VStr "join");
            ("user", VObj 15 [("id", VStr "A"); ("name", VStr "alice")])]).
  - vm_compute. reflexivity.
  - reflexivity.
  - reflexivity.
  - reflexivity.
Defined.

(** ** Registration in closed form *)

Lemma has_name_find (nm : Value) (us : list User) :
  List.find (fun user => strict_equals (name user) nm) us = None
  <-> has_name nm us = false.
Proof.
  unfold has_name. induction us as [|x us IH]; cbn; [done|].
  destruct (strict_equals (name x) nm); cbn; [split; discriminate|exact IH].
Qed.

Lemma responses_app (o1 o2 : list Effect) :
  responses (o1 ++ o2) = responses o1 ++ responses o2.
Proof.
  induction o1 as [|e o1 IH]; [reflexivity|].
  destruct e; cbn; by rewrite IH.
Qed.

Lemma responses_fan_out (p : Payload) (l : list nat) :
  responses (map (fun ws => Send ws p) l) = [].
Proof. induction l as [|c l IH]; [reflexivity|exact IH]. Qed.

(** A name that is not taken: the identity is appended, saved and (where
    [broadcastUserState] exists) broadcast; the 200 goes out unless the 400 of
    an empty body went out before, in which case [send] throws. *)
Lemma new_user_success (v : Variant) (body : Value) (uuid : string) (fs_ok : bool)
    (n : nat) (nm : Value) (s : Server) :
  Object_keys_length body = inr n ->
  get_prop body f_name = inr nm ->
  has_name nm (userState s) = false ->
  new_user v body uuid fs_ok s
  = (if (n =? 0)%nat then Throw ERR_HTTP_HEADERS_SENT else Normal tt,
     set_userState (userState s ++ [{| id := VStr uuid; name := nm |}]) s,
     (if (n =? 0)%nat then [Respond 400 (BodyError name_taken)] else [])
     ++ [WriteFile (userState s ++ [{| id := VStr uuid; name := nm |}]);
         if fs_ok then LogInfo SavedUserState else LogError SaveFailed]
     ++ (if has_broadcastUserState v
         then map (fun ws => Send ws
                     (Roster (userState s ++ [{| id := VStr uuid; name := nm |}])))
                (open_clients s)
              ++ [LogInfo Broadcasted]
         else [])
     ++ LogInfo (NewUserCreated {| id := VStr uuid; name := nm |})
        :: (if (n =? 0)%nat then []
            else [Respond 200 (BodyUser {| id := VStr uuid; name := nm |})])).
Proof.
  intros Hn Hnm Hnew. apply has_name_find in Hnew.
  unfold new_user. rewrite Hn, Hnm. unfold_m.
  destruct (n =? 0)%nat, fs_ok, (has_broadcastUserState v); cbn;
    rewrite Hnew; cbn; rewrite ?app_nil_r, <- ?app_assoc; reflexivity.
Qed.

(** A name that is taken: nothing changes.  The error line interpolates the
    name, and the 409 is sent unless the 400 went out before. *)
Lemma new_user_conflict (v : Variant) (body : Value) (uuid : string)
    (fs_ok : bool) (n : nat) (nm : Value) (s : Server) :
  Object_keys_length body = inr n ->
  get_prop body f_name = inr nm ->
  has_name nm (userState s) = true ->
  new_user v body uuid fs_ok s
  = (if ToString_throws nm then Throw TypeError
     else if (n =? 0)%nat then Throw ERR_HTTP_HEADERS_SENT else Normal tt,
     s,
     (if (n =? 0)%nat then [Respond 400 (BodyError name_taken)] else [])
     ++ (if ToString_throws nm then []
         else LogError (AlreadyExist nm)
              :: (if (n =? 0)%nat then []
                  else [Respond 409 (BodyError name_taken)]))).
Proof.
  intros Hn Hnm Hin. unfold new_user. rewrite Hn, Hnm.
  destruct (List.find (fun user => strict_equals (name user) nm) (userState s))
    eqn:Hfind.
  - unfold_m. destruct (n =? 0)%nat, (ToString_throws nm); cbn;
      rewrite Hfind; reflexivity.
  - apply has_name_find in Hfind. congruence.
Qed.

(** ** C2: registration with an empty body *)

(** C2 (what the code does at the failing input): after answering 400 for an
    empty body the handler goes on with [name = undefined].  When no roster
    entry has that name it registers an identity without a name, writes the
    roster file and (where [broadcastUserState] exists) broadcasts the new
    roster; only the second [response.send] fails, with
    [ERR_HTTP_HEADERS_SENT], so the caller gets the 400 alone while the state
    has changed. *)
Theorem empty_body_still_registers (v : Variant) (body : Value) (uuid : string)
    (fs_ok : bool) (s : Server) :
  Object_keys_length body = inr 0%nat ->
  has_name VUndefined (userState s) = false ->
  (exists o,
     new_user v body uuid fs_ok s
       = (Throw ERR_HTTP_HEADERS_SENT,
          set_userState (userState s ++ [{| id := VStr uuid; name := VUndefined |}]) s,
          o)
     /\ writes o = [userState s ++ [{| id := VStr uuid; name := VUndefined |}]]
     /\ sends o
        = (if has_broadcastUserState v
           then fan_out
                  (Roster (userState s ++ [{| id := VStr uuid; name := VUndefined |}]))
                  (open_clients s)
           else [])
     /\ responses o = [(400%nat, BodyError name_taken)])
  /\ ~ rejected_without_change v body uuid fs_ok s.
Proof.
  intros Hn Hnew.
  assert (Hnm : get_prop body f_name = inr VUndefined).
  { destruct body as [| |b|k|str|ref el|ref fields]; cbn in Hn;
      try discriminate Hn; try reflexivity.
    destruct fields; [reflexivity|discriminate Hn]. }
  pose proof (new_user_success v body uuid fs_ok 0 VUndefined s Hn Hnm Hnew) as E.
  cbn [Nat.eqb] in E. split.
  - eexists. split; [exact E|].
    destruct (has_broadcastUserState v), fs_ok; cbn;
      rewrite ?writes_app, ?writes_fan_out, ?sends_app, ?sends_fan_out,
        ?responses_app, ?responses_fan_out; cbn; rewrite ?app_nil_r;
      repeat split; reflexivity.
  - intros (r & o & H & Hw & _). rewrite E in H. injection H as _ _ <-.
    destruct (has_broadcastUserState v), fs_ok; cbn in Hw;
      rewrite ?writes_app, ?writes_fan_out in Hw; discriminate Hw.
Qed.

Lemma empty_body_still_registers_witness :
  (exists o,
     new_user part_000 (VObj 0 []) "B" true (after part_000 [alice] [EvConnection 1%nat])
       = (Throw ERR_HTTP_HEADERS_SENT,
          set_userState
            (userState (after part_000 [alice] [EvConnection 1%nat])
             ++ [{| id := VStr "B"; name := VUndefined |}])
            (after part_000 [alice] [EvConnection 1%nat]),
          o)
     /\ writes o
        = [userState (after part_000 [alice] [EvConnection 1%nat])
           ++ [{| id := VStr "B"; name := VUndefined |}]]
     /\ sends o
        = (if has_broadcastUserState part_000
           then fan_out
                  (Roster (userState (after part_000 [alice] [EvConnection 1%nat])
                           ++ [{| id := VStr "B"; name := VUndefined |}]))
                  (open_clients (after part_000 [alice] [EvConnection 1%nat]))
           else [])
     /\ responses o = [(400%nat, BodyError name_taken)])
  /\ ~ rejected_without_change part_000 (VObj 0 []) "B" true
        (after part_000 [alice] [EvConnection 1%nat]).
Proof.
  apply (empty_body_still_registers part_000 (VObj 0 []) "B" true
           (after part_000 [alice] [EvConnection 1%nat])); reflexivity.
Defined.

(** ** C8: one identity per name *)

Lemma has_name_elem (nm : Value) (us : list User) :
  has_name nm us = false -> key_of nm ∉ roster_names us.
Proof.
  unfold has_name, roster_names.
  induction us as [|x us IH]; cbn; [intros _; apply not_elem_of_nil|].
  intros [Hx Hus]%orb_false_elim. apply not_elem_of_cons. split; [|by apply IH].
  unfold strict_equals in Hx. apply bool_decide_eq_false in Hx. congruence.
Qed.

Lemma names_unique_register (nm i : Value) (us : list User) :
  NoDup (roster_names us) -> has_name nm us = false ->
  NoDup (roster_names (us ++ [{| id := i; name := nm |}])).
Proof.
  intros Hnd Hnew. unfold roster_names. rewrite map_app. cbn.
  apply NoDup_app. split; [exact Hnd|]. split; [|apply NoDup_singleton].
  intros k Hk ->%list_elem_of_singleton. by apply (has_name_elem nm us).
Qed.

Lemma roster_names_delete (idx : nat) (us : list User) :
  roster_names (delete idx us) = delete idx (roster_names us).
Proof.
  revert idx. induction us as [|x us IH]; intros [|idx]; cbn; try reflexivity.
  f_equal. apply IH.
Qed.

Lemma names_unique_delete (idx : nat) (us : list User) :
  NoDup (roster_names us) -> NoDup (roster_names (delete idx us)).
Proof.
  rewrite roster_names_delete. intros H.
  eapply sublist_NoDup; [exact H|apply sublist_delete].
Qed.

Lemma names_unique_run (v : Variant) (evs : list Event) (s s' : Server) o :
  names_unique s -> run v evs s = Some (s', o) -> names_unique s'.
Proof.
  apply run_invariant; try done.
  - intros u s0 H. unfold names_unique. by rewrite userState_after_cancelDeletion.
  - intros nm uuid s0 H Hf. apply names_unique_register; [exact H|].
    by apply has_name_find.
  - intros h t s0 H _ _. unfold names_unique, after_deletion_timeout. cbn.
    destruct (findIndex (t_userId t) (userState s0)); cbn; [|exact H].
    by apply names_unique_delete.
Qed.

(** C8: starting from a roster without two identities of the same name, no
    sequence of events (registrations included) produces one; and a
    registration whose name is in the roster changes nothing, writes nothing
    and sends nothing.  With a body that has a key it answers 409 with the
    name-taken message, once; with an empty body the 400 has gone out and the
    [send] of the 409 throws; and a name without a string makes the handler
    throw at its error line, before any 409. *)
Theorem names_stay_unique (v : Variant) (s0 : Server) :
  names_unique s0 ->
  (forall evs s o, run v evs s0 = Some (s, o) -> names_unique s)
  /\ (forall body uuid fs_ok n nm,
        Object_keys_length body = inr n ->
        get_prop body f_name = inr nm ->
        has_name nm (userState s0) = true ->
        exists r o,
          new_user v body uuid fs_ok s0 = (r, s0, o)
          /\ writes o = [] /\ sends o = []
          /\ r = (if ToString_throws nm then Throw TypeError
                  else if (n =? 0)%nat then Throw ERR_HTTP_HEADERS_SENT
                       else Normal tt)
          /\ responses o
             = (if (n =? 0)%nat then [(400%nat, BodyError name_taken)]
                else if ToString_throws nm then []
                     else [(409%nat, BodyError name_taken)])).
Proof.
  intros H0. split.
  - intros evs s o. by apply names_unique_run.
  - intros body uuid fs_ok n nm Hn Hnm Hin. do 2 eexists.
    split; [by apply (new_user_conflict v body uuid fs_ok n nm)|].
    destruct (n =? 0)%nat, (ToString_throws nm); repeat split; reflexivity.
Qed.

Lemma names_stay_unique_witness :
  (forall evs s o, run part_000 evs (init [alice]) = Some (s, o) -> names_unique s)
  /\ (forall body uuid fs_ok n nm,
        Object_keys_length body = inr n ->
        get_prop body f_name = inr nm ->
        has_name nm (userState (init [alice])) = true ->
        exists r o,
          new_user part_000 body uuid fs_ok (init [alice]) = (r, init [alice], o)
          /\ writes o = [] /\ sends o = []
          /\ r = (if ToString_throws nm then Throw TypeError
                  else if (n =? 0)%nat then Throw ERR_HTTP_HEADERS_SENT
                       else Normal tt)
          /\ responses o
             = (if (n =? 0)%nat then [(400%nat, BodyError name_taken)]
                else if ToString_throws nm then []
                     else [(409%nat, BodyError name_taken)])).
Proof.
  apply (names_stay_unique part_000 (init [alice])).
  unfold names_unique. cbn. apply NoDup_singleton.
Defined.

(** ** Exit frames and closed connections *)

Lemma open_clients_write (ws : nat) (x : Value) (s : Server) :
  open_clients
    (set_sockets
       (alter (fun k => {| readyState := readyState k; currentUserId := x |}) ws
          (sockets s)) s)
  = open_clients s.
Proof.
  unfold open_clients. cbn [clients set_sockets]. apply filter_ext. intros c.
  unfold is_open. cbn. destruct (decide (ws = c)) as [->|Hne].
  - rewrite lookup_alter_eq. by destruct (sockets s !! c).
  - by rewrite lookup_alter_ne.
Qed.

Lemma open_clients_after_cancelDeletion (u : Value) (s : Server) :
  open_clients (after_cancelDeletion u s) = open_clients s.
Proof.
  apply open_clients_ext;
    [apply clients_after_cancelDeletion | apply sockets_after_cancelDeletion].
Qed.

Lemma open_clients_after_scheduleDeletion (v : Variant) (u : Value) (s : Server) :
  open_clients (after_scheduleDeletion v u s) = open_clients s.
Proof. reflexivity. Qed.

Lemma open_clients_set_connectedUsers (c : gset nat) (s : Server) :
  open_clients (set_connectedUsers c s) = open_clients s.
Proof. reflexivity. Qed.

Lemma open_clients_set_messages (ms : list Value) (s : Server) :
  open_clients (set_messages ms s) = open_clients s.
Proof. reflexivity. Qed.

Lemma is_open_closed (ws c : nat) (s : Server) :
  c <> ws -> is_open (closed ws s) c = is_open s c.
Proof. intros Hne. unfold is_open. cbn. by rewrite lookup_alter_ne. Qed.

Lemma open_clients_closed (ws : nat) (s : Server) :
  open_clients (closed ws s)
  = List.filter (fun c => negb (c =? ws)%nat) (open_clients s).
Proof.
  unfold open_clients.
  change (clients (closed ws s))
    with (List.filter (fun c => negb (c =? ws)%nat) (clients s)).
  induction (clients s) as [|c cs IH]; [reflexivity|]. cbn [List.filter].
  destruct (c =? ws)%nat eqn:E; cbn [negb].
  - rewrite IH. destruct (is_open s c); [|reflexivity].
    cbn [List.filter]. by rewrite E.
  - cbn [List.filter]. rewrite is_open_closed by by apply Nat.eqb_neq.
    rewrite IH. destruct (is_open s c); [|reflexivity].
    cbn [List.filter]. by rewrite E.
Qed.

Lemma current_of_closed (ws : nat) (s : Server) :
  current_of (closed ws s) ws = current_of s ws.
Proof.
  unfold current_of. cbn. rewrite lookup_alter_eq.
  by destruct (sockets s !! ws).
Qed.

#[global] Hint Rewrite open_clients_write open_clients_after_cancelDeletion
  open_clients_after_scheduleDeletion open_clients_set_connectedUsers
  open_clients_set_messages sends_app sends_fan_out sends_log_cancelDeletion
  : fields.

Arguments open_clients : simpl never.

(** [ws.on("close")] in closed form: the log line that interpolates
    [currentUserId] comes after the scheduling and before the broadcast. *)
Lemma on_close_eq (v : Variant) (ws : nat) (s : Server) :
  on_close v ws s
  = if truthy (current_of s ws)
    then (after_interpolating (current_of s ws),
          set_connectedUsers (connectedUsers s ∖ {[ws]})
            (after_scheduleDeletion v (current_of s ws) s),
          if ToString_throws (current_of s ws) then []
          else LogInfo (Disconnected (current_of s ws))
               :: map (fun c => Send c (Roster (userState s))) (open_clients s))
    else (Normal tt, s, []).
Proof.
  unfold on_close, connectedUsers_delete, after_interpolating. simpl_m.
  fold (current_of s ws).
  destruct (truthy (current_of s ws)), (ToString_throws (current_of s ws));
    eval_m; reflexivity.
Qed.

(** An exit frame that carries no user, in closed form. *)
Lemma on_message_exit_bare (v : Variant) (ws : nat) (msg : Frame) (s : Server)
    (r : nat) (fields : list (string * Value)) :
  parsed msg = Some (VObj r fields) ->
  lookup_field "type" fields = VStr "exit" ->
  truthy (lookup_field "user" fields) = false ->
  on_message v ws msg s
  = (Normal tt,
     (if truthy (current_of s ws)
      then set_connectedUsers (connectedUsers s ∖ {[ws]})
             (after_scheduleDeletion v (current_of s ws) s)
      else s),
     LogInfo (MessageReceived (VObj r fields))
     :: map (fun c => Send c (Roster (userState s))) (open_clients s)
     ++ [LogInfo (ExitScheduled (VStr "unknown"))]).
Proof.
  intros Hp Hty Hu. unfold on_message, connectedUsers_delete. rewrite Hp.
  simpl_m. rewrite Hty, !Hu. fold_strict_equals. eval_m.
  fold (current_of s ws).
  destruct (truthy (current_of s ws)); eval_m; reflexivity.
Qed.

(** ** C4: close against exit *)

(** C4 (as the code has it): for a connection whose last announced id is
    [current_of s ws], the close handler and an exit frame without a user leave
    the same timers: both schedule the eviction exactly when that id is
    truthy.  They differ in what they send and in how they end.  Exit sends
    the roster to every open client whatever the id and returns.  Close sends
    it (to the clients still open) only when the id is truthy and can be
    interpolated into the log line that precedes the broadcast; when the id is
    truthy and has no string, close throws a [TypeError] after the scheduling
    and sends nothing. *)
Theorem close_schedules_like_exit (v : Variant) (ws : nat) (msg : Frame)
    (s : Server) (r : nat) (fields : list (string * Value)) :
  parsed msg = Some (VObj r fields) ->
  lookup_field "type" fields = VStr "exit" ->
  truthy (lookup_field "user" fields) = false ->
  is_client s ws = true ->
  exists se oe sc oc,
    step v (EvMessage ws msg) s = Some (Normal tt, se, oe)
    /\ step v (EvClose ws) s
       = Some (if truthy (current_of s ws)
               then after_interpolating (current_of s ws) else Normal tt, sc, oc)
    /\ timers se = timers sc
    /\ deletionTimers se = deletionTimers sc
    /\ timers se
       = (if truthy (current_of s ws)
          then timers (after_scheduleDeletion v (current_of s ws) s)
          else timers s)
    /\ sends oe = fan_out (Roster (userState s)) (open_clients s)
    /\ sends oc
       = (if truthy (current_of s ws) && negb (ToString_throws (current_of s ws))
          then fan_out (Roster (userState s))
                 (List.filter (fun c => negb (c =? ws)%nat) (open_clients s))
          else []).
Proof.
  intros Hp Hty Hu Hc.
  pose proof (on_message_exit_bare v ws msg s r fields Hp Hty Hu) as He.
  pose proof (on_close_eq v ws (closed ws s)) as Hcl.
  rewrite !current_of_closed in Hcl.
  destruct (truthy (current_of s ws)), (ToString_throws (current_of s ws));
    do 4 eexists;
    (split; [cbn [step]; rewrite Hc, He; reflexivity|]);
    (split; [cbn [step]; rewrite Hc, Hcl; reflexivity|]);
    cbn; repeat split; try reflexivity.
  all: rewrite ?sends_app, ?sends_fan_out, ?open_clients_closed, ?app_nil_r;
    reflexivity.
Qed.

Lemma close_schedules_like_exit_witness :
  exists se oe sc oc,
    step part_000 (EvMessage 1%nat exit_bare)
      (after part_000 [alice] [EvConnection 1%nat; EvMessage 1%nat join_alice])
      = Some (Normal tt, se, oe)
    /\ step part_000 (EvClose 1%nat)
         (after part_000 [alice] [EvConnection 1%nat; EvMessage 1%nat join_alice])
       = Some (if truthy (current_of
                    (after part_000 [alice]
                       [EvConnection 1%nat; EvMessage 1%nat join_alice]) 1)
               then after_interpolating
                      (current_of
                         (after part_000 [alice]
                            [EvConnection 1%nat; EvMessage 1%nat join_alice]) 1)
               else Normal tt, sc, oc)
    /\ timers se = timers sc
    /\ deletionTimers se = deletionTimers sc
    /\ timers se
       = (if truthy (current_of
               (after part_000 [alice]
                  [EvConnection 1%nat; EvMessage 1%nat join_alice]) 1)
          then timers (after_scheduleDeletion part_000
                 (current_of
                    (after part_000 [alice]
                       [EvConnection 1%nat; EvMessage 1%nat join_alice]) 1)
                 (after part_000 [alice]
                    [EvConnection 1%nat; EvMessage 1%nat join_alice]))
          else timers (after part_000 [alice]
                         [EvConnection 1%nat; EvMessage 1%nat join_alice]))
    /\ sends oe
       = fan_out (Roster (userState
                    (after part_000 [alice]
                       [EvConnection 1%nat; EvMessage 1%nat join_alice])))
           (open_clients
              (after part_000 [alice]
                 [EvConnection 1%nat; EvMessage 1%nat join_alice]))
    /\ sends oc
       = (if truthy (current_of
               (after part_000 [alice]
                  [EvConnection 1%nat; EvMessage 1%nat join_alice]) 1)
             && negb (ToString_throws (current_of
                        (after part_000 [alice]
                           [EvConnection 1%nat; EvMessage 1%nat join_alice]) 1))
          then fan_out (Roster (userState
                          (after part_000 [alice]
                             [EvConnection 1%nat; EvMessage 1%nat join_alice])))
                 (List.filter (fun c => negb (c =? 1)%nat)
                    (open_clients
                       (after part_000 [alice]
                          [EvConnection 1%nat; EvMessage 1%nat join_alice])))
          else []).
Proof.
  apply (close_schedules_like_exit part_000 1 exit_bare
           (after part_000 [alice] [EvConnection 1%nat; EvMessage 1%nat join_alice])
           10 [("type", VStr "exit")]); reflexivity.
Defined.

(** C4 as stated fails: connection 1 never announced an identity and
    connection 2 is open; an exit frame on 1 sends the roster to both, the
    close of 1 sends nothing. *)
Lemma close_differs_from_exit :
  current_of (after part_000 [alice] [EvConnection 1%nat; EvConnection 2%nat]) 1
    = VNull
  /\ ~ close_like_exit part_000 1 exit_bare
        (after part_000 [alice] [EvConnection 1%nat; EvConnection 2%nat]).
Proof.
  split; [reflexivity|].
  intros (re & se & oe & rc & sc & oc & He & Hc & _ & _ & [_ Hiff]).
  vm_compute in He, Hc.
  injection He as _ _ <-. injection Hc as _ _ <-.
  specialize (Hiff eq_refl). discriminate Hiff.
Qed.

(** ** C3: what follows an exit *)

(** A "send" frame, whatever else it carries: appended (where there is a
    history) and sent to every open client. *)
Lemma on_message_send (v : Variant) (ws : nat) (msg : Frame) (s : Server)
    (r : nat) (fields : list (string * Value)) :
  parsed msg = Some (VObj r fields) ->
  lookup_field "type" fields = VStr "send" ->
  exists s' o,
    on_message v ws msg s = (Normal tt, s', o)
    /\ messages s'
       = messages s ++ (if has_history v then [VObj r fields] else [])
    /\ sends o = fan_out (Raw (data msg) (isBinary msg)) (open_clients s).
Proof.
  intros Hp Hty. unfold on_message. rewrite Hp.
  simpl_m. rewrite Hty. fold_strict_equals. cbn.
  destruct (truthy (lookup_field "user" fields)) eqn:Hu.
  - destruct (get_prop_truthy _ f_id Hu) as [uid ->].
    crunch; do 2 eexists; (split; [reflexivity|]); split;
      autorewrite with fields; cbn; autorewrite with fields;
      rewrite ?app_nil_r; try reflexivity.
  - rewrite ?Hu. crunch; do 2 eexists; (split; [reflexivity|]); split;
      autorewrite with fields; cbn; autorewrite with fields;
      rewrite ?app_nil_r; reflexivity.
Qed.





Lemma retired_cancelled (h : nat) (u : Value) (s : Server) :
  deletionTimers s !! key_of u = Some h -> (h < next_timer s)%nat ->
  retired h (after_cancelDeletion u s).
Proof.
  intros Hd Hlt. unfold after_cancelDeletion. rewrite Hd.
  split; [exact Hlt|]. cbn. apply lookup_delete_eq.
Qed.







(** * Further properties of the handlers *)

(** ** A program logic for effects *)

Section Keeps.
Context (I : Server -> Prop) (Q : Effect -> Prop).

Lemma keeps_ret {A} (a : A) : keeps I Q (mret a).
Proof. intros s H. split; [exact H|constructor]. Qed.

Lemma keeps_bind {A B} (m : M A) (k : A -> M B) :
  keeps I Q m -> (forall a, keeps I Q (k a)) -> keeps I Q (m ≫= k).
Proof.
  intros Hm Hk s H. destruct (Hm s H) as [H1 H2].
  unfold mbind, M_bind. destruct (m s) as [[[a|e] s1] o1]; cbn in *.
  - destruct (Hk a s1 H1) as [H3 H4]. destruct (k a s1) as [[r s2] o2]. cbn in *.
    split; [exact H3|]. by apply Forall_app.
  - by split.
Qed.

Lemma keeps_get_state : keeps I Q get_state.
Proof. intros s H. split; [exact H|constructor]. Qed.

Lemma keeps_modify (f : Server -> Server) :
  (forall s, I s -> I (f s)) -> keeps I Q (modify f).
Proof. intros Hf s H. split; [by apply Hf|constructor]. Qed.

Lemma keeps_emit (o : list Effect) : Forall Q o -> keeps I Q (emit o).
Proof. intros Ho s H. by split. Qed.

Lemma keeps_throw {A} (e : JsError) : keeps I Q (throw (A := A) e).
Proof. intros s H. split; [exact H|constructor]. Qed.

Lemma keeps_lift {A} (r : JsError + A) : keeps I Q (lift r).
Proof. destruct r; [apply keeps_throw | apply keeps_ret]. Qed.

Lemma keeps_when (b : bool) (m : M unit) : keeps I Q m -> keeps I Q (when b m).
Proof. destruct b; [done | intros _; apply keeps_ret]. Qed.

Lemma keeps_cancelDeletion (u : Value) :
  (forall s, I s -> I (after_cancelDeletion u s)) ->
  Q (LogInfo (DeletionCancelled u)) ->
  keeps I Q (cancelDeletion u).
Proof.
  intros HI HQ s H. rewrite cancelDeletion_eq. split; [by apply HI|]. cbn.
  unfold log_cancelDeletion. destruct (deletionTimers s !! key_of u); by repeat constructor.
Qed.

Lemma keeps_scheduleDeletion (v : Variant) (u : Value) :
  (forall s, I s -> I (after_scheduleDeletion v u s)) ->
  keeps I Q (scheduleDeletion v u).
Proof.
  intros HI s H. rewrite scheduleDeletion_eq. split; [by apply HI|constructor].
Qed.

Lemma keeps_send_all (p : Payload) :
  (forall s c, I s -> c ∈ open_clients s -> Q (Send c p)) ->
  keeps I Q (send_all p).
Proof.
  intros HQ s H. unfold send_all. unfold_m. cbn. split; [exact H|].
  rewrite ?app_nil_r. apply Forall_forall. intros e He.
  apply list_elem_of_In, in_map_iff in He as (c & <- & Hc).
  apply (HQ s); [exact H|]. by apply list_elem_of_In.
Qed.
End Keeps.

Ltac keeps_step leaf :=
  lazymatch goal with
  | |- keeps _ _ (mbind _ _) => apply keeps_bind; [|intros ?]
  | |- keeps _ _ (mret _) => apply keeps_ret
  | |- keeps _ _ (when _ _) => apply keeps_when
  | |- keeps _ _ (lift _) => apply keeps_lift
  | |- keeps _ _ (throw _) => apply keeps_throw
  | |- keeps _ _ get_state => apply keeps_get_state
  | |- keeps _ _ (interpolate _) => unfold interpolate
  | |- keeps _ _ (response_send _ _ _) => unfold response_send
  | |- keeps _ _ (if ?b then _ else _) => destruct b
  | |- keeps _ _ (match ?x with _ => _ end) => destruct x
  | |- keeps _ _ _ => leaf
  end.

Ltac keeps_all leaf := repeat keeps_step leaf.

(** The three connection handlers against an invariant [I] that the writes of
    a connection respect and an effect predicate [Q] that admits log lines,
    broadcasts to open clients and the history envelope to [ws]. *)
Section Realtime.
Context (I : Server -> Prop) (Q : Effect -> Prop) (ws : nat).
Hypothesis I_write : forall x s,
  I s ->
  I (set_sockets
       (alter (fun k => {| readyState := readyState k; currentUserId := x |}) ws
          (sockets s)) s).
Hypothesis I_connectedUsers : forall c s, I s -> I (set_connectedUsers c s).
Hypothesis I_messages : forall ms s, I s -> I (set_messages ms s).
Hypothesis I_cancel : forall u s, I s -> I (after_cancelDeletion u s).
Hypothesis I_schedule : forall v u s, I s -> I (after_scheduleDeletion v u s).
Hypothesis Q_info : forall l, Q (LogInfo l).
Hypothesis Q_roster : forall s c us, I s -> c ∈ open_clients s -> Q (Send c (Roster us)).
Hypothesis Q_raw : forall s c b f, I s -> c ∈ open_clients s -> Q (Send c (Raw b f)).
Hypothesis Q_history : forall ms, Q (Send ws (History ms)).

Ltac realtime_leaf :=
  first
    [ apply keeps_cancelDeletion; [intros ? ?; by apply I_cancel|apply Q_info]
    | apply keeps_scheduleDeletion; intros ? ?; by apply I_schedule
    | apply keeps_send_all; intros ? ? ? ?;
      first [by eapply Q_roster | by eapply Q_raw]
    | apply keeps_modify; intros ? ?;
      first [by apply I_write | by apply I_connectedUsers | by apply I_messages]
    | apply keeps_emit; repeat constructor;
      first [apply Q_info | apply Q_history] ].

Lemma on_message_keeps (v : Variant) (msg : Frame) : keeps I Q (on_message v ws msg).
Proof.
  unfold on_message, write_currentUserId, connectedUsers_delete, read_currentUserId.
  keeps_all realtime_leaf.
Qed.

Lemma on_close_keeps (v : Variant) : keeps I Q (on_close v ws).
Proof.
  unfold on_close, connectedUsers_delete, read_currentUserId.
  keeps_all realtime_leaf.
Qed.

Lemma on_connection_keeps : keeps I Q (on_connection ws).
Proof.
  unfold on_connection, write_currentUserId.
  keeps_all realtime_leaf.
Qed.
End Realtime.

(** ** What each kind of event can emit *)

Lemma send_or_log_quiet (o : list Effect) :
  Forall send_or_log o -> writes o = [] /\ responses o = [].
Proof.
  induction 1 as [|e o He _ IH]; [done|].
  destruct e; cbn in *; done.
Qed.

Lemma Some_effects {A} (m : Completion A * Server * list Effect) r s' o :
  Some m = Some (r, s', o) -> o = m.2.
Proof. intros [= ->]. reflexivity. Qed.

Lemma realtime_effects (v : Variant) (ws : nat) :
  (forall msg s, Forall send_or_log (on_message v ws msg s).2)
  /\ (forall s, Forall send_or_log (on_close v ws s).2)
  /\ (forall s, Forall send_or_log (on_connection ws s).2).
Proof.
  split; [|split]; intros.
  - apply (on_message_keeps (fun _ => True) send_or_log ws); done.
  - apply (on_close_keeps (fun _ => True) send_or_log ws); done.
  - apply (on_connection_keeps (fun _ => True) send_or_log ws); done.
Qed.

(** X1: the roster file is written only by a registration or by an eviction
    timer, and an HTTP response is produced only by the two HTTP handlers:
    connection, message and close events never write the file and never
    answer a request, and a timer never answers one. *)
Theorem effects_by_event_kind (v : Variant) (e : Event) (s s' : Server)
    (r : Completion unit) (o : list Effect) :
  step v e s = Some (r, s', o) ->
  match e with
  | EvNewUser _ _ _ => True
  | EvVerifyUser _ => writes o = [] /\ sends o = []
  | EvTimeout _ _ => responses o = []
  | _ => writes o = [] /\ responses o = []
  end.
Proof.
  intros Hstep.
  destruct e as [ws|ws msg|ws|ws|h fs_ok|body uuid fs_ok|body|dt];
    cbn [step] in Hstep.
  - destruct (sockets s !! ws); [discriminate|].
    rewrite (Some_effects _ _ _ _ Hstep).
    apply send_or_log_quiet, (realtime_effects v ws).
  - destruct (is_client s ws); [|discriminate].
    rewrite (Some_effects _ _ _ _ Hstep).
    apply send_or_log_quiet, (realtime_effects v ws).
  - destruct (is_open s ws); [|discriminate]. by injection Hstep as _ _ <-.
  - destruct (is_client s ws); [|discriminate].
    rewrite (Some_effects _ _ _ _ Hstep).
    apply send_or_log_quiet, (realtime_effects v ws).
  - destruct (timers s !! h) as [t|]; [|discriminate].
    destruct (t_fireAt t <=? now s); [|discriminate].
    rewrite deletion_timeout_eq in Hstep. injection Hstep as _ _ <-.
    unfold effects_deletion_timeout.
    destruct (findIndex _ _); [|reflexivity].
    destruct fs_ok, (has_broadcastUserState v); cbn;
      rewrite ?responses_app, ?responses_fan_out; reflexivity.
  - exact I.
  - rewrite (Some_effects _ _ _ _ Hstep). unfold verify_user. unfold_m.
    destruct (get_prop body f_id); [done|]. cbn.
    destruct (get_prop body f_name); [done|]. cbn.
    by destruct (existsb _ _).
  - destruct (0 <=? dt); [|discriminate]. by injection Hstep as _ _ <-.
Qed.

Lemma effects_by_event_kind_witness :
  writes (effects_after part_000 [EvMessage 1%nat exit_alice]
            (after part_000 [alice] [EvConnection 1%nat])) = []
  /\ responses (effects_after part_000 [EvMessage 1%nat exit_alice]
                  (after part_000 [alice] [EvConnection 1%nat])) = [].
Proof.
  apply (effects_by_event_kind part_000 (EvMessage 1%nat exit_alice)
           (after part_000 [alice] [EvConnection 1%nat])
           (state_after part_000 [EvMessage 1%nat exit_alice]
              (after part_000 [alice] [EvConnection 1%nat]))
           (Normal tt)).
  vm_compute. reflexivity.
Defined.

(** ** Who is sent what *)

Lemma well_addressed_sends (T : list nat) (w : option nat) (o : list Effect)
    (c : nat) (p : Payload) :
  Forall (well_addressed T w) o -> (c, p) ∈ sends o ->
  c ∈ T \/ (w = Some c /\ exists ms, p = History ms).
Proof.
  induction 1 as [|e o He _ IH]; cbn; [by intros ?%elem_of_nil|].
  destruct e as [c' p'| | | |]; try exact IH.
  intros [[= -> ->]|Hin]%elem_of_cons; [|by apply IH].
  destruct p'; cbn in He; eauto.
Qed.

Ltac addressed_leaf :=
  first
    [ apply keeps_cancelDeletion;
      [intros ? Hx; by rewrite open_clients_after_cancelDeletion|exact I]
    | apply keeps_scheduleDeletion; intros ? Hx; exact Hx
    | apply keeps_send_all; intros ? ? Hx Hc; cbn; by rewrite <- Hx
    | apply keeps_modify; intros ? Hx;
      first [by rewrite open_clients_write | exact Hx]
    | apply keeps_emit; repeat constructor ].

Lemma on_message_addressed (v : Variant) (ws : nat) (msg : Frame) (T : list nat) :
  keeps (fun x => open_clients x = T) (well_addressed T (Some ws))
    (on_message v ws msg).
Proof.
  unfold on_message, write_currentUserId, connectedUsers_delete, read_currentUserId.
  keeps_all addressed_leaf.
Qed.

Lemma on_close_addressed (v : Variant) (ws : nat) (T : list nat) :
  keeps (fun x => open_clients x = T) (well_addressed T None) (on_close v ws).
Proof.
  unfold on_close, connectedUsers_delete, read_currentUserId.
  keeps_all addressed_leaf.
Qed.

Lemma on_connection_addressed (ws : nat) (T : list nat) :
  keeps (fun x => open_clients x = T) (well_addressed T None) (on_connection ws).
Proof.
  unfold on_connection, write_currentUserId. keeps_all addressed_leaf.
Qed.

Lemma new_user_addressed (v : Variant) body uuid fs_ok (T : list nat) :
  keeps (fun x => open_clients x = T) (well_addressed T None)
    (new_user v body uuid fs_ok).
Proof.
  unfold new_user, saveUserState, broadcastUserState.
  keeps_all addressed_leaf.
Qed.

Lemma verify_user_addressed body (T : list nat) :
  keeps (fun x => open_clients x = T) (well_addressed T None) (verify_user body).
Proof. unfold verify_user. keeps_all addressed_leaf. Qed.

Lemma deletion_timeout_addressed (v : Variant) u fs_ok (T : list nat) :
  keeps (fun x => open_clients x = T) (well_addressed T None)
    (deletion_timeout v u fs_ok).
Proof.
  unfold deletion_timeout, saveUserState, broadcastUserState.
  keeps_all addressed_leaf.
Qed.

Lemma not_elem_of_open_clients_closed (ws : nat) (s : Server) :
  ws ∉ open_clients (closed ws s).
Proof.
  rewrite open_clients_closed. rewrite list_elem_of_In, filter_In.
  intros [_ H]. by rewrite Nat.eqb_refl in H.
Qed.

(** The connection whose join an event may answer. *)
Lemma step_addressed (v : Variant) (e : Event) (s s' : Server)
    (r : Completion unit) (o : list Effect) :
  step v e s = Some (r, s', o) ->
  Forall (well_addressed (open_clients s')
            match e with EvMessage ws _ => Some ws | _ => None end) o
  /\ (forall ws, e = EvClose ws -> ws ∉ open_clients s').
Proof.
  intros Hstep.
  destruct e as [ws|ws msg|ws|ws|h fs_ok|body uuid fs_ok|body|dt];
    cbn [step] in Hstep; (split; [|try discriminate]).
  - destruct (sockets s !! ws); [discriminate|].
    rewrite (Some_state _ _ _ _ Hstep), (Some_effects _ _ _ _ Hstep).
    destruct (on_connection_addressed ws _ (accept ws s) eq_refl) as [H1 H2].
    by rewrite H1.
  - destruct (is_client s ws); [|discriminate].
    rewrite (Some_state _ _ _ _ Hstep), (Some_effects _ _ _ _ Hstep).
    destruct (on_message_addressed v ws msg _ s eq_refl) as [H1 H2].
    by rewrite H1.
  - destruct (is_open s ws); [|discriminate]. injection Hstep as _ <- <-.
    constructor.
  - destruct (is_client s ws); [|discriminate].
    rewrite (Some_state _ _ _ _ Hstep), (Some_effects _ _ _ _ Hstep).
    destruct (on_close_addressed v ws _ (closed ws s) eq_refl) as [H1 H2].
    by rewrite H1.
  - intros w [= <-]. destruct (is_client s ws); [|discriminate].
    rewrite (Some_state _ _ _ _ Hstep).
    destruct (on_close_addressed v ws _ (closed ws s) eq_refl) as [H1 H2].
    rewrite H1. apply not_elem_of_open_clients_closed.
  - destruct (timers s !! h) as [t|]; [|discriminate].
    destruct (t_fireAt t <=? now s); [|discriminate].
    rewrite (Some_state _ _ _ _ Hstep), (Some_effects _ _ _ _ Hstep).
    destruct (deletion_timeout_addressed v (t_userId t) fs_ok _ (disarm h s) eq_refl)
      as [H1 H2].
    by rewrite H1.
  - rewrite (Some_state _ _ _ _ Hstep), (Some_effects _ _ _ _ Hstep).
    destruct (new_user_addressed v body uuid fs_ok _ s eq_refl) as [H1 H2].
    by rewrite H1.
  - rewrite (Some_state _ _ _ _ Hstep), (Some_effects _ _ _ _ Hstep).
    destruct (verify_user_addressed body _ s eq_refl) as [H1 H2].
    by rewrite H1.
  - destruct (0 <=? dt); [|discriminate]. injection Hstep as _ <- <-.
    constructor.
Qed.

(** X2: whatever the event, a roster or message broadcast only reaches
    connections that are open once the event is handled; the one send that is
    not a broadcast is the history envelope, which goes to the connection
    whose frame is being handled.  A connection that closes is sent nothing by
    its own close. *)
Theorem sends_reach_open_clients_only (v : Variant) (e : Event) (s s' : Server)
    (r : Completion unit) (o : list Effect) :
  step v e s = Some (r, s', o) ->
  (forall c p, (c, p) ∈ sends o ->
     c ∈ open_clients s'
     \/ exists msg ms, e = EvMessage c msg /\ p = History ms)
  /\ (forall ws p, e = EvClose ws -> (ws, p) ∉ sends o).
Proof.
  intros Hstep. destruct (step_addressed v e s s' r o Hstep) as [Ha Hc].
  assert (Hsend : forall c p, (c, p) ∈ sends o ->
            c ∈ open_clients s'
            \/ exists msg ms, e = EvMessage c msg /\ p = History ms).
  { intros c p Hin.
    destruct (well_addressed_sends _ _ _ _ _ Ha Hin) as [H|[Hw [ms ->]]];
      [by left|right].
    destruct e; try discriminate Hw. injection Hw as ->. eauto. }
  split; [exact Hsend|].
  intros ws p -> Hin. destruct (Hsend ws p Hin) as [H|(msg & ms & [=] & _)].
  by apply (Hc ws).
Qed.

Lemma sends_reach_open_clients_only_witness :
  (forall c p,
     (c, p) ∈ sends (effects_after part_000 [EvClose 1%nat]
                       (after part_000 [alice]
                          [EvConnection 1%nat; EvConnection 2%nat;
                           EvMessage 1%nat join_alice])) ->
     c ∈ open_clients (state_after part_000 [EvClose 1%nat]
                         (after part_000 [alice]
                            [EvConnection 1%nat; EvConnection 2%nat;
                             EvMessage 1%nat join_alice]))
     \/ exists msg ms, EvClose 1%nat = EvMessage c msg /\ p = History ms)
  /\ (forall ws p,
        EvClose 1%nat = EvClose ws ->
        (ws, p) ∉ sends (effects_after part_000 [EvClose 1%nat]
                           (after part_000 [alice]
                              [EvConnection 1%nat; EvConnection 2%nat;
                               EvMessage 1%nat join_alice]))).
Proof.
  apply (sends_reach_open_clients_only part_000 (EvClose 1%nat)
           (after part_000 [alice]
              [EvConnection 1%nat; EvConnection 2%nat; EvMessage 1%nat join_alice])
           _ (Normal tt)).
  vm_compute. reflexivity.
Defined.

(** ** How the roster changes *)

Lemma has_id_delete_found (u x : Value) (us : list User) (idx : nat) :
  findIndex x us = Some idx ->
  has_id u us = true -> has_id u (delete idx us) = false ->
  key_of x = key_of u.
Proof.
  intros Hf H1 H2. destruct (decide (key_of x = key_of u)) as [E|E]; [exact E|].
  rewrite (has_id_delete_other u x us idx Hf E) in H2. congruence.
Qed.

(** X3: the roster changes in two ways only: a registration whose name is not
    taken appends one identity at the end, and a timer that fires removes the
    first entry with its id.  Every other event leaves the roster as it is; an
    identity leaves the roster only when a timer armed for its own id fires. *)
Theorem roster_changes_only_by_registration_or_eviction (v : Variant) (e : Event)
    (s s' : Server) (r : Completion unit) (o : list Effect) :
  step v e s = Some (r, s', o) ->
  (userState s' = userState s
   \/ (exists body uuid fs_ok nm,
         e = EvNewUser body uuid fs_ok
         /\ get_prop body f_name = inr nm
         /\ has_name nm (userState s) = false
         /\ userState s' = userState s ++ [{| id := VStr uuid; name := nm |}])
   \/ (exists h fs_ok t idx,
         e = EvTimeout h fs_ok
         /\ timers s !! h = Some t
         /\ findIndex (t_userId t) (userState s) = Some idx
         /\ userState s' = delete idx (userState s)))
  /\ (forall x,
        has_id x (userState s) = true -> has_id x (userState s') = false ->
        exists h fs_ok t,
          e = EvTimeout h fs_ok /\ timers s !! h = Some t
          /\ key_of (t_userId t) = key_of x).
Proof.
  intros Hstep.
  assert (Hcases :
    userState s' = userState s
    \/ (exists body uuid fs_ok nm,
          e = EvNewUser body uuid fs_ok
          /\ get_prop body f_name = inr nm
          /\ has_name nm (userState s) = false
          /\ userState s' = userState s ++ [{| id := VStr uuid; name := nm |}])
    \/ (exists h fs_ok t idx,
          e = EvTimeout h fs_ok
          /\ timers s !! h = Some t
          /\ findIndex (t_userId t) (userState s) = Some idx
          /\ userState s' = delete idx (userState s))).
  { destruct e as [ws|ws msg|ws|ws|h fs_ok|body uuid fs_ok|body|dt];
      cbn [step] in Hstep.
    - destruct (sockets s !! ws); [discriminate|]. left.
      rewrite (Some_state _ _ _ _ Hstep).
      by apply (on_connection_invariant (fun x => userState x = userState s)).
    - destruct (is_client s ws); [|discriminate]. left.
      rewrite (Some_state _ _ _ _ Hstep).
      apply (on_message_invariant (fun x => userState x = userState s)); try done.
      intros u s0 <-. apply userState_after_cancelDeletion.
    - destruct (is_open s ws); [|discriminate]. injection Hstep as _ <- _. by left.
    - destruct (is_client s ws); [|discriminate]. left.
      rewrite (Some_state _ _ _ _ Hstep).
      by apply (on_close_invariant (fun x => userState x = userState s)).
    - destruct (timers s !! h) as [t|] eqn:Ht; [|discriminate].
      destruct (t_fireAt t <=? now s); [|discriminate].
      rewrite deletion_timeout_eq in Hstep. injection Hstep as _ <- _.
      unfold after_deletion_timeout. cbn.
      destruct (findIndex (t_userId t) (userState s)) as [idx|] eqn:Hf;
        [|by left].
      right. right. by exists h, fs_ok, t, idx.
    - rewrite (Some_state _ _ _ _ Hstep).
      destruct (new_user_state v body uuid fs_ok s) as [->|(nm & Hnm & Hf & ->)];
        [by left|].
      right. left. exists body, uuid, fs_ok, nm.
      repeat split; try done. by apply has_name_find.
    - left. rewrite (Some_state _ _ _ _ Hstep).
      by apply (verify_user_invariant (fun x => userState x = userState s)).
    - destruct (0 <=? dt); [|discriminate]. injection Hstep as _ <- _. by left. }
  split; [exact Hcases|].
  intros x H1 H2.
  destruct Hcases as [E|[(body & uuid & fs_ok & nm & _ & _ & _ & E)
                        |(h & fs_ok & t & idx & -> & Ht & Hf & E)]].
  - rewrite E in H2. congruence.
  - rewrite E, (has_id_app x _ _ H1) in H2. discriminate.
  - exists h, fs_ok, t. repeat split; try done.
    rewrite E in H2. by eapply has_id_delete_found.
Qed.

Lemma roster_changes_only_by_registration_or_eviction_witness :
  (userState (state_after part_000 [EvMessage 1%nat exit_alice]
                (after part_000 [alice] [EvConnection 1%nat]))
   = userState (after part_000 [alice] [EvConnection 1%nat])
   \/ (exists body uuid fs_ok nm,
         EvMessage 1%nat exit_alice = EvNewUser body uuid fs_ok
         /\ get_prop body f_name = inr nm
         /\ has_name nm (userState (after part_000 [alice] [EvConnection 1%nat]))
            = false
         /\ userState (state_after part_000 [EvMessage 1%nat exit_alice]
                         (after part_000 [alice] [EvConnection 1%nat]))
            = userState (after part_000 [alice] [EvConnection 1%nat])
              ++ [{| id := VStr uuid; name := nm |}])
   \/ (exists h fs_ok t idx,
         EvMessage 1%nat exit_alice = EvTimeout h fs_ok
         /\ timers (after part_000 [alice] [EvConnection 1%nat]) !! h = Some t
         /\ findIndex (t_userId t)
              (userState (after part_000 [alice] [EvConnection 1%nat]))
            = Some idx
         /\ userState (state_after part_000 [EvMessage 1%nat exit_alice]
                         (after part_000 [alice] [EvConnection 1%nat]))
            = delete idx (userState (after part_000 [alice] [EvConnection 1%nat]))))
  /\ (forall x,
        has_id x (userState (after part_000 [alice] [EvConnection 1%nat])) = true ->
        has_id x (userState (state_after part_000 [EvMessage 1%nat exit_alice]
                               (after part_000 [alice] [EvConnection 1%nat])))
          = false ->
        exists h fs_ok t,
          EvMessage 1%nat exit_alice = EvTimeout h fs_ok
          /\ timers (after part_000 [alice] [EvConnection 1%nat]) !! h = Some t
          /\ key_of (t_userId t) = key_of x).
Proof.
  apply (roster_changes_only_by_registration_or_eviction part_000
           (EvMessage 1%nat exit_alice)
           (after part_000 [alice] [EvConnection 1%nat]) _ (Normal tt)
           (effects_after part_000 [EvMessage 1%nat exit_alice]
              (after part_000 [alice] [EvConnection 1%nat]))).
  vm_compute. reflexivity.
Defined.

(** ** The roster file *)

Lemma new_user_writes (v : Variant) (body : Value) (uuid : string) (fs_ok : bool)
    (s : Server) :
  (writes (new_user v body uuid fs_ok s).2 = []
   /\ userState (new_user v body uuid fs_ok s).1.2 = userState s)
  \/ writes (new_user v body uuid fs_ok s).2
     = [userState (new_user v body uuid fs_ok s).1.2].
Proof.
  unfold new_user.
  destruct (Object_keys_length body) as [e|n] eqn:Hn; [by left|].
  assert (Hnm : exists nm, get_prop body f_name = inr nm).
  { destruct body; cbn in Hn; try discriminate Hn; cbn; eauto. }
  destruct Hnm as [nm Hnm]. rewrite Hnm.
  destruct (List.find (fun user => strict_equals (name user) nm) (userState s))
    eqn:Hfind.
  - left. unfold_m. destruct (n =? 0)%nat, (ToString_throws nm); cbn;
      by rewrite Hfind.
  - right. unfold_m.
    destruct (n =? 0)%nat, fs_ok, (has_broadcastUserState v); cbn;
      rewrite Hfind; cbn; rewrite ?writes_app, ?writes_fan_out; reflexivity.
Qed.

Lemma step_writes (v : Variant) (e : Event) (s s' : Server)
    (r : Completion unit) (o : list Effect) :
  step v e s = Some (r, s', o) ->
  (writes o = [] /\ userState s' = userState s) \/ writes o = [userState s'].
Proof.
  intros Hstep.
  destruct e as [ws|ws msg|ws|ws|h fs_ok|body uuid fs_ok|body|dt];
    cbn [step] in Hstep.
  - destruct (sockets s !! ws); [discriminate|]. left.
    rewrite (Some_state _ _ _ _ Hstep), (Some_effects _ _ _ _ Hstep). split.
    + apply send_or_log_quiet, (realtime_effects v ws).
    + by apply (on_connection_invariant (fun x => userState x = userState s)).
  - destruct (is_client s ws); [|discriminate]. left.
    rewrite (Some_state _ _ _ _ Hstep), (Some_effects _ _ _ _ Hstep). split.
    + apply send_or_log_quiet, (realtime_effects v ws).
    + apply (on_message_invariant (fun x => userState x = userState s)); try done.
      intros u s0 <-. apply userState_after_cancelDeletion.
  - destruct (is_open s ws); [|discriminate]. injection Hstep as _ <- <-. by left.
  - destruct (is_client s ws); [|discriminate]. left.
    rewrite (Some_state _ _ _ _ Hstep), (Some_effects _ _ _ _ Hstep). split.
    + apply send_or_log_quiet, (realtime_effects v ws).
    + by apply (on_close_invariant (fun x => userState x = userState s)).
  - destruct (timers s !! h) as [t|]; [|discriminate].
    destruct (t_fireAt t <=? now s); [|discriminate].
    rewrite deletion_timeout_eq in Hstep. injection Hstep as _ <- <-.
    unfold after_deletion_timeout, effects_deletion_timeout. cbn.
    destruct (findIndex (t_userId t) (userState s)); [right|by left].
    destruct fs_ok, (has_broadcastUserState v); cbn;
      rewrite ?writes_app, ?writes_fan_out; reflexivity.
  - rewrite (Some_state _ _ _ _ Hstep), (Some_effects _ _ _ _ Hstep).
    apply new_user_writes.
  - left. rewrite (Some_state _ _ _ _ Hstep), (Some_effects _ _ _ _ Hstep). split.
    + unfold verify_user. unfold_m.
      destruct (get_prop body f_id); [done|]. cbn.
      destruct (get_prop body f_name); [done|]. cbn.
      by destruct (existsb _ _).
    + by apply (verify_user_invariant (fun x => userState x = userState s)).
  - destruct (0 <=? dt); [|discriminate]. injection Hstep as _ <- <-. by left.
Qed.

(** X4: over any sequence of events, every change of the roster is followed
    by a write of the whole roster: if the file was written at all, the last
    write holds exactly the roster in memory, and if it was not, the roster is
    the one the sequence started with. *)
Theorem file_mirrors_roster (v : Variant) (evs : list Event) (s s' : Server)
    (o : list Effect) :
  run v evs s = Some (s', o) ->
  match last (writes o) with
  | Some us => us = userState s'
  | None => userState s' = userState s
  end.
Proof.
  revert s o. induction evs as [|e evs IH]; intros s o Hrun.
  - injection Hrun as <- <-. reflexivity.
  - rewrite run_app in Hrun.
    destruct (step v e s) as [[[r s1] o1]|] eqn:Hstep; [|discriminate].
    destruct (run v evs s1) as [[s2 o2]|] eqn:Hrest; [|discriminate].
    injection Hrun as <- <-. specialize (IH _ _ Hrest).
    rewrite writes_app, last_app.
    destruct (last (writes o2)) as [us|]; [exact IH|].
    destruct (step_writes _ _ _ _ _ _ Hstep) as [[-> E]| ->]; cbn; congruence.
Qed.

Lemma file_mirrors_roster_witness :
  match last (writes (effects_after part_000 bob_session (init []))) with
  | Some us => us = userState (state_after part_000 bob_session (init []))
  | None => userState (state_after part_000 bob_session (init []))
            = userState (init [])
  end.
Proof.
  apply (file_mirrors_roster part_000 bob_session (init [])).
  vm_compute. reflexivity.
Defined.

(** ** Registration and verification *)

(** X5: a registration with a non-empty body whose name is not in the roster
    appends the identity [{id: <uuid>, name}] at the end of the roster, writes
    the new roster to the file first, then (where [broadcastUserState] exists)
    sends the new roster to every open client, and answers last and once, with
    status 200 and the new identity.  A body without a [name] key registers
    the name [undefined] in the same way. *)
Theorem registration_succeeds (v : Variant) (body : Value) (uuid : string)
    (fs_ok : bool) (n : nat) (nm : Value) (s : Server) :
  Object_keys_length body = inr (S n) ->
  get_prop body f_name = inr nm ->
  has_name nm (userState s) = false ->
  exists o,
    new_user v body uuid fs_ok s
    = (Normal tt,
       set_userState (userState s ++ [{| id := VStr uuid; name := nm |}]) s, o)
    /\ writes o = [userState s ++ [{| id := VStr uuid; name := nm |}]]
    /\ sends o
       = (if has_broadcastUserState v
          then fan_out (Roster (userState s ++ [{| id := VStr uuid; name := nm |}]))
                 (open_clients s)
          else [])
    /\ responses o = [(200%nat, BodyUser {| id := VStr uuid; name := nm |})]
    /\ head o = Some (WriteFile (userState s ++ [{| id := VStr uuid; name := nm |}]))
    /\ last o = Some (Respond 200 (BodyUser {| id := VStr uuid; name := nm |})).
Proof.
  intros Hn Hnm Hnew. eexists.
  split; [exact (new_user_success v body uuid fs_ok (S n) nm s Hn Hnm Hnew)|].
  cbn [Nat.eqb app].
  split; [|split; [|split; [|split; [reflexivity|]]]].
  - destruct (has_broadcastUserState v), fs_ok; cbn;
      rewrite ?writes_app, ?writes_fan_out; reflexivity.
  - destruct (has_broadcastUserState v), fs_ok; cbn;
      rewrite ?sends_app, ?sends_fan_out; cbn; by rewrite ?app_nil_r.
  - destruct (has_broadcastUserState v), fs_ok; cbn;
      rewrite ?responses_app, ?responses_fan_out; reflexivity.
  - rewrite !last_cons, last_app. reflexivity.
Qed.

Lemma registration_succeeds_witness :
  exists o,
    new_user part_000 (VObj 20 [("name", VStr "bob")]) "B" true
      (after part_000 [alice] [EvConnection 1%nat])
    = (Normal tt,
       set_userState
         (userState (after part_000 [alice] [EvConnection 1%nat])
          ++ [{| id := VStr "B"; name := VStr "bob" |}])
         (after part_000 [alice] [EvConnection 1%nat]), o)
    /\ writes o
       = [userState (after part_000 [alice] [EvConnection 1%nat])
          ++ [{| id := VStr "B"; name := VStr "bob" |}]]
    /\ sends o
       = (if has_broadcastUserState part_000
          then fan_out
                 (Roster (userState (after part_000 [alice] [EvConnection 1%nat])
                          ++ [{| id := VStr "B"; name := VStr "bob" |}]))
                 (open_clients (after part_000 [alice] [EvConnection 1%nat]))
          else [])
    /\ responses o = [(200%nat, BodyUser {| id := VStr "B"; name := VStr "bob" |})]
    /\ head o
       = Some (WriteFile (userState (after part_000 [alice] [EvConnection 1%nat])
                          ++ [{| id := VStr "B"; name := VStr "bob" |}]))
    /\ last o = Some (Respond 200 (BodyUser {| id := VStr "B"; name := VStr "bob" |})).
Proof.
  apply (registration_succeeds part_000 (VObj 20 [("name", VStr "bob")]) "B" true
           0 (VStr "bob") (after part_000 [alice] [EvConnection 1%nat]));
    reflexivity.
Defined.

Lemma new_user_fs (v : Variant) (body : Value) (uuid : string) (s : Server) :
  (new_user v body uuid false s).1 = (new_user v body uuid true s).1
  /\ sends (new_user v body uuid false s).2 = sends (new_user v body uuid true s).2
  /\ responses (new_user v body uuid false s).2
     = responses (new_user v body uuid true s).2
  /\ writes (new_user v body uuid false s).2
     = writes (new_user v body uuid true s).2.
Proof.
  unfold new_user.
  destruct (Object_keys_length body) as [e|n] eqn:Hn; [done|].
  assert (Hnm : exists nm, get_prop body f_name = inr nm).
  { destruct body; cbn in Hn; try discriminate Hn; cbn; eauto. }
  destruct Hnm as [nm Hnm]. rewrite Hnm. unfold_m.
  destruct (List.find (fun user => strict_equals (name user) nm) (userState s))
    eqn:Hfind;
    destruct (n =? 0)%nat, (has_broadcastUserState v); cbn; rewrite Hfind; cbn;
    rewrite ?sends_app, ?responses_app, ?writes_app; done.
Qed.

(** X6: a failing write of the roster file changes nothing but the log: the
    registration and the eviction leave the same state, send the same frames
    and give the same HTTP answer whether [fs.writeFileSync] throws or not
    (the roster in memory is not rolled back, the success answer is still
    given); the failure is logged as an error in place of the "saved" line. *)
Theorem save_failure_is_only_logged (v : Variant) (s : Server) :
  (forall body uuid,
     (new_user v body uuid false s).1 = (new_user v body uuid true s).1
     /\ sends (new_user v body uuid false s).2
        = sends (new_user v body uuid true s).2
     /\ responses (new_user v body uuid false s).2
        = responses (new_user v body uuid true s).2
     /\ writes (new_user v body uuid false s).2
        = writes (new_user v body uuid true s).2)
  /\ (forall u,
        (deletion_timeout v u false s).1 = (deletion_timeout v u true s).1
        /\ sends (deletion_timeout v u false s).2
           = sends (deletion_timeout v u true s).2
        /\ writes (deletion_timeout v u false s).2
           = writes (deletion_timeout v u true s).2)
  /\ (forall ok,
        saveUserState ok s
        = (Normal tt, s,
           [WriteFile (userState s);
            if ok then LogInfo SavedUserState else LogError SaveFailed])).
Proof.
  split; [|split].
  - intros body uuid. apply new_user_fs.
  - intros u. rewrite !deletion_timeout_eq. unfold effects_deletion_timeout. cbn.
    destruct (findIndex u (userState s)); [|done].
    destruct (has_broadcastUserState v); cbn;
      rewrite ?sends_app, ?writes_app; done.
  - intros ok. unfold saveUserState. unfold_m. by destruct ok.
Qed.

Lemma matches_spec (i nm : Value) (us : list User) :
  matches i nm us = true
  <-> exists user, user ∈ us
                   /\ key_of (id user) = key_of i
                   /\ key_of (name user) = key_of nm.
Proof.
  unfold matches. rewrite existsb_exists. split.
  - intros (user & Hin & [H1 H2]%andb_prop). exists user.
    unfold strict_equals in *. apply bool_decide_eq_true in H1, H2.
    split; [by apply list_elem_of_In|done].
  - intros (user & Hin & H1 & H2). exists user.
    split; [by apply list_elem_of_In|].
    unfold strict_equals. by rewrite !bool_decide_eq_true_2.
Qed.

Lemma verify_user_eq (body i nm : Value) (s : Server) :
  get_prop body f_id = inr i -> get_prop body f_name = inr nm ->
  verify_user body s
  = (Normal tt, s,
     [if matches i nm (userState s) then Respond 200 BodyOk
      else Respond 404 (BodyError "User not found")]).
Proof.
  intros Hi Hn. unfold verify_user, matches. rewrite Hi, Hn. unfold_m. cbn.
  by destruct (existsb _ _).
Qed.

(** X7: the verification endpoint never changes the state and answers exactly
    once: 200 when one roster entry has both the id and the name of the
    request (compared with [===]; a missing field is [undefined]), and 404
    otherwise, also when the id and the name are those of two different
    entries. *)
Theorem verify_answers_by_roster (body i nm : Value) (s : Server) :
  get_prop body f_id = inr i ->
  get_prop body f_name = inr nm ->
  exists status b,
    verify_user body s = (Normal tt, s, [Respond status b])
    /\ (status = 200%nat \/ status = 404%nat)
    /\ (status = 200%nat
        <-> exists user, user ∈ userState s
                         /\ key_of (id user) = key_of i
                         /\ key_of (name user) = key_of nm).
Proof.
  intros Hi Hn. rewrite (verify_user_eq body i nm s Hi Hn).
  pose proof (matches_spec i nm (userState s)) as Hm.
  destruct (matches i nm (userState s)).
  - exists 200%nat, BodyOk. split; [reflexivity|]. split; [by left|].
    split; [intros _; by apply Hm|done].
  - exists 404%nat, (BodyError "User not found"). split; [reflexivity|].
    split; [by right|]. split; [discriminate|].
    intros H. apply Hm in H. discriminate H.
Qed.

Lemma verify_answers_by_roster_witness :
  exists status b,
    verify_user (VObj 30 [("id", VStr "A"); ("name", VStr "bob")])
      (init [alice; {| id := VStr "B"; name := VStr "bob" |}])
    = (Normal tt, init [alice; {| id := VStr "B"; name := VStr "bob" |}],
       [Respond status b])
    /\ (status = 200%nat \/ status = 404%nat)
    /\ (status = 200%nat
        <-> exists user,
              user ∈ userState (init [alice; {| id := VStr "B"; name := VStr "bob" |}])
              /\ key_of (id user) = key_of (VStr "A")
              /\ key_of (name user) = key_of (VStr "bob")).
Proof.
  apply (verify_answers_by_roster (VObj 30 [("id", VStr "A"); ("name", VStr "bob")])
           (VStr "A") (VStr "bob")
           (init [alice; {| id := VStr "B"; name := VStr "bob" |}]));
    reflexivity.
Defined.



(** ** Evictions at the edges *)

Lemma findIndex_None (u : Value) (us : list User) :
  has_id u us = false -> findIndex u us = None.
Proof.
  unfold has_id. induction us as [|x us IH]; cbn; [done|].
  destruct (strict_equals (id x) u); cbn; [discriminate|].
  intros H. by rewrite (IH H).
Qed.

(** X9: when the timer of an id that is not in the roster fires (the identity
    is already gone, or a client announced an id that was never registered),
    nothing is removed, written, sent or logged; only the timer and its
    [deletionTimers] entry disappear. *)
Theorem eviction_of_absent_id_is_silent (v : Variant) (h : nat) (fs_ok : bool)
    (t : Timer) (s : Server) :
  timers s !! h = Some t ->
  t_fireAt t <= now s ->
  has_id (t_userId t) (userState s) = false ->
  exists s',
    step v (EvTimeout h fs_ok) s = Some (Normal tt, s', [])
    /\ userState s' = userState s
    /\ messages s' = messages s
    /\ timers s' = delete h (timers s)
    /\ deletionTimers s' = delete (key_of (t_userId t)) (deletionTimers s).
Proof.
  intros Ht Hdue Habs. eexists. split.
  - cbn [step]. rewrite Ht.
    destruct (t_fireAt t <=? now s) eqn:E; [|lia].
    rewrite deletion_timeout_eq.
    unfold after_deletion_timeout, effects_deletion_timeout. cbn.
    rewrite (findIndex_None _ _ Habs). reflexivity.
  - by repeat split.
Qed.

Lemma eviction_of_absent_id_is_silent_witness :
  exists s',
    step part_000 (EvTimeout 0%nat true) (after part_000 [alice] ghost_session)
    = Some (Normal tt, s', [])
    /\ userState s' = userState (after part_000 [alice] ghost_session)
    /\ messages s' = messages (after part_000 [alice] ghost_session)
    /\ timers s' = delete 0%nat (timers (after part_000 [alice] ghost_session))
    /\ deletionTimers s'
       = delete (key_of (t_userId {| t_userId := VStr "ghost"; t_fireAt := 10000 |}))
           (deletionTimers (after part_000 [alice] ghost_session)).
Proof.
  apply (eviction_of_absent_id_is_silent part_000 0 true
           {| t_userId := VStr "ghost"; t_fireAt := 10000 |}
           (after part_000 [alice] ghost_session)).
  - vm_compute. reflexivity.
  - vm_compute. discriminate.
  - reflexivity.
Defined.

Lemma has_id_elem (u : Value) (us : list User) :
  has_id u us = true -> key_of u ∈ roster_ids us.
Proof.
  unfold has_id, roster_ids. induction us as [|x us IH]; cbn; [discriminate|].
  intros [H|H]%orb_prop.
  - unfold strict_equals in H. apply bool_decide_eq_true in H. rewrite H.
    apply list_elem_of_here.
  - apply list_elem_of_further. by apply IH.
Qed.

Lemma has_id_delete_found_unique (u : Value) (us : list User) (idx : nat) :
  NoDup (roster_ids us) -> findIndex u us = Some idx ->
  has_id u (delete idx us) = false.
Proof.
  unfold roster_ids. revert idx.
  induction us as [|x us IH]; intros idx; cbn; [discriminate|].
  intros [Hx Hnd]%NoDup_cons. destruct (strict_equals (id x) u) eqn:E.
  - intros [= <-]. change (has_id u us = false).
    destruct (has_id u us) eqn:Hin; [|reflexivity].
    exfalso. apply Hx. apply has_id_elem in Hin.
    unfold strict_equals in E. apply bool_decide_eq_true in E. by rewrite E.
  - destruct (findIndex u us) as [j|]; cbn; [|discriminate].
    intros [= <-]. change (has_id u (x :: delete j us) = false).
    unfold has_id. cbn [existsb]. rewrite E. by apply IH.
Qed.

Lemma has_id_key (i u : Value) (us : list User) :
  key_of i = key_of u -> has_id i us = has_id u us.
Proof.
  intros Hk. unfold has_id. induction us as [|x us IH]; [reflexivity|].
  cbn [existsb]. rewrite IH. unfold strict_equals. by rewrite Hk.
Qed.

Lemma matches_has_id (i nm : Value) (us : list User) :
  has_id i us = false -> matches i nm us = false.
Proof.
  unfold has_id, matches. induction us as [|x us IH]; cbn; [done|].
  intros [-> H]%orb_false_elim. cbn. by apply IH.
Qed.

(** X10: when the ids of the roster are pairwise different, the firing of an
    identity's timer leaves no entry with that id, and from then on a
    verification request for that id is answered 404, whatever name it
    carries. *)
Theorem evicted_identity_fails_verification (v : Variant) (h : nat) (fs_ok : bool)
    (t : Timer) (s s' : Server) (r : Completion unit) (o : list Effect)
    (body i nm : Value) :
  NoDup (roster_ids (userState s)) ->
  timers s !! h = Some t ->
  step v (EvTimeout h fs_ok) s = Some (r, s', o) ->
  get_prop body f_id = inr i -> key_of i = key_of (t_userId t) ->
  get_prop body f_name = inr nm ->
  has_id (t_userId t) (userState s') = false
  /\ NoDup (roster_ids (userState s'))
  /\ verify_user body s'
     = (Normal tt, s', [Respond 404 (BodyError "User not found")]).
Proof.
  intros Hnd Ht Hstep Hi Hk Hn.
  cbn [step] in Hstep. rewrite Ht in Hstep.
  destruct (t_fireAt t <=? now s); [|discriminate].
  rewrite deletion_timeout_eq in Hstep. injection Hstep as _ <- _.
  assert (Hgone : has_id (t_userId t)
                    (userState (after_deletion_timeout (t_userId t) (disarm h s)))
                  = false).
  { unfold after_deletion_timeout. cbn [disarm set_timers userState].
    destruct (findIndex (t_userId t) (userState s)) as [idx|] eqn:Hf.
    - change (has_id (t_userId t) (delete idx (userState s)) = false).
      by apply has_id_delete_found_unique.
    - change (has_id (t_userId t) (userState s) = false).
      destruct (has_id (t_userId t) (userState s)) eqn:Hin; [|reflexivity].
      destruct (findIndex_has_id _ _ Hin) as [idx Hidx]. congruence. }
  split; [exact Hgone|]. split.
  - unfold after_deletion_timeout. cbn.
    destruct (findIndex (t_userId t) (userState s)) as [idx|]; cbn; [|exact Hnd].
    unfold roster_ids in *. clear -Hnd.
    assert (E : forall us, map (fun user => key_of (id user)) (delete idx us)
                           = delete idx (map (fun user => key_of (id user)) us)).
    { clear. intros us. revert idx.
      induction us as [|x us IH]; intros [|idx]; cbn; try reflexivity.
      f_equal. apply IH. }
    rewrite E. eapply sublist_NoDup; [exact Hnd|apply sublist_delete].
  - rewrite (verify_user_eq body i nm _ Hi Hn).
    rewrite matches_has_id; [reflexivity|].
    by rewrite (has_id_key i (t_userId t) _ Hk).
Qed.

Lemma evicted_identity_fails_verification_witness :
  has_id (t_userId {| t_userId := VStr "A"; t_fireAt := 10000 |})
    (userState (state_after part_000 [EvTimeout 0%nat true]
                  (state_after part_000 busy_interval
                     (after_scheduleDeletion part_000 (VStr "A") (init [alice])))))
  = false
  /\ NoDup (roster_ids
              (userState (state_after part_000 [EvTimeout 0%nat true]
                 (state_after part_000 busy_interval
                    (after_scheduleDeletion part_000 (VStr "A") (init [alice]))))))
  /\ verify_user (VObj 30 [("id", VStr "A"); ("name", VStr "alice")])
       (state_after part_000 [EvTimeout 0%nat true]
          (state_after part_000 busy_interval
             (after_scheduleDeletion part_000 (VStr "A") (init [alice]))))
     = (Normal tt,
        state_after part_000 [EvTimeout 0%nat true]
          (state_after part_000 busy_interval
             (after_scheduleDeletion part_000 (VStr "A") (init [alice]))),
        [Respond 404 (BodyError "User not found")]).
Proof.
  apply (evicted_identity_fails_verification part_000 0 true
           {| t_userId := VStr "A"; t_fireAt := 10000 |}
           (state_after part_000 busy_interval
              (after_scheduleDeletion part_000 (VStr "A") (init [alice])))
           _ (Normal tt)
           (effects_after part_000 [EvTimeout 0%nat true]
              (state_after part_000 busy_interval
                 (after_scheduleDeletion part_000 (VStr "A") (init [alice]))))
           (VObj 30 [("id", VStr "A"); ("name", VStr "alice")])
           (VStr "A") (VStr "alice")).
  - vm_compute. apply NoDup_singleton.
  - vm_compute. reflexivity.
  - vm_compute. reflexivity.
  - reflexivity.
  - reflexivity.
  - reflexivity.
Defined.

(** ** Cancelling, and other identities *)

(** X11: a [cancelDeletion] that follows a [scheduleDeletion] of the same id
    undoes it: the timer table and [deletionTimers] are as if only
    [cancelDeletion] had run, the roster is untouched, and the timer that was
    armed can never fire afterwards, whatever events follow. *)
Theorem cancel_undoes_schedule (v : Variant) (u : Value) (s : Server) :
  timers_consistent s ->
  exists s1 s2,
    scheduleDeletion v u s = (Normal tt, s1, [])
    /\ cancelDeletion u s1 = (Normal tt, s2, [LogInfo (DeletionCancelled u)])
    /\ timers s2 = timers (cancelDeletion u s).1.2
    /\ deletionTimers s2 = deletionTimers (cancelDeletion u s).1.2
    /\ deletionTimers s2 !! key_of u = None
    /\ (forall h, ~ pending_for s2 u h)
    /\ userState s2 = userState s
    /\ (forall evs s' o fs_ok,
          run v evs s2 = Some (s', o) ->
          step v (EvTimeout (next_timer s) fs_ok) s' = None).
Proof.
  intros Hs.
  pose proof (timers_consistent_schedule v u s Hs) as Hs1.
  pose proof (timers_consistent_cancel u _ Hs1) as Hs2.
  exists (after_scheduleDeletion v u s),
    (after_cancelDeletion u (after_scheduleDeletion v u s)).
  assert (E1 : deletionTimers (after_scheduleDeletion v u s) !! key_of u
               = Some (next_timer s)) by apply lookup_insert_eq.
  assert (Hfresh : timers s !! next_timer s = None).
  { destruct (timers s !! next_timer s) as [t|] eqn:Ht; [|reflexivity].
    pose proof (armed_below s Hs _ _ Ht). lia. }
  assert (Hd : deletionTimers (after_cancelDeletion u (after_scheduleDeletion v u s))
                 !! key_of u = None).
  { unfold after_cancelDeletion. rewrite E1. cbn. apply lookup_delete_eq. }
  split; [apply scheduleDeletion_eq|].
  split. { rewrite cancelDeletion_eq. unfold log_cancelDeletion. by rewrite E1. }
  rewrite cancelDeletion_eq. cbn [fst snd].
  split; [|split; [|split; [exact Hd|split; [|split]]]].
  - unfold after_cancelDeletion at 1. rewrite E1. cbn.
    rewrite delete_insert_eq. unfold after_cancelDeletion.
    destruct (deletionTimers s !! key_of u) as [h|] eqn:E; cbn.
    + apply delete_id. rewrite lookup_delete_ne; [exact Hfresh|].
      intros ->. destruct (recorded_armed s Hs _ _ E) as (t & Ht & _). congruence.
    + by apply delete_id.
  - unfold after_cancelDeletion at 1. rewrite E1. cbn.
    rewrite delete_insert_eq. unfold after_cancelDeletion.
    destruct (deletionTimers s !! key_of u) as [h|] eqn:E; cbn; [reflexivity|].
    by apply delete_id.
  - intros h (t & Ht & Hk). apply (armed_recorded _ Hs2) in Ht.
    rewrite Hk in Ht. congruence.
  - by rewrite userState_after_cancelDeletion.
  - intros evs s' o fs_ok Hrun.
    assert (Hr : retired (next_timer s) s').
    { eapply retired_forever; [|exact Hrun].
      apply retired_cancelled; [exact E1|cbn; lia]. }
    cbn [step]. by rewrite (proj2 Hr).
Qed.

Lemma cancel_undoes_schedule_witness :
  exists s1 s2,
    scheduleDeletion part_000 (VStr "A") (init [alice]) = (Normal tt, s1, [])
    /\ cancelDeletion (VStr "A") s1
       = (Normal tt, s2, [LogInfo (DeletionCancelled (VStr "A"))])
    /\ timers s2 = timers (cancelDeletion (VStr "A") (init [alice])).1.2
    /\ deletionTimers s2
       = deletionTimers (cancelDeletion (VStr "A") (init [alice])).1.2
    /\ deletionTimers s2 !! key_of (VStr "A") = None
    /\ (forall h, ~ pending_for s2 (VStr "A") h)
    /\ userState s2 = userState (init [alice])
    /\ (forall evs s' o fs_ok,
          run part_000 evs s2 = Some (s', o) ->
          step part_000 (EvTimeout (next_timer (init [alice])) fs_ok) s' = None).
Proof.
  apply (cancel_undoes_schedule part_000 (VStr "A") (init [alice])).
  apply init_timers_consistent.
Defined.

(** X12: [cancelDeletion] and [scheduleDeletion] for one id leave the pending
    eviction of every other id as it is. *)
Theorem other_identities_keep_their_timers (v : Variant) (u x : Value) (s : Server) :
  timers_consistent s ->
  key_of x <> key_of u ->
  (forall h, pending_for (cancelDeletion u s).1.2 x h <-> pending_for s x h)
  /\ (forall h, pending_for (scheduleDeletion v u s).1.2 x h <-> pending_for s x h)
  /\ deletionTimers (cancelDeletion u s).1.2 !! key_of x
     = deletionTimers s !! key_of x
  /\ deletionTimers (scheduleDeletion v u s).1.2 !! key_of x
     = deletionTimers s !! key_of x.
Proof.
  intros Hs Hne. rewrite cancelDeletion_eq, scheduleDeletion_eq. cbn [fst snd].
  assert (Hold : forall h0 h t,
            deletionTimers s !! key_of u = Some h0 ->
            timers s !! h = Some t -> key_of (t_userId t) = key_of x -> h <> h0).
  { intros h0 h t E Ht Hk ->.
    destruct (recorded_armed s Hs _ _ E) as (t' & Ht' & Hk'). congruence. }
  split; [|split; [|split]].
  - intros h. unfold after_cancelDeletion, pending_for.
    destruct (deletionTimers s !! key_of u) as [h0|] eqn:E; [|done]. cbn.
    split; intros (t & Ht & Hk); exists t; (split; [|exact Hk]).
    + by apply lookup_delete_Some in Ht as [_ Ht].
    + apply lookup_delete_Some. split; [|exact Ht].
      apply not_eq_sym. by eapply Hold.
  - intros h. unfold after_scheduleDeletion, pending_for. cbn.
    split; intros (t & Ht & Hk).
    + apply lookup_insert_Some in Ht as [[<- <-]|[Hn Ht]]; [cbn in Hk; congruence|].
      exists t. split; [|exact Hk].
      destruct (deletionTimers s !! key_of u); [|exact Ht].
      by apply lookup_delete_Some in Ht as [_ Ht].
    + exists t. split; [|exact Hk].
      pose proof (armed_below s Hs _ _ Ht) as Hlt.
      rewrite lookup_insert_ne by lia.
      destruct (deletionTimers s !! key_of u) as [h0|] eqn:E; [|exact Ht].
      apply lookup_delete_Some. split; [|exact Ht].
      apply not_eq_sym. by eapply Hold.
  - unfold after_cancelDeletion.
    destruct (deletionTimers s !! key_of u); [|reflexivity]. cbn.
    by rewrite lookup_delete_ne by (by apply not_eq_sym).
  - unfold after_scheduleDeletion. cbn.
    by rewrite lookup_insert_ne by (by apply not_eq_sym).
Qed.

Lemma other_identities_keep_their_timers_witness :
  (forall h,
     pending_for (cancelDeletion (VStr "B")
                    (after_scheduleDeletion part_000 (VStr "A") (init [alice]))).1.2
       (VStr "A") h
     <-> pending_for (after_scheduleDeletion part_000 (VStr "A") (init [alice]))
           (VStr "A") h)
  /\ (forall h,
        pending_for (scheduleDeletion part_000 (VStr "B")
                       (after_scheduleDeletion part_000 (VStr "A") (init [alice]))).1.2
          (VStr "A") h
        <-> pending_for (after_scheduleDeletion part_000 (VStr "A") (init [alice]))
              (VStr "A") h)
  /\ deletionTimers
       (cancelDeletion (VStr "B")
          (after_scheduleDeletion part_000 (VStr "A") (init [alice]))).1.2
     !! key_of (VStr "A")
     = deletionTimers (after_scheduleDeletion part_000 (VStr "A") (init [alice]))
       !! key_of (VStr "A")
  /\ deletionTimers
       (scheduleDeletion part_000 (VStr "B")
          (after_scheduleDeletion part_000 (VStr "A") (init [alice]))).1.2
     !! key_of (VStr "A")
     = deletionTimers (after_scheduleDeletion part_000 (VStr "A") (init [alice]))
       !! key_of (VStr "A").
Proof.
  apply (other_identities_keep_their_timers part_000 (VStr "B") (VStr "A")
           (after_scheduleDeletion part_000 (VStr "A") (init [alice]))).
  - apply timers_consistent_schedule, init_timers_consistent.
  - discriminate.
Defined.

(** ** Frames at the edges *)

(** X13: a frame that is valid JSON but not an object is logged and otherwise
    ignored (a number, a string, a boolean, an array), except [null], on which
    the handler throws a [TypeError] right after logging the frame; in both
    cases the state is untouched and nothing is sent. *)
Theorem non_object_frames (v : Variant) (ws : nat) (msg : Frame) (m : Value)
    (s : Server) :
  parsed msg = Some m ->
  (forall r fields, m <> VObj r fields) ->
  on_message v ws msg s
  = (match m with
     | VNull | VUndefined => Throw TypeError
     | _ => Normal tt
     end, s, [LogInfo (MessageReceived m)]).
Proof.
  intros Hp Hno. unfold on_message. rewrite Hp.
  destruct m as [| |b|n|str|ref el|ref fields]; simpl_m; try reflexivity.
  by destruct (Hno ref fields).
Qed.

Lemma non_object_frames_witness :
  on_message part_000 1 (frame_of "null" VNull)
    (after part_000 [alice] [EvConnection 1%nat])
  = (match VNull with
     | VNull | VUndefined => Throw TypeError
     | _ => Normal tt
     end, after part_000 [alice] [EvConnection 1%nat],
     [LogInfo (MessageReceived VNull)]).
Proof.
  apply (non_object_frames part_000 1 (frame_of "null" VNull) VNull
           (after part_000 [alice] [EvConnection 1%nat])).
  - reflexivity.
  - discriminate.
Defined.

(** X14: a frame whose [type] is none of "exit", "send" and "join" is logged
    and sends nothing.  If it carries a user with a truthy id it still
    announces: the connection's [currentUserId] is set and a pending eviction
    of that id is cancelled, and that is all that changes; otherwise the state
    is unchanged. *)
Theorem unknown_type_only_announces (v : Variant) (ws : nat) (msg : Frame)
    (s : Server) (r : nat) (fields : list (string * Value)) :
  parsed msg = Some (VObj r fields) ->
  lookup_field "type" fields <> VStr "exit" ->
  lookup_field "type" fields <> VStr "send" ->
  lookup_field "type" fields <> VStr "join" ->
  exists o,
    on_message v ws msg s
    = (Normal tt,
       (if truthy (announced_id fields)
        then (cancelDeletion (announced_id fields)
                (with_currentUserId ws (announced_id fields) s)).1.2
        else s), o)
    /\ sends o = []
    /\ logs o <> [].
Proof.
  intros Hp He Hs Hj. unfold on_message, announced_id, with_currentUserId.
  rewrite Hp. simpl_m.
  assert (E1 : strict_equals (lookup_field "type" fields) (VStr "exit") = false).
  { destruct (strict_equals (lookup_field "type" fields) (VStr "exit")) eqn:E;
      [|reflexivity].
    by apply strict_equals_VStr in E. }
  assert (E2 : strict_equals (lookup_field "type" fields) (VStr "send") = false).
  { destruct (strict_equals (lookup_field "type" fields) (VStr "send")) eqn:E;
      [|reflexivity].
    by apply strict_equals_VStr in E. }
  assert (E3 : strict_equals (lookup_field "type" fields) (VStr "join") = false).
  { destruct (strict_equals (lookup_field "type" fields) (VStr "join")) eqn:E;
      [|reflexivity].
    by apply strict_equals_VStr in E. }
  rewrite E1, E2, E3.
  destruct (truthy (lookup_field "user" fields)) eqn:Hu.
  - destruct (get_prop_truthy _ f_id Hu) as [uid ->]. cbn.
    destruct (truthy uid); eval_m; eexists; (split; [reflexivity|]);
      cbn; rewrite ?sends_log_cancelDeletion; done.
  - rewrite ?Hu. eval_m. eexists. split; [reflexivity|]. cbn. done.
Qed.

Lemma unknown_type_only_announces_witness :
  exists o,
    on_message part_000 1
      ping_alice
      (after part_000 [alice] [EvConnection 1%nat])
    = (Normal tt,
       (if truthy (announced_id [("type", VStr "ping");
                                 ("user", VObj 41 [("id", VStr "A")])])
        then (cancelDeletion
                (announced_id [("type", VStr "ping");
                               ("user", VObj 41 [("id", VStr "A")])])
                (with_currentUserId 1
                   (announced_id [("type", VStr "ping");
                                  ("user", VObj 41 [("id", VStr "A")])])
                   (after part_000 [alice] [EvConnection 1%nat]))).1.2
        else after part_000 [alice] [EvConnection 1%nat]), o)
    /\ sends o = []
    /\ logs o <> [].
Proof.
  apply (unknown_type_only_announces part_000 1
           ping_alice
           (after part_000 [alice] [EvConnection 1%nat])
           40 [("type", VStr "ping"); ("user", VObj 41 [("id", VStr "A")])]);
    [reflexivity|discriminate..].
Defined.

(** ** Announcing an identity *)

Lemma current_of_with_currentUserId (ws : nat) (x : Value) (s : Server) :
  is_Some (sockets s !! ws) -> current_of (with_currentUserId ws x s) ws = x.
Proof.
  intros [k Hk]. unfold current_of, with_currentUserId. cbn.
  by rewrite lookup_alter_eq, Hk.
Qed.

Lemma current_of_other (ws c : nat) (x : Value) (s : Server) :
  c <> ws -> current_of (with_currentUserId ws x s) c = current_of s c.
Proof.
  intros Hne. unfold current_of, with_currentUserId. cbn.
  by rewrite lookup_alter_ne by (by apply not_eq_sym).
Qed.

Lemma current_of_sockets (s s' : Server) (c : nat) :
  sockets s' = sockets s -> current_of s' c = current_of s c.
Proof. unfold current_of. by intros ->. Qed.

Lemma on_message_current_of_other (v : Variant) (ws c : nat) (msg : Frame)
    (s : Server) :
  c <> ws -> current_of (on_message v ws msg s).1.2 c = current_of s c.
Proof.
  intros Hne.
  apply (on_message_keeps (fun x => current_of x c = current_of s c)
           (fun _ => True) ws); try done.
  - intros x s0 <-. by apply (current_of_other ws c x s0).
  - intros u s0 <-. apply current_of_sockets, sockets_after_cancelDeletion.
Qed.

Lemma on_message_announces (v : Variant) (ws : nat) (msg : Frame) (s : Server)
    (r : nat) (fields : list (string * Value)) :
  parsed msg = Some (VObj r fields) ->
  truthy (announced_id fields) = true ->
  is_Some (sockets s !! ws) ->
  current_of (on_message v ws msg s).1.2 ws = announced_id fields.
Proof.
  intros Hp Ha [k Hk]. unfold announced_id in *.
  unfold on_message, connectedUsers_delete. rewrite Hp. simpl_m.
  destruct (truthy (lookup_field "user" fields)) eqn:Hu;
    [|rewrite Hu in Ha; discriminate Ha].
  destruct (get_prop_truthy _ f_id Hu) as [uid Hid].
  destruct (get_prop_truthy _ f_name Hu) as [nm Hnm].
  rewrite Hid in *. rewrite Hnm. cbn. rewrite Ha.
  generalize (lookup_field "type" fields) as ty. intros ty.
  crunch.
  all: unfold current_of; cbn; autorewrite with fields; cbn;
    rewrite ?lookup_alter_eq, ?Hk; reflexivity.
Qed.

(** X15: a frame that carries a user with a truthy id sets the
    [currentUserId] of the connection it arrived on to that id, whatever its
    type (also an exit, and also a type the server does not know), and no
    frame ever changes the [currentUserId] of another connection. *)
Theorem frame_announces_on_its_own_connection (v : Variant) (ws : nat)
    (msg : Frame) (s : Server) (r : nat) (fields : list (string * Value)) :
  parsed msg = Some (VObj r fields) ->
  truthy (announced_id fields) = true ->
  is_Some (sockets s !! ws) ->
  current_of (on_message v ws msg s).1.2 ws = announced_id fields
  /\ (forall c msg', c <> ws ->
        current_of (on_message v ws msg' s).1.2 c = current_of s c).
Proof.
  intros Hp Ha Hk. split.
  - by apply (on_message_announces v ws msg s r fields).
  - intros c msg' Hne. by apply on_message_current_of_other.
Qed.

Lemma frame_announces_on_its_own_connection_witness :
  current_of (on_message part_000 1 ping_alice
                (after part_000 [alice] [EvConnection 1%nat; EvConnection 2%nat])).1.2
    1
  = announced_id [("type", VStr "ping"); ("user", VObj 41 [("id", VStr "A")])]
  /\ (forall c msg', c <> 1%nat ->
        current_of (on_message part_000 1 msg'
                      (after part_000 [alice]
                         [EvConnection 1%nat; EvConnection 2%nat])).1.2 c
        = current_of (after part_000 [alice]
                        [EvConnection 1%nat; EvConnection 2%nat]) c).
Proof.
  apply (frame_announces_on_its_own_connection part_000 1 ping_alice
           (after part_000 [alice] [EvConnection 1%nat; EvConnection 2%nat])
           40 [("type", VStr "ping"); ("user", VObj 41 [("id", VStr "A")])]).
  - reflexivity.
  - reflexivity.
  - vm_compute. eexists. reflexivity.
Defined.

(** X16: a join whose user object has no id (or a falsy one) overwrites the
    connection's [currentUserId] with that value: the identity the connection
    had announced before is forgotten, so that the close of the connection
    schedules no eviction, sends nothing and logs nothing.  The join handler
    itself returns, or throws at its log line when the user's name has no
    string; the overwrite is done by then. *)
Theorem join_without_id_forgets_identity (v : Variant) (ws : nat) (msg : Frame)
    (s : Server) (r : nat) (fields : list (string * Value)) (u : Value) :
  parsed msg = Some (VObj r fields) ->
  lookup_field "type" fields = VStr "join" ->
  truthy (lookup_field "user" fields) = true ->
  get_prop (lookup_field "user" fields) f_id = inr u ->
  truthy u = false ->
  exists s1 o1,
    on_message v ws msg s = (after_interpolating (user_name fields), s1, o1)
    /\ truthy (current_of s1 ws) = false
    /\ (is_Some (sockets s !! ws) -> current_of s1 ws = u)
    /\ on_close v ws (closed ws s1) = (Normal tt, closed ws s1, [])
    /\ timers (closed ws s1) = timers (cancelDeletion u s).1.2.
Proof.
  intros Hp Hty Hu Hid Hf. unfold on_message, after_interpolating, user_name.
  rewrite Hp.
  simpl_m. rewrite Hty, Hu, Hid. fold_strict_equals. cbn. rewrite Hf.
  destruct (get_prop_truthy _ f_name Hu) as [nm ->]. cbn.
  assert (Hcur : forall s0,
            sockets s0
            = alter (fun k => {| readyState := readyState k; currentUserId := u |})
                ws (sockets s) ->
            truthy (current_of s0 ws) = false
            /\ (is_Some (sockets s !! ws) -> current_of s0 ws = u)).
  { intros s0 E. unfold current_of. rewrite E, lookup_alter_eq.
    destruct (sockets s !! ws) as [k|]; cbn; [|by split; [|intros [? [=]]]].
    by split. }
  crunch.
  all: do 2 eexists; (split; [reflexivity|]).
  all: match goal with
       | |- truthy (current_of ?s1 _) = false /\ _ =>
           destruct (Hcur s1) as [H1 H2];
             [cbn; by autorewrite with fields|]
       end.
  all: split; [exact H1|]; split; [exact H2|].
  all: rewrite on_close_eq, current_of_closed, H1.
  all: split; [reflexivity|].
  all: rewrite ?cancelDeletion_eq; cbn; unfold after_cancelDeletion; cbn;
    autorewrite with fields; cbn;
    by destruct (deletionTimers s !! key_of u).
Qed.

Lemma join_without_id_forgets_identity_witness :
  exists s1 o1,
    on_message part_000 1 join_nameonly
      (after part_000 [alice] [EvConnection 1%nat; EvMessage 1%nat join_alice])
    = (after_interpolating
         (user_name [("type", VStr "join");
                     ("user", VObj 43 [("name", VStr "alice")])]), s1, o1)
    /\ truthy (current_of s1 1) = false
    /\ (is_Some (sockets (after part_000 [alice]
                            [EvConnection 1%nat; EvMessage 1%nat join_alice])
                 !! 1%nat) ->
        current_of s1 1 = VUndefined)
    /\ on_close part_000 1 (closed 1 s1) = (Normal tt, closed 1 s1, [])
    /\ timers (closed 1 s1)
       = timers (cancelDeletion VUndefined
                   (after part_000 [alice]
                      [EvConnection 1%nat; EvMessage 1%nat join_alice])).1.2.
Proof.
  apply (join_without_id_forgets_identity part_000 1 join_nameonly
           (after part_000 [alice] [EvConnection 1%nat; EvMessage 1%nat join_alice])
           42 [("type", VStr "join"); ("user", VObj 43 [("name", VStr "alice")])]
           VUndefined); reflexivity.
Defined.

Lemma deletionTimers_after_cancelDeletion (u : Value) (s : Server) :
  deletionTimers (after_cancelDeletion u s) !! key_of u = None.
Proof.
  unfold after_cancelDeletion.
  destruct (deletionTimers s !! key_of u) eqn:E; [|exact E].
  cbn. apply lookup_delete_eq.
Qed.

Lemma on_message_unrecorded (v : Variant) (ws : nat) (msg : Frame) (s : Server)
    (r : nat) (fields : list (string * Value)) :
  parsed msg = Some (VObj r fields) ->
  lookup_field "type" fields <> VStr "exit" ->
  truthy (announced_id fields) = true ->
  deletionTimers (on_message v ws msg s).1.2 !! key_of (announced_id fields) = None.
Proof.
  intros Hp Hne Ha. unfold announced_id in *.
  unfold on_message, connectedUsers_delete. rewrite Hp. simpl_m.
  destruct (truthy (lookup_field "user" fields)) eqn:Hu;
    [|rewrite Hu in Ha; discriminate Ha].
  destruct (get_prop_truthy _ f_id Hu) as [uid Hid].
  destruct (get_prop_truthy _ f_name Hu) as [nm Hnm].
  rewrite Hid in *. rewrite Hnm. cbn. rewrite Ha.
  assert (E1 : strict_equals (lookup_field "type" fields) (VStr "exit") = false).
  { destruct (strict_equals _ _) eqn:E; [|reflexivity].
    by apply strict_equals_VStr in E. }
  rewrite E1.
  generalize (lookup_field "type" fields) as ty. intros ty.
  crunch. all: apply deletionTimers_after_cancelDeletion.
Qed.

(** X17: once a frame other than an exit that carries a user with a truthy
    id has been handled, no eviction is pending for that id, whichever
    connection had scheduled it. *)
Theorem announcement_leaves_no_pending_eviction (v : Variant) (ws : nat)
    (msg : Frame) (s : Server) (r : nat) (fields : list (string * Value)) :
  timers_consistent s ->
  parsed msg = Some (VObj r fields) ->
  lookup_field "type" fields <> VStr "exit" ->
  truthy (announced_id fields) = true ->
  deletionTimers (on_message v ws msg s).1.2 !! key_of (announced_id fields) = None
  /\ (forall h, ~ pending_for (on_message v ws msg s).1.2 (announced_id fields) h)
  /\ userState (on_message v ws msg s).1.2 = userState s.
Proof.
  intros Hs Hp Hne Ha.
  pose proof (on_message_unrecorded v ws msg s r fields Hp Hne Ha) as Hd.
  split; [exact Hd|]. split.
  - intros h (t & Ht & Hk).
    assert (Hs' : timers_consistent (on_message v ws msg s).1.2).
    { apply (on_message_invariant timers_consistent); try done.
      - intros; eapply timers_consistent_ext; [| | |eassumption]; reflexivity.
      - intros; eapply timers_consistent_ext; [| | |eassumption]; reflexivity.
      - intros; eapply timers_consistent_ext; [| | |eassumption]; reflexivity.
      - apply timers_consistent_cancel.
      - apply timers_consistent_schedule. }
    apply (armed_recorded _ Hs') in Ht. rewrite Hk in Ht. congruence.
  - apply (on_message_invariant (fun x => userState x = userState s)); try done.
    intros u s0 <-. apply userState_after_cancelDeletion.
Qed.

Lemma announcement_leaves_no_pending_eviction_witness :
  deletionTimers
    (on_message part_000 2 join_alice
       (after part_000 [alice]
          [EvConnection 1%nat; EvMessage 1%nat exit_alice; EvConnection 2%nat])).1.2
    !! key_of (announced_id
                 [("type", VStr "join");
                  ("user", VObj 15 [("id", VStr "A"); ("name", VStr "alice")])])
  = None
  /\ (forall h,
        ~ pending_for
            (on_message part_000 2 join_alice
               (after part_000 [alice]
                  [EvConnection 1%nat; EvMessage 1%nat exit_alice;
                   EvConnection 2%nat])).1.2
            (announced_id
               [("type", VStr "join");
                ("user", VObj 15 [("id", VStr "A"); ("name", VStr "alice")])]) h)
  /\ userState
       (on_message part_000 2 join_alice
          (after part_000 [alice]
             [EvConnection 1%nat; EvMessage 1%nat exit_alice;
              EvConnection 2%nat])).1.2
     = userState (after part_000 [alice]
                    [EvConnection 1%nat; EvMessage 1%nat exit_alice;
                     EvConnection 2%nat]).
Proof.
  apply (announcement_leaves_no_pending_eviction part_000 2 join_alice
           (after part_000 [alice]
              [EvConnection 1%nat; EvMessage 1%nat exit_alice; EvConnection 2%nat])
           14 [("type", VStr "join");
               ("user", VObj 15 [("id", VStr "A"); ("name", VStr "alice")])]).
  - apply after_timers_consistent.
  - reflexivity.
  - discriminate.
  - reflexivity.
Defined.
Lemma connectedUsers_after_cancelDeletion (u : Value) (s : Server) :
  connectedUsers (after_cancelDeletion u s) = connectedUsers s.
Proof. unfold after_cancelDeletion. by destruct (deletionTimers s !! key_of u). Qed.

Lemma on_message_exit_announced (v : Variant) (ws : nat) (msg : Frame) (s : Server)
    (r : nat) (fields : list (string * Value)) :
  parsed msg = Some (VObj r fields) ->
  lookup_field "type" fields = VStr "exit" ->
  truthy (announced_id fields) = true ->
  is_Some (sockets s !! ws) ->
  exists o,
    on_message v ws msg s
    = (after_interpolating (user_name fields),
       set_connectedUsers (connectedUsers s ∖ {[ws]})
         (after_scheduleDeletion v (announced_id fields)
            (after_cancelDeletion (announced_id fields)
               (with_currentUserId ws (announced_id fields) s))), o)
    /\ sends o = fan_out (Roster (userState s)) (open_clients s).
Proof.
  intros Hp Hty Ha [k Hk]. unfold announced_id, after_interpolating, user_name in *.
  unfold on_message, connectedUsers_delete, with_currentUserId. rewrite Hp. simpl_m.
  destruct (truthy (lookup_field "user" fields)) eqn:Hu;
    [|rewrite Hu in Ha; discriminate Ha].
  destruct (get_prop_truthy _ f_id Hu) as [uid Hid].
  destruct (get_prop_truthy _ f_name Hu) as [nm Hnm].
  rewrite Hid in *. rewrite Hnm, Hty. fold_strict_equals. cbn. rewrite Ha.
  eval_m. rewrite lookup_alter_eq, Hk. cbn. rewrite Ha. eval_m.
  rewrite connectedUsers_after_cancelDeletion. cbn [set_sockets connectedUsers].
  destruct (ToString_throws nm); eval_m.
  all: eexists; split; [reflexivity|].
  all: cbn; autorewrite with fields; cbn; by rewrite ?app_nil_r.
Qed.

(** X18: an exit frame that names its user (a truthy id) first cancels any
    pending eviction of that id and then schedules a new one: afterwards
    exactly one timer is pending for the id, due a full grace period after the
    exit.  The roster is unchanged, and it is this unchanged roster, with the
    leaving identity still in it, that is sent to every open client.  All of
    this is done when the handler reaches its last log line, at which it
    returns, or throws if the user's name has no string. *)
Theorem exit_restarts_the_grace_period (v : Variant) (ws : nat) (msg : Frame)
    (s : Server) (r : nat) (fields : list (string * Value)) :
  timers_consistent s ->
  parsed msg = Some (VObj r fields) ->
  lookup_field "type" fields = VStr "exit" ->
  truthy (announced_id fields) = true ->
  is_Some (sockets s !! ws) ->
  exists s' o,
    on_message v ws msg s = (after_interpolating (user_name fields), s', o)
    /\ timers s' !! next_timer s
       = Some {| t_userId := announced_id fields; t_fireAt := now s + grace v |}
    /\ (forall h, pending_for s' (announced_id fields) h <-> h = next_timer s)
    /\ userState s' = userState s
    /\ sends o = fan_out (Roster (userState s)) (open_clients s).
Proof.
  intros Hs Hp Hty Ha Hk.
  destruct (on_message_exit_announced v ws msg s r fields Hp Hty Ha Hk)
    as (o & E & Hsends).
  do 2 eexists. split; [exact E|].
  set (s0 := with_currentUserId ws (announced_id fields) s).
  assert (Hs0 : timers_consistent s0).
  { eapply timers_consistent_ext; [| | |exact Hs]; reflexivity. }
  pose proof (timers_consistent_cancel (announced_id fields) s0 Hs0) as Hs1.
  pose proof (timers_consistent_schedule v (announced_id fields) _ Hs1) as Hs2.
  assert (Ht : timers (after_scheduleDeletion v (announced_id fields)
                         (after_cancelDeletion (announced_id fields) s0))
               !! next_timer s
               = Some {| t_userId := announced_id fields;
                         t_fireAt := now s + grace v |}).
  { unfold after_scheduleDeletion. cbn.
    rewrite next_timer_after_cancelDeletion, now_after_cancelDeletion. cbn.
    apply lookup_insert_eq. }
  split; [exact Ht|]. split; [|split; [|exact Hsends]].
  - intros h. split.
    + intros Hp'. eapply pending_unique; [exact Hs2|exact Hp'|].
      eexists. split; [exact Ht|reflexivity].
    + intros ->. eexists. split; [exact Ht|reflexivity].
  - cbn. by rewrite userState_after_cancelDeletion.
Qed.

Lemma exit_restarts_the_grace_period_witness :
  exists s' o,
    on_message part_000 1 exit_alice (after part_000 [alice] early_exit)
    = (after_interpolating
         (user_name [("type", VStr "exit");
                     ("user", VObj 12 [("id", VStr "A"); ("name", VStr "alice")])]),
       s', o)
    /\ timers s' !! next_timer (after part_000 [alice] early_exit)
       = Some {| t_userId := announced_id
                   [("type", VStr "exit");
                    ("user", VObj 12 [("id", VStr "A"); ("name", VStr "alice")])];
                 t_fireAt := now (after part_000 [alice] early_exit)
                             + grace part_000 |}
    /\ (forall h,
          pending_for s'
            (announced_id
               [("type", VStr "exit");
                ("user", VObj 12 [("id", VStr "A"); ("name", VStr "alice")])]) h
          <-> h = next_timer (after part_000 [alice] early_exit))
    /\ userState s' = userState (after part_000 [alice] early_exit)
    /\ sends o
       = fan_out (Roster (userState (after part_000 [alice] early_exit)))
           (open_clients (after part_000 [alice] early_exit)).
Proof.
  apply (exit_restarts_the_grace_period part_000 1 exit_alice
           (after part_000 [alice] early_exit)
           11 [("type", VStr "exit");
               ("user", VObj 12 [("id", VStr "A"); ("name", VStr "alice")])]).
  - apply after_timers_consistent.
  - reflexivity.
  - reflexivity.
  - reflexivity.
  - vm_compute. eexists. reflexivity.
Defined.

(** ** The variant without a history *)

Lemma messages_after_scheduleDeletion (v : Variant) (u : Value) (s : Server) :
  messages (after_scheduleDeletion v u s) = messages s.
Proof.
  unfold after_scheduleDeletion. cbn.
  by destruct (deletionTimers s !! key_of u).
Qed.

Ltac quiet_leaf :=
  first
    [ apply keeps_cancelDeletion;
      [intros ? ?; by rewrite messages_after_cancelDeletion|exact Logic.I]
    | apply keeps_scheduleDeletion; intros ? ?;
      by rewrite messages_after_scheduleDeletion
    | apply keeps_send_all; intros ? ? ? ?; exact Logic.I
    | apply keeps_modify; intros ? ?; assumption
    | apply keeps_emit; repeat constructor ].

Lemma step_without_history (g : Z) (b : bool) (ms : list Value) (e : Event)
    (s s' : Server) r o :
  let v := {| grace := g; has_history := false; has_broadcastUserState := b |} in
  messages s = ms -> step v e s = Some (r, s', o) ->
  messages s' = ms /\ Forall no_history o.
Proof.
  intros v Hs Hstep.
  assert (Hk : forall m : M unit,
             keeps (fun x => messages x = ms) no_history m ->
             forall s0, messages s0 = ms -> Some (m s0) = Some (r, s', o) ->
             messages s' = ms /\ Forall no_history o).
  { intros m Hm s0 Hs0 E. destruct (Hm s0 Hs0) as [H1 H2].
    rewrite (Some_state _ _ _ _ E), (Some_effects _ _ _ _ E). by split. }
  destruct e as [ws|ws msg|ws|ws|h fs_ok|body uuid fs_ok|body|dt];
    cbn [step] in Hstep.
  - destruct (sockets s !! ws); [discriminate|].
    eapply (Hk _ _ (accept ws s)); [exact Hs|exact Hstep].
  - destruct (is_client s ws); [|discriminate].
    eapply Hk; [|exact Hs|exact Hstep].
    unfold on_message, write_currentUserId, connectedUsers_delete,
      read_currentUserId.
    subst v. cbn [has_history when]. keeps_all quiet_leaf.
  - destruct (is_open s ws); [|discriminate]. injection Hstep as _ <- <-.
    by split.
  - destruct (is_client s ws); [|discriminate].
    eapply (Hk _ _ (closed ws s)); [exact Hs|exact Hstep].
  - destruct (timers s !! h) as [t|]; [|discriminate].
    destruct (t_fireAt t <=? now s); [|discriminate].
    eapply (Hk _ _ (disarm h s)); [exact Hs|exact Hstep].
  - eapply Hk; [|exact Hs|exact Hstep].
    unfold new_user, saveUserState, broadcastUserState.
    subst v. cbn [has_broadcastUserState]. keeps_all quiet_leaf.
  - eapply Hk; [|exact Hs|exact Hstep].
    unfold verify_user. keeps_all quiet_leaf.
  - destruct (0 <=? dt); [|discriminate]. injection Hstep as _ <- <-.
    by split.
  Unshelve.
  + unfold on_connection, write_currentUserId. keeps_all quiet_leaf.
  + unfold on_close, connectedUsers_delete, read_currentUserId.
    keeps_all quiet_leaf.
  + unfold deletion_timeout, saveUserState, broadcastUserState.
    subst v. cbn [has_broadcastUserState]. keeps_all quiet_leaf.
Qed.

(** X19: a server that keeps no history (as [server.js]) never stores a
    message and never sends a history envelope, whatever events arrive and
    whatever they carry: after any run the message store is what it was, and
    no effect of the run is a send of a history. *)
Theorem without_history_nothing_is_replayed (v : Variant) (evs : list Event)
    (s s' : Server) (o : list Effect) :
  has_history v = false ->
  run v evs s = Some (s', o) ->
  messages s' = messages s
  /\ Forall no_history o
  /\ (forall c p, (c, p) ∈ sends o -> forall ms, p <> History ms).
Proof.
  intros Hv Hrun.
  assert (H : messages s' = messages s /\ Forall no_history o).
  { destruct v as [g hh b]. cbn in Hv. subst hh.
    revert s o Hrun. induction evs as [|e evs IH]; intros s o Hrun; cbn in Hrun.
    - injection Hrun as <- <-. by split.
    - destruct (step _ e s) as [[[r s1] o1]|] eqn:Hstep; [|discriminate].
      destruct (run _ evs s1) as [[s2 o2]|] eqn:Hrest; [|discriminate].
      injection Hrun as <- <-.
      destruct (step_without_history g b (messages s) e s s1 r o1 eq_refl Hstep)
        as [H1 H2].
      destruct (IH s1 o2 Hrest) as [H3 H4].
      split; [congruence|]. by apply Forall_app. }
  destruct H as [H1 H2]. split; [exact H1|]. split; [exact H2|].
  intros c p Hin ms E. subst p. clear -H2 Hin.
  induction o as [|e o IH]; cbn in Hin; [by apply elem_of_nil in Hin|].
  apply Forall_cons in H2 as [He Ho].
  destruct e as [c' p'| | | |]; cbn in Hin; try by apply IH.
  apply elem_of_cons in Hin as [[= <- <-]|Hin]; [exact He|by apply IH].
Qed.

Lemma without_history_nothing_is_replayed_witness :
  messages (state_after server_js two_sends (init [alice]))
  = messages (init [alice])
  /\ Forall no_history (effects_after server_js two_sends (init [alice]))
  /\ (forall c p,
        (c, p) ∈ sends (effects_after server_js two_sends (init [alice])) ->
        forall ms, p <> History ms).
Proof.
  apply (without_history_nothing_is_replayed server_js two_sends (init [alice])).
  - reflexivity.
  - vm_compute. reflexivity.
Defined.

(** ** Relaying a message *)

Lemma open_client_elem (s : Server) (ws : nat) :
  is_client s ws = true -> is_open s ws = true -> ws ∈ open_clients s.
Proof.
  unfold is_client, open_clients. intros Hc Ho.
  apply existsb_exists in Hc as (c & Hin & Hc). apply Nat.eqb_eq in Hc. subst c.
  apply list_elem_of_In, filter_In. by split.
Qed.

Lemma elem_of_fan_out (p q : Payload) (c : nat) (l : list nat) :
  (c, q) ∈ fan_out p l <-> q = p /\ c ∈ l.
Proof.
  unfold fan_out. rewrite list_elem_of_fmap. split.
  - intros (x & [= -> ->] & Hx). by split.
  - intros [-> Hc]. by exists c.
Qed.

(** X20: a "send" frame that arrives on an open connection is relayed as it
    came, the same bytes with the same binary flag, to every open client and
    to no one else; the sender is one of the recipients.  Nothing else is
    sent, and the roster is left as it was. *)
Theorem send_is_relayed_to_sender_too (v : Variant) (ws : nat) (msg : Frame)
    (s : Server) (r : nat) (fields : list (string * Value)) :
  parsed msg = Some (VObj r fields) ->
  lookup_field "type" fields = VStr "send" ->
  is_client s ws = true -> is_open s ws = true ->
  exists s' o,
    step v (EvMessage ws msg) s = Some (Normal tt, s', o)
    /\ (ws, Raw (data msg) (isBinary msg)) ∈ sends o
    /\ (forall c p, (c, p) ∈ sends o
                    <-> p = Raw (data msg) (isBinary msg) /\ c ∈ open_clients s)
    /\ userState s' = userState s.
Proof.
  intros Hp Hty Hc Ho.
  destruct (on_message_send v ws msg s r fields Hp Hty) as (s' & o & E & _ & Hsends).
  exists s', o. cbn [step]. rewrite Hc, E. split; [reflexivity|].
  rewrite Hsends. split; [|split].
  - apply elem_of_fan_out. split; [reflexivity|by apply open_client_elem].
  - intros c p. apply elem_of_fan_out.
  - change s' with (Normal tt, s', o).1.2. rewrite <- E.
    apply (on_message_invariant (fun x => userState x = userState s)); try done.
    intros u s0 <-. apply userState_after_cancelDeletion.
Qed.

Lemma send_is_relayed_to_sender_too_witness :
  exists s' o,
    step server_js (EvMessage 1%nat send_hi)
      (after server_js [alice] [EvConnection 1%nat; EvConnection 2%nat])
    = Some (Normal tt, s', o)
    /\ (1%nat, Raw (data send_hi) (isBinary send_hi)) ∈ sends o
    /\ (forall c p,
          (c, p) ∈ sends o
          <-> p = Raw (data send_hi) (isBinary send_hi)
              /\ c ∈ open_clients
                       (after server_js [alice]
                          [EvConnection 1%nat; EvConnection 2%nat]))
    /\ userState s'
       = userState (after server_js [alice] [EvConnection 1%nat; EvConnection 2%nat]).
Proof.
  apply (send_is_relayed_to_sender_too server_js 1 send_hi
           (after server_js [alice] [EvConnection 1%nat; EvConnection 2%nat])
           13 [("type", VStr "send"); ("text", VStr "hi")]);
    reflexivity.
Defined.
